(** * Bible language-learning lesson generator: the parse-or-fallback pipeline

    A shallow embedding of [app_improved.py]: the four generation agents of
    [BibleLanguageLearningSystem] with their fence extraction and fallback
    records, the text-to-speech agent, the PDF content tree built by
    [generate_pdf], the orchestration in [run_full_lesson_generation] and the
    on-screen formatter [format_lesson_display].

    Python values are modelled as the interpreter has them: a [str] is a
    sequence of Unicode code points, a [dict] keeps insertion order and unique
    keys, and an exception is an explicit outcome.  What the program obtains
    from outside (the chat completion, the HTTP post, the clock, the JSON
    codec of the standard library) is supplied by an environment record. *)

From Stdlib Require Import String Ascii DecimalString Floats.
From Stdlib Require Import List NArith ZArith Bool Arith Lia.
Import ListNotations.

(* decimal literals such as 0.7 denote the nearest double, as in Python *)
Set Warnings "-inexact-float".

(** ** Python strings *)

Module Py.

(** A character is a Unicode code point; a [str] is the sequence of them. *)
Definition char := N.
Definition str := list char.

(** An ASCII literal of the source as code points. *)
Definition lit (s : string) : str :=
  map N_of_ascii (list_ascii_of_string s).

(** [s.startswith(prefix)] *)
Fixpoint startswith (s prefix : str) {struct prefix} : bool :=
  match prefix with
  | [] => true
  | p :: prefix' =>
      match s with
      | [] => false
      | c :: s' => N.eqb c p && startswith s' prefix'
      end
  end.

(** [s.find(sub)]: the lowest index at which [sub] occurs, [None] for -1. *)
Fixpoint find (s sub : str) : option nat :=
  if startswith s sub then Some 0
  else match s with
       | [] => None
       | _ :: s' => option_map S (find s' sub)
       end.

(** [sub in s] *)
Definition contains (s sub : str) : bool :=
  match find s sub with Some _ => true | None => false end.

(** [s.split(sep)] for a non-empty [sep]: the pieces between the leftmost
    non-overlapping occurrences of [sep].  Every occurrence found removes at
    least one character, so [length s] rounds are enough; the callers below
    only pass the literal separators of the source (with an empty separator
    Python raises ValueError). *)
Fixpoint split_rounds (n : nat) (s sep : str) : list str :=
  match find s sep with
  | None => [s]
  | Some i =>
      match n with
      | O => [s]
      | S n' => firstn i s :: split_rounds n' (skipn (i + length sep) s) sep
      end
  end.

Definition split (s sep : str) : list str := split_rounds (length s) s sep.

(** [sep.join(pieces)] on a list of strings. *)
Fixpoint join (sep : str) (pieces : list str) : str :=
  match pieces with
  | [] => []
  | [p] => p
  | p :: rest => p ++ sep ++ join sep rest
  end.

(** [s.replace(old, new)] for a non-empty [old]: every leftmost
    non-overlapping occurrence is replaced. *)
Definition replace (s old new : str) : str := join new (split s old).

(** [c.isspace()]: the white-space code points of the interpreter's
    Unicode database. *)
Definition isspace (c : char) : bool :=
  ((9 <=? c) && (c <=? 13) || (28 <=? c) && (c <=? 32)
   || (c =? 133) || (c =? 160) || (c =? 5760)
   || (8192 <=? c) && (c <=? 8202)
   || (c =? 8232) || (c =? 8233) || (c =? 8239) || (c =? 8287)
   || (c =? 12288))%N.

Fixpoint lstrip (s : str) : str :=
  match s with
  | [] => []
  | c :: s' => if isspace c then lstrip s' else s
  end.

Definition rstrip (s : str) : str := rev (lstrip (rev s)).

(** [s.strip()] *)
Definition strip (s : str) : str := rstrip (lstrip s).

(** [s[:n]] and [s[a:b]] for non-negative literal bounds. *)
Definition upto {A} (n : nat) (s : list A) : list A := firstn n s.
Definition slice {A} (a b : nat) (s : list A) : list A := firstn (b - a) (skipn a s).

(** [str(i)] for a non-negative integer. *)
Definition decimal (n : nat) : str := lit (NilEmpty.string_of_uint (Nat.to_uint n)).

(** [a == b] on strings. *)
Fixpoint str_eqb (a b : str) : bool :=
  match a, b with
  | [], [] => true
  | x :: a', y :: b' => N.eqb x y && str_eqb a' b'
  | _, _ => false
  end.

End Py.
Export Py.

(** ** Python values

    The values a decoded JSON document, a lesson bundle or an optional
    argument can be.  A [dict] is the list of its entries in insertion order;
    JSON objects and the dictionaries of this program have string keys. *)

#[warnings="-register-all"]
Inductive pyval :=
| PNone
| PBool (b : bool)
| PInt (z : Z)
| PFloat (f : float)
| PStr (s : str)
| PList (items : list pyval)
| PDict (entries : list (str * pyval)).

Definition dict := list (str * pyval).

(** [k in d] and [d[k]] *)
Fixpoint dict_lookup {V} (d : list (str * V)) (k : str) : option V :=
  match d with
  | [] => None
  | (k', v) :: d' => if str_eqb k' k then Some v else dict_lookup d' k
  end.

(** [d[k] = v]: an existing key keeps its position, a new one goes last. *)
Fixpoint dict_set (d : dict) (k : str) (v : pyval) : dict :=
  match d with
  | [] => [(k, v)]
  | (k', v') :: d' =>
      if str_eqb k' k then (k', v) :: d' else (k', v') :: dict_set d' k v
  end.

(** A dictionary display [{k1: v1, k2: v2, ...}]: the entries are stored from
    left to right, so a repeated key keeps its first position and its last
    value. *)
Definition dict_of (items : list (str * pyval)) : dict :=
  fold_left (fun d kv => dict_set d (fst kv) (snd kv)) items [].

(** [d.keys()], in insertion order. *)
Definition dict_keys (d : dict) : list str := map fst d.

(** Exceptions the program's own expressions and the layout library can
    raise.  No handler of the source tells them apart (the handlers are a
    bare [except:] and [except Exception]). *)
Inductive exn := AttributeError | TypeError | ValueError | OSError.

Inductive outcome (A : Type) :=
| Return (a : A)
| Raise (e : exn).
Arguments Return {A} a.
Arguments Raise {A} e.

Definition obind {A B} (o : outcome A) (k : A -> outcome B) : outcome B :=
  match o with
  | Return a => k a
  | Raise e => Raise e
  end.

Notation "'let!' x ':=' o 'in' k" := (obind o (fun x => k))
  (at level 10, x name, o at level 100, k at level 200).

(** [v.get(k, default)]: only a dict has the method. *)
Definition py_get (v : pyval) (k : str) (default : pyval) : outcome pyval :=
  match v with
  | PDict d =>
      Return (match dict_lookup d k with Some x => x | None => default end)
  | _ => Raise AttributeError
  end.

(** [v.keys()] *)
Definition py_keys (v : pyval) : outcome (list str) :=
  match v with
  | PDict d => Return (dict_keys d)
  | _ => Raise AttributeError
  end.

(** [v[:n]]: strings and lists are sliced; nothing else of a decoded document
    supports it (a dict rejects the slice as a key: TypeError, from Python
    3.12 on KeyError, which no handler distinguishes). *)
Definition py_upto (n : nat) (v : pyval) : outcome pyval :=
  match v with
  | PStr s => Return (PStr (upto n s))
  | PList l => Return (PList (upto n l))
  | _ => Raise TypeError
  end.

(** [bool(v)], the test of an [if v:]. *)
Definition truthy (v : pyval) : bool :=
  match v with
  | PNone => false
  | PBool b => b
  | PInt z => negb (Z.eqb z 0)
  | PFloat f => negb (PrimFloat.eqb f 0%float)
  | PStr s => match s with [] => false | _ :: _ => true end
  | PList l => match l with [] => false | _ :: _ => true end
  | PDict d => match d with [] => false | _ :: _ => true end
  end.

(** [iter(v)]: a list yields its items, a string its characters, a dict its
    keys; the other values are not iterable. *)
Definition py_iter (v : pyval) : outcome (list pyval) :=
  match v with
  | PList l => Return l
  | PStr s => Return (map (fun c => PStr [c]) s)
  | PDict d => Return (map PStr (dict_keys d))
  | _ => Raise TypeError
  end.

(** The items of [sep.join(...)] must all be strings. *)
Fixpoint all_str (l : list pyval) : outcome (list str) :=
  match l with
  | [] => Return []
  | PStr s :: l' => let! r := all_str l' in Return (s :: r)
  | _ :: _ => Raise TypeError
  end.

(** [sep.join(v)] *)
Definition py_join (sep : str) (v : pyval) : outcome str :=
  let! items := py_iter v in
  let! pieces := all_str items in
  Return (join sep pieces).

(** [enumerate(l, 1)] *)
Definition enumerate1 {A} (l : list A) : list (nat * A) :=
  combine (seq 1 (length l)) l.

(** ** The document content tree

    [generate_pdf] hands the layout library a list of flowables.  The library
    is outside the program: a paragraph is kept as the text and style it is
    built from, and a document that [doc.build] has written is recorded as
    an event.  The library parses a paragraph's text when the paragraph is
    constructed and may raise then, and the build may raise too: both are
    answers of the environment ([paragraph_error] and [doc_build_error]
    below), consulted where the program constructs and builds. *)

Inductive style := CustomTitle | BodyText | Heading2 | Heading3.

Inductive flowable :=
| Paragraph (text : pyval) (st : style)
| Spacer (width : Z) (height : float)
| PageBreak.

(** [reportlab.lib.units.inch] *)
Definition inch : float := 72%float.

(** ** The outside world *)

(** [client.chat.completions.create(model=..., messages=[system, user],
    temperature=..., max_tokens=...)] *)
Record chat_request := {
  chat_model : str;
  chat_system : str;
  chat_user : str;
  chat_temperature : float;
  chat_max_tokens : Z
}.

(** The content of the first choice, a string as the annotation of
    [_call_gpt] has it, or the exception the call raised. *)
Inductive chat_outcome :=
| ChatContent (content : str)
| ChatError (message : str).

(** [requests.post(url, json=data, headers=headers)] *)
Record post_request := {
  post_url : str;
  post_headers : list (str * str);
  post_json : pyval
}.

Inductive post_outcome :=
| PostResponse (status_code : Z) (content : list N) (text : str)
| PostError (message : str).

(** What a run does to the outside, in order. *)
Inductive event :=
| EChat (r : chat_request)
| EPost (r : post_request)
| EWrite (path : str) (content : list N)
| EBuild (path : str) (elements : list flowable)
| EPrint (line : str)
| EProgress (fraction : float) (desc : str).

Definition trace := list event.

(** The interpreter's library and the services the program talks to.  The
    answers of a service may depend on everything that happened before. *)
Record Env := {
  (** [json.loads(s)], [None] when it raises *)
  json_loads : str -> option pyval;
  (** [json.dumps(v, ensure_ascii=False)] *)
  json_dumps : pyval -> str;
  (** [str(v)] of a value that is not itself a string *)
  repr : pyval -> str;
  (** [s.lower()] *)
  lower : str -> str;
  chat_create : trace -> chat_request -> chat_outcome;
  requests_post : trace -> post_request -> post_outcome;
  (** [open(path, 'wb')] and the write: [None] when they go through, the
      message of the exception otherwise *)
  file_write : trace -> str -> list N -> option str;
  (** [datetime.now().strftime(fmt)] *)
  now_strftime : trace -> str -> str;
  (** [tempfile.gettempdir()] *)
  gettempdir : str;
  (** [Paragraph(text, style)] of the layout library, which parses the text
      when the paragraph is constructed: the exception it raises, [None]
      when it accepts the text *)
  paragraph_error : pyval -> style -> option exn;
  (** [doc.build(elements)] of the document at a path: the exception it
      raises, [None] when the file is written *)
  doc_build_error : trace -> str -> list flowable -> option exn
}.

(** A computation that may raise, and that extends the trace. *)
Definition M (A : Type) := trace -> outcome A * trace.

Definition ret {A} (a : A) : M A := fun t => (Return a, t).

Definition bind {A B} (m : M A) (k : A -> M B) : M B :=
  fun t =>
    match m t with
    | (Return a, t') => k a t'
    | (Raise e, t') => (Raise e, t')
    end.

Definition lift {A} (o : outcome A) : M A := fun t => (o, t).

Definition emit (e : event) : M unit := fun t => (Return tt, t ++ [e]).

Notation "x <- m ;; k" := (bind m (fun x => k))
  (at level 61, m at next level, right associativity).
Notation "m ;;; k" := (bind m (fun _ => k))
  (at level 61, right associativity).

(** [s.endswith(suffix)] *)
Definition endswith (s suffix : str) : bool := startswith (rev s) (rev suffix).

(** [os.path.join(a, b)] of [posixpath]. *)
Definition path_join (a b : str) : str :=
  if startswith b (lit "/") then b
  else if match a with [] => true | _ :: _ => false end || endswith a (lit "/")
       then a ++ b
       else a ++ lit "/" ++ b.

(** Characters of the literals that a Rocq string cannot hold directly. *)
Definition dq : str := [34%N].
Definition nl : str := [10%N].
Definition quoted (s : string) : str := dq ++ lit s ++ dq.

(** ** The system object *)

(** The attributes of [BibleLanguageLearningSystem] that the methods read;
    [self.client] is the chat service of the environment. *)
Record BibleLanguageLearningSystem := {
  model : str;
  target_language : str;
  elevenlabs_key : option str
}.

(** The two fence markers. *)
Definition fence_json : str := lit "```json".
Definition fence : str := lit "```".

(** The keys of a verse record that name a language other than English. *)
Definition lang_keys (keys : list str) : list str :=
  filter (fun k => startswith k (lit "verse_text_")
                   && negb (str_eqb k (lit "verse_text_english"))) keys.

(** [lang_keys[0] if lang_keys else 'verse_text_english'] *)
Definition verse_lang_key (keys : list str) : str :=
  match lang_keys keys with
  | k :: _ => k
  | [] => lit "verse_text_english"
  end.

(** The voice table of [agent_tts_generator]. *)
Definition default_voice : str := lit "pNInz6obpgDQGcFmaJgB".

Definition voice_map : list (str * str) :=
  [ (lit "Spanish", lit "pNInz6obpgDQGcFmaJgB");
    (lit "French", lit "pNInz6obpgDQGcFmaJgB");
    (lit "German", lit "pNInz6obpgDQGcFmaJgB");
    (lit "Italian", lit "pNInz6obpgDQGcFmaJgB");
    (lit "Portuguese", lit "pNInz6obpgDQGcFmaJgB");
    (lit "Chinese", lit "pNInz6obpgDQGcFmaJgB");
    (lit "Japanese", lit "pNInz6obpgDQGcFmaJgB");
    (lit "Korean", lit "pNInz6obpgDQGcFmaJgB");
    (lit "Arabic", lit "pNInz6obpgDQGcFmaJgB");
    (lit "Hebrew", lit "pNInz6obpgDQGcFmaJgB") ].

(** [voice_map.get(self.target_language, "pNInz6obpgDQGcFmaJgB")] *)
Definition voice_id (language : str) : str :=
  match dict_lookup voice_map language with
  | Some v => v
  | None => lit "pNInz6obpgDQGcFmaJgB"
  end.

(** [if self.elevenlabs_key]: neither [None] nor the empty string. *)
Definition key_given (k : option str) : bool :=
  match k with
  | Some (_ :: _) => true
  | _ => false
  end.

(** The five exercise categories, in the order every stage lists them. *)
Definition exercise_keys : list str :=
  [ lit "reading_exercises"; lit "writing_exercises"; lit "listening_exercises";
    lit "speaking_exercises"; lit "filling_exercises" ].

(** The fallback of [agent_lesson_designer]. *)
Definition lesson_fallback : pyval :=
  let item q := PList [PDict (dict_of [(lit "question", PStr q)])] in
  PDict (dict_of
    [ (lit "reading_exercises",
        item ([172; 248]%N ++ lit "Cu" ++ [8730; 176]%N
              ++ lit "l es el tema principal del texto?"));
      (lit "writing_exercises",
        item (lit "Escribe sobre tu experiencia personal con este tema."));
      (lit "listening_exercises",
        item ([172; 248]%N ++ lit "Qu" ++ [8730; 169]%N
              ++ lit " palabras clave escuchaste?"));
      (lit "speaking_exercises",
        item (lit "Explica el significado del verso en tus propias palabras."));
      (lit "filling_exercises",
        item (lit "La ___ es importante en la vida cristiana.")) ]).

(** The fallback of [agent_answer_key_generator]. *)
Definition answers_fallback : pyval :=
  let item a e :=
    PList [PDict (dict_of [(lit "answer", PStr a); (lit "explanation", PStr e)])] in
  PDict (dict_of
    [ (lit "reading_exercises",
        item (lit "El tema principal es...")
             (lit "Se encuentra en el p" ++ [8730; 176]%N ++ lit "rrafo principal"));
      (lit "writing_exercises",
        item (lit "Ejemplo de respuesta modelo") (lit "Respuesta modelo"));
      (lit "listening_exercises",
        item (lit "Palabras clave: fe, amor, esperanza") (lit "Escuchar atentamente"));
      (lit "speaking_exercises",
        item (lit "El verso significa que...")
             (lit "Gu" ++ [8730; 8800]%N ++ lit "a de conversaci"
              ++ [8730; 8805]%N ++ lit "n"));
      (lit "filling_exercises",
        item (lit "fe")
             (lit "La palabra correcta es 'fe' seg" ++ [8730; 8747]%N
              ++ lit "n el contexto")) ]).

(** ** The generation agents *)

Section Program.

Variable E : Env.

(** [str(v)], which is also how an f-string renders [{v}]. *)
Definition fmt (v : pyval) : str :=
  match v with
  | PStr s => s
  | _ => repr E v
  end.

(** [f'{prefix}{self.target_language.lower()}'], the naming convention of the
    language-specific fields. *)
Definition field (prefix : string) (self : BibleLanguageLearningSystem) : str :=
  lit prefix ++ lower E (target_language self).

(** The request [_call_gpt] sends. *)
Definition completion_request (self : BibleLanguageLearningSystem)
    (system_prompt user_message : str) (temperature : float) : chat_request :=
  {| chat_model := model self;
     chat_system := system_prompt;
     chat_user := user_message;
     chat_temperature := temperature;
     chat_max_tokens := 4000 |}.

(** What [_call_gpt] returns for an outcome of the call: the content, or for
    an exception the text ["Error: ..."]. *)
Definition reply_text (o : chat_outcome) : str :=
  match o with
  | ChatContent content => content
  | ChatError message => lit "Error: " ++ message
  end.

(** [_call_gpt]: one chat completion. *)
Definition _call_gpt (self : BibleLanguageLearningSystem)
    (system_prompt user_message : str) (temperature : float) : M str :=
  fun t =>
    let req := completion_request self system_prompt user_message temperature in
    (Return (reply_text (chat_create E t req)), t ++ [EChat req]).

(** The body of the [try] block that the four agents share word for word:
    the text to decode, [None] when an expression of the block raises. *)
Definition extract_json_str (response : str) : option str :=
  if contains response fence_json then
    match nth_error (split response fence_json) 1 with
    | Some labelled =>
        match nth_error (split labelled fence) 0 with
        | Some inner => Some (strip inner)
        | None => None
        end
    | None => None
    end
  else if contains response fence then
    match nth_error (split response fence) 1 with
    | Some fenced =>
        match nth_error (split fenced fence) 0 with
        | Some inner => Some (strip inner)
        | None => None
        end
    | None => None
    end
  else Some (strip response).

(** [json.loads(json_str)] at the end of the block; [None] sends the agent to
    its [except:] branch. *)
Definition parse_response (response : str) : option pyval :=
  match extract_json_str response with
  | Some json_str => json_loads E json_str
  | None => None
  end.

(** [try: ... return json.loads(json_str)  except: return fallback] *)
Definition parse_or (fallback : pyval) (response : str) : pyval :=
  match parse_response response with
  | Some record => record
  | None => fallback
  end.

(** *** Agent 1: verse and meditation *)

Definition verse_system_prompt (self : BibleLanguageLearningSystem)
    (language_level : str) : str :=
  join nl
    [ lit "You are a Bible study coordinator agent. Your role is to:";
      lit "1. Select an appropriate verse of the day";
      lit "2. Provide a short meditation paragraph (2-3 sentences) in both English and " ++ target_language self;
      lit "3. Ensure content is appropriate for " ++ language_level ++ lit " language learners";
      [];
      lit "Return ONLY valid JSON with these exact keys:";
      lit "- " ++ quoted "verse_reference" ++ lit ": The Bible verse reference";
      lit "- " ++ quoted "verse_text_english" ++ lit ": The verse in English";
      lit "- " ++ dq ++ field "verse_text_" self ++ dq ++ lit ": The verse in " ++ target_language self;
      lit "- " ++ quoted "meditation_english" ++ lit ": Meditation in English";
      lit "- " ++ dq ++ field "meditation_" self ++ dq ++ lit ": Meditation in " ++ target_language self ].

Definition verse_user_message (self : BibleLanguageLearningSystem)
    (language_level : str) : str :=
  lit "Provide verse of the day with meditation for " ++ target_language self
  ++ lit " at " ++ language_level ++ lit " level.".

Definition verse_fallback (self : BibleLanguageLearningSystem) (response : str) : pyval :=
  PDict (dict_of
    [ (lit "verse_reference", PStr (lit "John 3:16"));
      (lit "verse_text_english", PStr (lit "For God so loved the world..."));
      (field "verse_text_" self, PStr (upto 100 response));
      (lit "meditation_english", PStr (lit "God's love for humanity."));
      (field "meditation_" self,
        PStr (if 100 <? length response then slice 100 200 response
              else lit "Meditaci" ++ [8730; 8805]%N ++ lit "n")) ]).

Definition agent_verse_retriever (self : BibleLanguageLearningSystem)
    (language_level : str) : M pyval :=
  let system_prompt := verse_system_prompt self language_level in
  let user_message := verse_user_message self language_level in
  response <- _call_gpt self system_prompt user_message 0.7 ;;
  ret (parse_or (verse_fallback self response) response).

(** *** Agent 2: reading passage *)

Definition reading_system_prompt (self : BibleLanguageLearningSystem)
    (language_level : str) : str :=
  join nl
    [ lit "You are a language learning content creator.";
      lit "Create a reading comprehension paragraph (150-200 words) in " ++ target_language self ++ lit ".";
      [];
      lit "Requirements:";
      lit "- Appropriate for " ++ language_level ++ lit " level";
      lit "- Include theological insights and practical applications";
      lit "- Use clear, educational language";
      lit "- Natural pronunciation-friendly text (avoid complex punctuation)";
      [];
      lit "Return ONLY valid JSON with:";
      lit "- " ++ dq ++ field "reading_text_" self ++ dq ++ lit ": Reading text in " ++ target_language self;
      lit "- " ++ quoted "reading_text_english" ++ lit ": Reading text in English";
      lit "- " ++ quoted "key_vocabulary" ++ lit ": Array of important vocabulary words" ].

Definition reading_user_message (self : BibleLanguageLearningSystem)
    (verse_data : pyval) : outcome str :=
  let! reference := py_get verse_data (lit "verse_reference") (PStr (lit "N/A")) in
  let! text := py_get verse_data (field "verse_text_" self) (PStr []) in
  Return (lit "Create content based on:" ++ nl
          ++ lit "Verse: " ++ fmt reference ++ nl
          ++ lit "Text: " ++ fmt text).

Definition reading_fallback (self : BibleLanguageLearningSystem) (response : str) : pyval :=
  PDict (dict_of
    [ (field "reading_text_" self, PStr (upto 300 response));
      (lit "reading_text_english", PStr (lit "Reading comprehension text"));
      (lit "key_vocabulary",
        PList [PStr (lit "faith"); PStr (lit "love"); PStr (lit "grace")]) ]).

Definition agent_content_creator (self : BibleLanguageLearningSystem)
    (verse_data : pyval) (language_level : str) : M pyval :=
  let system_prompt := reading_system_prompt self language_level in
  user_message <- lift (reading_user_message self verse_data) ;;
  response <- _call_gpt self system_prompt user_message 0.8 ;;
  ret (parse_or (reading_fallback self response) response).

(** *** Agent 3: exercises *)

Definition lesson_system_prompt (self : BibleLanguageLearningSystem)
    (language_level : str) : str :=
  join nl
    [ lit "You are an expert language lesson designer for " ++ target_language self ++ lit ".";
      lit "Create a comprehensive lesson for " ++ language_level ++ lit " level including:";
      [];
      lit "1. READING: 4-5 comprehension questions about the reading text (in " ++ target_language self ++ lit ")";
      lit "2. WRITING: 3 writing prompts related to the theme (in " ++ target_language self ++ lit ")";
      lit "3. LISTENING: 4 questions about what students should listen for in the audio (in " ++ target_language self ++ lit ")";
      lit "4. SPEAKING: 3 speaking prompts for oral practice (in " ++ target_language self ++ lit ")";
      lit "5. FILLING: 3-4 fill-in-the-blank sentences using vocabulary from the reading (in " ++ target_language self ++ lit ")";
      lit "   - Use ___ to indicate where the word should go";
      lit "   - Make blanks appropriate for " ++ language_level ++ lit " level";
      [];
      lit "Return ONLY valid JSON with:";
      lit "- " ++ quoted "reading_exercises" ++ lit ": Array of objects with " ++ quoted "question" ++ lit " field";
      lit "- " ++ quoted "writing_exercises" ++ lit ": Array of objects with " ++ quoted "question" ++ lit " field";
      lit "- " ++ quoted "listening_exercises" ++ lit ": Array of objects with " ++ quoted "question" ++ lit " field";
      lit "- " ++ quoted "speaking_exercises" ++ lit ": Array of objects with " ++ quoted "question" ++ lit " field";
      lit "- " ++ quoted "filling_exercises" ++ lit ": Array of objects with " ++ quoted "question" ++ lit " field (sentences with ___ for blanks)";
      [];
      lit "Return ONLY the JSON object, no additional text." ].

Definition lesson_user_message (self : BibleLanguageLearningSystem)
    (verse_data reading_data : pyval) : outcome str :=
  let! reference := py_get verse_data (lit "verse_reference") PNone in
  let! text := py_get reading_data (field "reading_text_" self) (PStr []) in
  let! reading := py_upto 200 text in
  let! vocabulary := py_get reading_data (lit "key_vocabulary") (PList []) in
  Return (lit "Design lesson based on:" ++ nl
          ++ lit "Verse: " ++ fmt reference ++ nl
          ++ lit "Reading: " ++ fmt reading ++ nl
          ++ lit "Vocabulary: " ++ fmt vocabulary).

Definition agent_lesson_designer (self : BibleLanguageLearningSystem)
    (verse_data reading_data : pyval) (language_level : str) : M pyval :=
  let system_prompt := lesson_system_prompt self language_level in
  user_message <- lift (lesson_user_message self verse_data reading_data) ;;
  response <- _call_gpt self system_prompt user_message 0.7 ;;
  ret (parse_or lesson_fallback response).

(** *** Agent 4: answer key *)

Definition answers_system_prompt (self : BibleLanguageLearningSystem) : str :=
  join nl
    [ lit "You are an answer key generator for " ++ target_language self ++ lit ".";
      lit "Provide detailed answers and model responses in " ++ target_language self ++ lit ".";
      [];
      lit "For filling exercises, provide ONLY the word(s) that should fill the blank(s).";
      [];
      lit "Return ONLY valid JSON with:";
      lit "- " ++ quoted "reading_exercises" ++ lit ": Array with " ++ quoted "answer" ++ lit " and " ++ quoted "explanation";
      lit "- " ++ quoted "writing_exercises" ++ lit ": Array with " ++ quoted "answer" ++ lit " (model response) and " ++ quoted "explanation";
      lit "- " ++ quoted "listening_exercises" ++ lit ": Array with " ++ quoted "answer" ++ lit " (key points to listen for) and " ++ quoted "explanation";
      lit "- " ++ quoted "speaking_exercises" ++ lit ": Array with " ++ quoted "answer" ++ lit " (sample response) and " ++ quoted "explanation";
      lit "- " ++ quoted "filling_exercises" ++ lit ": Array with " ++ quoted "answer" ++ lit " (the missing word/phrase ONLY) and " ++ quoted "explanation";
      lit "        ";
      lit "Return ONLY the JSON object, no additional text." ].

Definition answers_user_message (self : BibleLanguageLearningSystem)
    (lesson_data reading_data : pyval) : outcome str :=
  let exercises := upto 500 (json_dumps E lesson_data) in
  let! text := py_get reading_data (field "reading_text_" self) (PStr []) in
  let! context := py_upto 300 text in
  let! vocabulary := py_get reading_data (lit "key_vocabulary") (PList []) in
  Return (lit "Generate answers for:" ++ nl
          ++ lit "Exercises: " ++ exercises ++ nl
          ++ lit "Reading context: " ++ fmt context ++ nl
          ++ lit "Vocabulary: " ++ fmt vocabulary).

(** [verse_data] is a parameter of the method that its body never reads. *)
Definition agent_answer_key_generator (self : BibleLanguageLearningSystem)
    (lesson_data verse_data reading_data : pyval) : M pyval :=
  let system_prompt := answers_system_prompt self in
  user_message <- lift (answers_user_message self lesson_data reading_data) ;;
  response <- _call_gpt self system_prompt user_message 0.5 ;;
  ret (parse_or answers_fallback response).

(** *** Agent 5: text to speech *)

Definition tts_request (self : BibleLanguageLearningSystem) (key : str)
    (reading_text : pyval) : post_request :=
  {| post_url := lit "https://api.elevenlabs.io/v1/text-to-speech/"
                 ++ voice_id (target_language self);
     post_headers := [ (lit "Accept", lit "audio/mpeg");
                       (lit "Content-Type", lit "application/json");
                       (lit "xi-api-key", key) ];
     post_json := PDict (dict_of
       [ (lit "text", reading_text);
         (lit "model_id", PStr (lit "eleven_multilingual_v2"));
         (lit "voice_settings", PDict (dict_of
            [ (lit "stability", PFloat 0.5);
              (lit "similarity_boost", PFloat 0.75) ])) ]) |}.

(** The method returns the path of the audio file, or [None]: without a key
    at once, otherwise after the request, when it or the file write raises
    (the [except Exception] branch) or the status is not 200. *)
Definition agent_tts_generator (self : BibleLanguageLearningSystem)
    (reading_text : pyval) : M (option str) :=
  if negb (key_given (elevenlabs_key self)) then ret None
  else fun t =>
    let key := match elevenlabs_key self with Some k => k | None => [] end in
    let req := tts_request self key reading_text in
    let t1 := t ++ [EPost req] in
    match requests_post E t req with
    | PostError message =>
        (Return None, t1 ++ [EPrint (lit "TTS Generation Error: " ++ message)])
    | PostResponse status_code content text =>
        if Z.eqb status_code 200 then
          let audio_filename :=
            lit "reading_audio_" ++ now_strftime E t1 (lit "%Y%m%d_%H%M%S")
            ++ lit ".mp3" in
          let audio_path := path_join (gettempdir E) audio_filename in
          match file_write E t1 audio_path content with
          | None => (Return (Some audio_path), t1 ++ [EWrite audio_path content])
          | Some message =>
              (Return None,
               t1 ++ [EPrint (lit "TTS Generation Error: " ++ message)])
          end
        else
          (Return None,
           t1 ++ [EPrint (lit "ElevenLabs API Error: "
                          ++ fmt (PInt status_code) ++ lit " - " ++ text)])
    end.

(** ** The PDF content tree *)

(** [_add_exercises]: the flowables the method appends to [elements]. *)
Definition _add_exercises (title : str) (exercises : pyval) : list flowable :=
  [ Paragraph (PStr title) Heading2; Spacer 1 (0.1 * inch) ]
  ++ match exercises with
     | PList l =>
         flat_map (fun '(i, ex) =>
           let question :=
             match ex with
             | PDict d =>
                 match dict_lookup d (lit "question") with
                 | Some q => q
                 | None => PStr (fmt ex)
                 end
             | _ => PStr (fmt ex)
             end in
           [ Paragraph (PStr (decimal i ++ lit ". " ++ fmt question)) BodyText;
             Spacer 1 (0.15 * inch) ]) (enumerate1 l)
     | _ => []
     end
  ++ [ Spacer 1 (0.3 * inch) ].

(** [_add_answers]: the flowables the method appends to [elements]. *)
Definition _add_answers (title : str) (answers : pyval) : list flowable :=
  [ Paragraph (PStr (lit "<b>" ++ title ++ lit "</b>")) Heading3;
    Spacer 1 (0.1 * inch) ]
  ++ match answers with
     | PList l =>
         flat_map (fun '(i, ans) =>
           let text :=
             match ans with
             | PDict d =>
                 let answer :=
                   match dict_lookup d (lit "answer") with
                   | Some a => a | None => PStr [] end in
                 let explanation :=
                   match dict_lookup d (lit "explanation") with
                   | Some e => e | None => PStr [] end in
                 decimal i ++ lit ". <b>" ++ fmt answer ++ lit "</b>"
                 ++ (if truthy explanation
                     then lit " <i>(" ++ fmt explanation ++ lit ")</i>"
                     else [])
             | _ => decimal i ++ lit ". " ++ fmt ans
             end in
           [ Paragraph (PStr text) BodyText; Spacer 1 (0.1 * inch) ])
           (enumerate1 l)
     | _ => []
     end
  ++ [ Spacer 1 (0.2 * inch) ].

(** The body of [generate_pdf] between [elements = []] and [doc.build]
    appends to the list [elements] and may raise. *)
Definition B (A : Type) := list flowable -> outcome (A * list flowable).

Definition bret {A} (a : A) : B A := fun elements => Return (a, elements).

Definition bbind {A C} (m : B A) (k : A -> B C) : B C :=
  fun elements =>
    match m elements with
    | Return (a, elements') => k a elements'
    | Raise e => Raise e
    end.

Definition blift {A} (o : outcome A) : B A :=
  fun elements =>
    match o with
    | Return a => Return (a, elements)
    | Raise e => Raise e
    end.

Notation "x <~ m ;; k" := (bbind m (fun x => k))
  (at level 61, m at next level, right associativity).
Notation "m ;;~ k" := (bbind m (fun _ => k))
  (at level 61, right associativity).

(** [elements.append(f)], the flowable constructed first: [Paragraph(text,
    style)] raises what the library's parser raises on a text it cannot
    take, [Spacer] and [PageBreak] take numbers only and always construct. *)
Definition append (f : flowable) : B unit :=
  fun elements =>
    match f with
    | Paragraph text st =>
        match paragraph_error E text st with
        | Some e => Raise e
        | None => Return (tt, elements ++ [f])
        end
    | _ => Return (tt, elements ++ [f])
    end.

(** The appends of [_add_exercises] and [_add_answers], which do nothing
    else that can raise: one after the other, in the order of the list. *)
Fixpoint append_each (fs : list flowable) : B unit :=
  match fs with
  | [] => bret tt
  | f :: rest => append f ;;~ append_each rest
  end.

(** The statements of [generate_pdf] that fill [elements], in the order of
    the source, given the date line's date. *)
Definition pdf_body (self : BibleLanguageLearningSystem)
    (lesson_content : pyval) (date : str) : B unit :=
  append (Paragraph (PStr (lit "Bible Language Learning Lesson<br/>"
                           ++ target_language self)) CustomTitle) ;;~
  append (Spacer 1 (0.2 * inch)) ;;~
  level <~ blift (py_get lesson_content (lit "level") (PStr (lit "B1"))) ;;
  append (Paragraph (PStr (lit "Date: " ++ date ++ lit "<br/>Level: " ++ fmt level))
            BodyText) ;;~
  append (Spacer 1 (0.3 * inch)) ;;~
  verse_data <~ blift (py_get lesson_content (lit "verse_data") (PDict [])) ;;
  append (Paragraph (PStr ([63743; 252; 236; 241]%N ++ lit " Verse of the Day"))
            Heading2) ;;~
  append (Spacer 1 (0.1 * inch)) ;;~
  verse_ref <~ blift (py_get verse_data (lit "verse_reference") (PStr (lit "N/A"))) ;;
  append (Paragraph (PStr (lit "<b>" ++ fmt verse_ref ++ lit "</b>")) BodyText) ;;~
  verse_text <~
    blift (py_get verse_data (field "verse_text_" self) (PStr (lit "N/A"))) ;;
  append (Paragraph (PStr (lit "<i>" ++ fmt verse_text ++ lit "</i>")) BodyText) ;;~
  append (Spacer 1 (0.2 * inch)) ;;~
  meditation <~ blift (py_get verse_data (field "meditation_" self) (PStr [])) ;;
  (if truthy meditation
   then append (Paragraph (PStr (lit "<b>Meditation:</b> " ++ fmt meditation))
                  BodyText) ;;~
        append (Spacer 1 (0.3 * inch))
   else bret tt) ;;~
  reading_data <~ blift (py_get lesson_content (lit "reading_data") (PDict [])) ;;
  append (Paragraph (PStr ([63743; 252; 236; 246]%N ++ lit " Reading Comprehension"))
            Heading2) ;;~
  append (Spacer 1 (0.1 * inch)) ;;~
  reading_text <~
    blift (py_get reading_data (field "reading_text_" self) (PStr (lit "N/A"))) ;;
  append (Paragraph reading_text BodyText) ;;~
  append (Spacer 1 (0.3 * inch)) ;;~
  audio_path <~ blift (py_get lesson_content (lit "audio_path") PNone) ;;
  (if truthy audio_path
   then append (Paragraph (PStr (lit "<b>" ++ [63743; 252; 238; 228]%N
                                 ++ lit " Audio available for listening exercise</b>"))
                  BodyText) ;;~
        append (Spacer 1 (0.2 * inch))
   else bret tt) ;;~
  vocab <~ blift (py_get reading_data (lit "key_vocabulary") (PList [])) ;;
  (if truthy vocab
   then append (Paragraph (PStr (lit "<b>Key Vocabulary:</b>")) BodyText) ;;~
        vocab_text <~ blift (match vocab with
                             | PList _ => py_join (lit ", ") vocab
                             | _ => Return (fmt vocab)
                             end) ;;
        append (Paragraph (PStr vocab_text) BodyText) ;;~
        append (Spacer 1 (0.3 * inch))
   else bret tt) ;;~
  append PageBreak ;;~
  lesson_data <~ blift (py_get lesson_content (lit "lesson_data") (PDict [])) ;;
  reading_ex <~ blift (py_get lesson_data (lit "reading_exercises") (PList [])) ;;
  append_each (_add_exercises ([63743; 252; 236; 241]%N ++ lit " Reading Exercises")
                 reading_ex) ;;~
  writing_ex <~ blift (py_get lesson_data (lit "writing_exercises") (PList [])) ;;
  append_each (_add_exercises ([8218; 250; 231; 212; 8719; 232]%N
                               ++ lit " Writing Exercises") writing_ex) ;;~
  listening_ex <~ blift (py_get lesson_data (lit "listening_exercises") (PList [])) ;;
  append_each (_add_exercises ([63743; 252; 235; 199]%N ++ lit " Listening Exercises")
                 listening_ex) ;;~
  speaking_ex <~ blift (py_get lesson_data (lit "speaking_exercises") (PList [])) ;;
  append_each (_add_exercises ([63743; 252; 243; 163; 212; 8719; 232]%N
                               ++ lit " Speaking Exercises") speaking_ex) ;;~
  filling_ex <~ blift (py_get lesson_data (lit "filling_exercises") (PList [])) ;;
  append_each (_add_exercises ([8218; 250; 232; 212; 8719; 232]%N
                               ++ lit " Fill-in-the-Blank Exercises") filling_ex) ;;~
  append PageBreak ;;~
  append (Paragraph (PStr ([8218; 250; 214]%N ++ lit " Answer Key")) Heading2) ;;~
  append (Spacer 1 (0.2 * inch)) ;;~
  answers <~ blift (py_get lesson_content (lit "answers") (PDict [])) ;;
  reading_ans <~ blift (py_get answers (lit "reading_exercises") (PList [])) ;;
  append_each (_add_answers (lit "Reading Answers") reading_ans) ;;~
  writing_ans <~ blift (py_get answers (lit "writing_exercises") (PList [])) ;;
  append_each (_add_answers (lit "Writing Answers") writing_ans) ;;~
  listening_ans <~ blift (py_get answers (lit "listening_exercises") (PList [])) ;;
  append_each (_add_answers (lit "Listening Answers") listening_ans) ;;~
  speaking_ans <~ blift (py_get answers (lit "speaking_exercises") (PList [])) ;;
  append_each (_add_answers (lit "Speaking Answers") speaking_ans) ;;~
  filling_ans <~ blift (py_get answers (lit "filling_exercises") (PList [])) ;;
  append_each (_add_answers (lit "Fill-in-the-Blank Answers") filling_ans).

(** The list [elements] that [generate_pdf] has built when it reaches
    [doc.build]; the first lookup or paragraph that raises ends the method
    before anything is built. *)
Definition pdf_elements (self : BibleLanguageLearningSystem)
    (lesson_content : pyval) (date : str) : outcome (list flowable) :=
  match pdf_body self lesson_content date [] with
  | Return (_, elements) => Return elements
  | Raise e => Raise e
  end.

(** [datetime.now().strftime(format)] *)
Definition now (format : str) : M str :=
  fun t => (Return (now_strftime E t format), t).

(** [doc.build(elements)]: the document is written at the path, or the
    library raises and nothing is. *)
Definition doc_build (filepath : str) (elements : list flowable) : M unit :=
  fun t =>
    match doc_build_error E t filepath elements with
    | Some e => (Raise e, t)
    | None => (Return tt, t ++ [EBuild filepath elements])
    end.

(** [generate_pdf(lesson_content, filename=None)]: the path of the document
    built by the layout library. *)
Definition generate_pdf (self : BibleLanguageLearningSystem)
    (lesson_content : pyval) (filename : option str) : M str :=
  filename <- match filename with
              | Some given => ret given
              | None =>
                  stamp <- now (lit "%Y%m%d_%H%M%S") ;;
                  ret (lit "bible_lesson_" ++ stamp ++ lit ".pdf")
              end ;;
  let filepath := path_join (gettempdir E) filename in
  date <- now (lit "%B %d, %Y") ;;
  elements <- lift (pdf_elements self lesson_content date) ;;
  doc_build filepath elements ;;;
  ret filepath.

(** ** Orchestration *)

(** [progress(fraction, desc=...)], the notification of the form. *)
Definition progress (fraction : float) (desc : str) : M unit :=
  emit (EProgress fraction desc).

(** A Python [Optional[str]] as a value. *)
Definition of_path (p : option str) : pyval :=
  match p with
  | Some path => PStr path
  | None => PNone
  end.

(** [run_full_lesson_generation]: the bundle, the document path and the
    audio path. *)
Definition run_full_lesson_generation (self : BibleLanguageLearningSystem)
    (language_level : str) : M (pyval * str * option str) :=
  progress 0 (lit "Starting lesson generation...") ;;;
  progress 0.15 ([63743; 252; 236; 241]%N ++ lit " Getting verse of the day...") ;;;
  verse_data <- agent_verse_retriever self language_level ;;
  progress 0.30 ([63743; 252; 236; 246]%N ++ lit " Creating reading comprehension...") ;;;
  reading_data <- agent_content_creator self verse_data language_level ;;
  progress 0.45 ([63743; 252; 233; 236]%N ++ lit " Designing lesson exercises...") ;;;
  lesson_data <- agent_lesson_designer self verse_data reading_data language_level ;;
  progress 0.60 ([8218; 250; 214]%N ++ lit " Generating answer key...") ;;;
  answers <- agent_answer_key_generator self lesson_data verse_data reading_data ;;
  audio_path <-
    (if key_given (elevenlabs_key self) then
       progress 0.75 ([63743; 252; 238; 228]%N
                      ++ lit " Generating audio (this may take a moment)...") ;;;
       reading_text <- lift (py_get reading_data (field "reading_text_" self) (PStr [])) ;;
       if truthy reading_text then agent_tts_generator self reading_text
       else ret None
     else ret None) ;;
  progress 0.90 ([63743; 252; 236; 209]%N ++ lit " Creating PDF...") ;;;
  let lesson_content :=
    PDict (dict_of
      [ (lit "level", PStr language_level);
        (lit "verse_data", verse_data);
        (lit "reading_data", reading_data);
        (lit "lesson_data", lesson_data);
        (lit "answers", answers);
        (lit "audio_path", of_path audio_path) ]) in
  pdf_path <- generate_pdf self lesson_content None ;;
  progress 1.0 ([8218; 250; 174]%N ++ lit " Complete!") ;;;
  ret (lesson_content, pdf_path, audio_path).

(** *** The run in segments

    To speak of the point a run has reached, its straight-line body is cut
    in three: steps 1 and 2 up to the notice that opens step 3, steps 3 and
    4, and steps 5 and 6. *)

Definition first_stages (self : BibleLanguageLearningSystem)
    (language_level : str) : M (pyval * pyval) :=
  progress 0 (lit "Starting lesson generation...") ;;;
  progress 0.15 ([63743; 252; 236; 241]%N ++ lit " Getting verse of the day...") ;;;
  verse_data <- agent_verse_retriever self language_level ;;
  progress 0.30 ([63743; 252; 236; 246]%N ++ lit " Creating reading comprehension...") ;;;
  reading_data <- agent_content_creator self verse_data language_level ;;
  progress 0.45 ([63743; 252; 233; 236]%N ++ lit " Designing lesson exercises...") ;;;
  ret (verse_data, reading_data).

Definition finish_lesson (self : BibleLanguageLearningSystem)
    (language_level : str) (verse_data reading_data lesson_data answers : pyval)
    : M (pyval * str * option str) :=
  audio_path <-
    (if key_given (elevenlabs_key self) then
       progress 0.75 ([63743; 252; 238; 228]%N
                      ++ lit " Generating audio (this may take a moment)...") ;;;
       reading_text <- lift (py_get reading_data (field "reading_text_" self) (PStr [])) ;;
       if truthy reading_text then agent_tts_generator self reading_text
       else ret None
     else ret None) ;;
  progress 0.90 ([63743; 252; 236; 209]%N ++ lit " Creating PDF...") ;;;
  let lesson_content :=
    PDict (dict_of
      [ (lit "level", PStr language_level);
        (lit "verse_data", verse_data);
        (lit "reading_data", reading_data);
        (lit "lesson_data", lesson_data);
        (lit "answers", answers);
        (lit "audio_path", of_path audio_path) ]) in
  pdf_path <- generate_pdf self lesson_content None ;;
  progress 1.0 ([8218; 250; 174]%N ++ lit " Complete!") ;;;
  ret (lesson_content, pdf_path, audio_path).

(** The run, segment after segment. *)
Definition run_in_segments (self : BibleLanguageLearningSystem)
    (language_level : str) : M (pyval * str * option str) :=
  stage12 <- first_stages self language_level ;;
  let verse_data := fst stage12 in
  let reading_data := snd stage12 in
  lesson_data <- agent_lesson_designer self verse_data reading_data language_level ;;
  progress 0.60 ([8218; 250; 214]%N ++ lit " Generating answer key...") ;;;
  answers <- agent_answer_key_generator self lesson_data verse_data reading_data ;;
  finish_lesson self language_level verse_data reading_data lesson_data answers.

(** ** The on-screen formatter *)

(** One [for i, ex in enumerate(data.get(key, []), 1)] loop of
    [format_lesson_display]: the lines it adds to [output]. *)
Fixpoint exercise_lines (numbered : list (nat * pyval)) : outcome str :=
  match numbered with
  | [] => Return []
  | (i, ex) :: rest =>
      let! question := py_get ex (lit "question") (PStr (fmt ex)) in
      let! more := exercise_lines rest in
      Return (decimal i ++ lit ". " ++ fmt question ++ nl ++ more)
  end.

Definition exercise_loop (lesson_data : pyval) (key : str) : outcome str :=
  let! exercises := py_get lesson_data key (PList []) in
  let! items := py_iter exercises in
  exercise_lines (enumerate1 items).

(** The text [format_lesson_display] builds once the three lookup keys are
    chosen. *)
Definition display_with (verse_key meditation_lang_key reading_lang_key : str)
    (verse_data reading_data lesson_data : pyval) : outcome str :=
  let! reference := py_get verse_data (lit "verse_reference") (PStr (lit "N/A")) in
  let! verse_english := py_get verse_data (lit "verse_text_english") (PStr (lit "N/A")) in
  let! verse := py_get verse_data verse_key verse_english in
  let! meditation_english :=
    py_get verse_data (lit "meditation_english") (PStr (lit "N/A")) in
  let! meditation := py_get verse_data meditation_lang_key meditation_english in
  let! reading_english :=
    py_get reading_data (lit "reading_text_english") (PStr (lit "N/A")) in
  let! reading := py_get reading_data reading_lang_key reading_english in
  let! vocabulary_items := py_get reading_data (lit "key_vocabulary") (PList []) in
  let! vocabulary := py_join (lit ", ") vocabulary_items in
  let output :=
    nl ++ lit "# " ++ [63743; 252; 236; 241]%N ++ lit " Verse of the Day" ++ nl
    ++ nl
    ++ lit "**" ++ fmt reference ++ lit "**" ++ nl
    ++ nl
    ++ lit "*" ++ fmt verse ++ lit "*" ++ nl
    ++ nl
    ++ lit "**Meditation:**" ++ nl
    ++ fmt meditation ++ nl
    ++ nl
    ++ lit "---" ++ nl
    ++ nl
    ++ lit "# " ++ [63743; 252; 236; 246]%N ++ lit " Reading Comprehension" ++ nl
    ++ nl
    ++ fmt reading ++ nl
    ++ nl
    ++ lit "**Key Vocabulary:** " ++ vocabulary ++ nl
    ++ nl
    ++ lit "---" ++ nl
    ++ nl
    ++ lit "# " ++ [63743; 252; 236; 249]%N ++ lit " Exercises" ++ nl
    ++ nl
    ++ lit "## " ++ [63743; 252; 236; 241]%N ++ lit " Reading Exercises" ++ nl in
  let! reading_part := exercise_loop lesson_data (lit "reading_exercises") in
  let! writing_part := exercise_loop lesson_data (lit "writing_exercises") in
  let! listening_part := exercise_loop lesson_data (lit "listening_exercises") in
  let! speaking_part := exercise_loop lesson_data (lit "speaking_exercises") in
  let! filling_part := exercise_loop lesson_data (lit "filling_exercises") in
  Return
    (output ++ reading_part
     ++ nl ++ lit "## " ++ [8218; 250; 231; 212; 8719; 232]%N
     ++ lit " Writing Exercises" ++ nl ++ writing_part
     ++ nl ++ lit "## " ++ [63743; 252; 235; 199]%N
     ++ lit " Listening Exercises" ++ nl ++ listening_part
     ++ nl ++ lit "## " ++ [63743; 252; 243; 163; 212; 8719; 232]%N
     ++ lit " Speaking Exercises" ++ nl ++ speaking_part
     ++ nl ++ lit "## " ++ [8218; 250; 232; 212; 8719; 232]%N
     ++ lit " Fill-in-the-Blank Exercises" ++ nl ++ filling_part).

Definition format_lesson_display (lesson_content : pyval) : outcome str :=
  let! verse_data := py_get lesson_content (lit "verse_data") (PDict []) in
  let! reading_data := py_get lesson_content (lit "reading_data") (PDict []) in
  let! lesson_data := py_get lesson_content (lit "lesson_data") (PDict []) in
  let! keys := py_keys verse_data in
  let verse_key := verse_lang_key keys in
  let meditation_lang_key := replace verse_key (lit "verse_text_") (lit "meditation_") in
  let reading_lang_key := replace verse_key (lit "verse_text_") (lit "reading_text_") in
  display_with verse_key meditation_lang_key reading_lang_key
    verse_data reading_data lesson_data.

(** ** The four generation stages, side by side

    The agents share one shape: build the request, call the service once,
    decode or fall back.  To state a property of all four at once they are
    indexed by their stage. *)

Inductive stage := Verse | Reading | Exercise | Answer.

(** What the orchestration has at hand when it calls a stage. *)
Record stage_inputs := {
  language_level : str;
  verse_data : pyval;
  reading_data : pyval;
  lesson_data : pyval
}.

Definition agent (self : BibleLanguageLearningSystem) (s : stage)
    (i : stage_inputs) : M pyval :=
  match s with
  | Verse => agent_verse_retriever self (language_level i)
  | Reading => agent_content_creator self (verse_data i) (language_level i)
  | Exercise =>
      agent_lesson_designer self (verse_data i) (reading_data i) (language_level i)
  | Answer =>
      agent_answer_key_generator self (lesson_data i) (verse_data i) (reading_data i)
  end.

(** The record of the stage's [except:] branch. *)
Definition fallback_of (self : BibleLanguageLearningSystem) (s : stage)
    (response : str) : pyval :=
  match s with
  | Verse => verse_fallback self response
  | Reading => reading_fallback self response
  | Exercise => lesson_fallback
  | Answer => answers_fallback
  end.

(** The request the stage sends, or the exception of building its user
    message. *)
Definition stage_request (self : BibleLanguageLearningSystem) (s : stage)
    (i : stage_inputs) : outcome chat_request :=
  match s with
  | Verse =>
      Return (completion_request self
                (verse_system_prompt self (language_level i))
                (verse_user_message self (language_level i)) 0.7)
  | Reading =>
      let! user_message := reading_user_message self (verse_data i) in
      Return (completion_request self
                (reading_system_prompt self (language_level i)) user_message 0.8)
  | Exercise =>
      let! user_message := lesson_user_message self (verse_data i) (reading_data i) in
      Return (completion_request self
                (lesson_system_prompt self (language_level i)) user_message 0.7)
  | Answer =>
      let! user_message :=
        answers_user_message self (lesson_data i) (reading_data i) in
      Return (completion_request self (answers_system_prompt self) user_message 0.5)
  end.

(** The keys of a stage's record that the later stages, the renderer and the
    formatter look up. *)
Definition keys_read (self : BibleLanguageLearningSystem) (s : stage) : list str :=
  match s with
  | Verse =>
      [ lit "verse_reference"; field "verse_text_" self; field "meditation_" self;
        lit "verse_text_english"; lit "meditation_english" ]
  | Reading =>
      [ field "reading_text_" self; lit "key_vocabulary"; lit "reading_text_english" ]
  | Exercise => exercise_keys
  | Answer => exercise_keys
  end.

End Program.

(** ** A reference environment

    To run the program on concrete responses the environment is instantiated
    with a decoder for JSON texts as [json.loads] reads them, restricted to
    numbers without fraction or exponent (a text with such a number, or with
    [NaN] or [Infinity], is outside the fragment and yields [None]), with
    scripted services and a fixed clock. *)

Module Ref.

(** The white space the decoder skips: space, tab, line feed, return. *)
Definition json_ws (c : char) : bool :=
  ((c =? 32) || (c =? 9) || (c =? 10) || (c =? 13))%N.

Fixpoint skip_ws (s : str) : str :=
  match s with
  | c :: s' => if json_ws c then skip_ws s' else s
  | [] => []
  end.

Definition hex_digit (c : char) : option N :=
  (if (48 <=? c) && (c <=? 57) then Some (c - 48)
   else if (65 <=? c) && (c <=? 70) then Some (c - 55)
   else if (97 <=? c) && (c <=? 102) then Some (c - 87)
   else None)%N.

(** Four hexadecimal digits after a backslash-u. *)
Definition hex4 (s : str) : option (N * str) :=
  match s with
  | a :: b :: c :: d :: rest =>
      match hex_digit a, hex_digit b, hex_digit c, hex_digit d with
      | Some x, Some y, Some z, Some w =>
          Some (((x * 16 + y) * 16 + z) * 16 + w, rest)%N
      | _, _, _, _ => None
      end
  | _ => None
  end.

(** The body of a string after its opening quote, up to the closing one.
    Control characters are rejected; a high surrogate escape followed by a
    low one is combined. *)
Fixpoint scanstring (n : nat) (s : str) : option (str * str) :=
  match n with
  | O => None
  | S n' =>
      match s with
      | [] => None
      | 34%N :: rest => Some ([], rest)
      | 92%N :: e :: rest =>
          let plain c :=
            match scanstring n' rest with
            | Some (body, r) => Some (c :: body, r)
            | None => None
            end in
          if (e =? 34)%N then plain 34%N
          else if (e =? 92)%N then plain 92%N
          else if (e =? 47)%N then plain 47%N
          else if (e =? 98)%N then plain 8%N
          else if (e =? 102)%N then plain 12%N
          else if (e =? 110)%N then plain 10%N
          else if (e =? 114)%N then plain 13%N
          else if (e =? 116)%N then plain 9%N
          else if (e =? 117)%N then
            match hex4 rest with
            | Some (u, r) =>
                let single :=
                  match scanstring n' r with
                  | Some (body, r') => Some (u :: body, r')
                  | None => None
                  end in
                if ((55296 <=? u) && (u <=? 56319))%N then
                  match r with
                  | 92%N :: 117%N :: r2 =>
                      match hex4 r2 with
                      | Some (u2, r3) =>
                          if ((56320 <=? u2) && (u2 <=? 57343))%N then
                            match scanstring n' r3 with
                            | Some (body, r') =>
                                Some ((65536 + (u - 55296) * 1024 + (u2 - 56320))%N
                                      :: body, r')
                            | None => None
                            end
                          else single
                      | None => None
                      end
                  | _ => single
                  end
                else single
            | None => None
            end
          else None
      | c :: rest =>
          if (c <? 32)%N then None
          else match scanstring n' rest with
               | Some (body, r) => Some (c :: body, r)
               | None => None
               end
      end
  end.

Definition is_digit (c : char) : bool := ((48 <=? c) && (c <=? 57))%N.

(** The digits at the front of [s], as a number, and the rest. *)
Fixpoint digits (acc : Z) (s : str) : Z * str :=
  match s with
  | c :: s' =>
      if is_digit c then digits (acc * 10 + Z.of_N (c - 48)) s' else (acc, s)
  | [] => (acc, [])
  end.

(** Whether a fraction or an exponent follows the integer part. *)
Definition float_follows (s : str) : bool :=
  match s with
  | 46%N :: d :: _ => is_digit d
  | e :: rest =>
      ((e =? 101) || (e =? 69))%N
      && match rest with
         | d :: rest' =>
             is_digit d
             || ((d =? 43) || (d =? 45))%N
                && match rest' with d' :: _ => is_digit d' | [] => false end
         | [] => false
         end
  | [] => false
  end.

(** An integer: [0] or a digit string without a leading zero. *)
Definition natural (s : str) : option (Z * str) :=
  match s with
  | 48%N :: rest => if float_follows rest then None else Some (0%Z, rest)
  | c :: _ =>
      if is_digit c then
        let '(z, rest) := digits 0 s in
        if float_follows rest then None else Some (z, rest)
      else None
  | [] => None
  end.

Definition number (s : str) : option (Z * str) :=
  match s with
  | 45%N :: rest =>
      match natural rest with
      | Some (z, r) => Some ((- z)%Z, r)
      | None => None
      end
  | _ => natural s
  end.

(** One JSON value at the front of [s] and the text after it.  Each call
    either consumes a character or is followed by one that does, so twice
    the length of the text bounds the depth of the calls. *)
Fixpoint scan_once (n : nat) (s : str) {struct n} : option (pyval * str) :=
  match n with
  | O => None
  | S n' =>
      match s with
      | 34%N :: rest =>
          match scanstring (S (length rest)) rest with
          | Some (body, r) => Some (PStr body, r)
          | None => None
          end
      | 123%N :: rest =>
          match skip_ws rest with
          | 125%N :: r => Some (PDict [], r)
          | r =>
              match members n' r with
              | Some (pairs, r') => Some (PDict (dict_of pairs), r')
              | None => None
              end
          end
      | 91%N :: rest =>
          match skip_ws rest with
          | 93%N :: r => Some (PList [], r)
          | r =>
              match elements n' r with
              | Some (items, r') => Some (PList items, r')
              | None => None
              end
          end
      | _ =>
          if startswith s (lit "null") then Some (PNone, skipn 4 s)
          else if startswith s (lit "true") then Some (PBool true, skipn 4 s)
          else if startswith s (lit "false") then Some (PBool false, skipn 5 s)
          else match number s with
               | Some (z, r) => Some (PInt z, r)
               | None => None
               end
      end
  end

(** [value ws (',' ws value ws)* ']'] *)
with elements (n : nat) (s : str) {struct n} : option (list pyval * str) :=
  match n with
  | O => None
  | S n' =>
      match scan_once n' s with
      | Some (v, r) =>
          match skip_ws r with
          | 93%N :: r' => Some ([v], r')
          | 44%N :: r' =>
              match elements n' (skip_ws r') with
              | Some (vs, r'') => Some (v :: vs, r'')
              | None => None
              end
          | _ => None
          end
      | None => None
      end
  end

(** [string ws ':' ws value ws (',' ws string ws ':' ws value ws)* '}'] *)
with members (n : nat) (s : str) {struct n} : option (list (str * pyval) * str) :=
  match n with
  | O => None
  | S n' =>
      match s with
      | 34%N :: rest =>
          match scanstring (S (length rest)) rest with
          | Some (key, r) =>
              match skip_ws r with
              | 58%N :: r1 =>
                  match scan_once n' (skip_ws r1) with
                  | Some (v, r2) =>
                      match skip_ws r2 with
                      | 125%N :: r3 => Some ([(key, v)], r3)
                      | 44%N :: r3 =>
                          match members n' (skip_ws r3) with
                          | Some (more, r4) => Some ((key, v) :: more, r4)
                          | None => None
                          end
                      | _ => None
                      end
                  | None => None
                  end
              | _ => None
              end
          | None => None
          end
      | _ => None
      end
  end.

(** The whole text must be one value between optional white space. *)
Definition loads (s : str) : option pyval :=
  match scan_once (2 * length s + 2) (skip_ws s) with
  | Some (v, rest) =>
      match skip_ws rest with
      | [] => Some v
      | _ :: _ => None
      end
  | None => None
  end.

(** [s.lower()] on text whose cased characters are ASCII letters. *)
Definition lower_ascii (s : str) : str :=
  map (fun c => if ((65 <=? c) && (c <=? 90))%N then (c + 32)%N else c) s.

(** [str(z)] *)
Definition decimal_z (z : Z) : str :=
  if (z <? 0)%Z then lit "-" ++ decimal (Z.to_nat (- z)) else decimal (Z.to_nat z).

(** A string between single quotes, as [repr] shows one that holds only
    printable characters and neither a quote nor a backslash. *)
Definition single_quoted (s : str) : str := lit "'" ++ s ++ lit "'".

(** [repr(v)] for the values of the reference runs; a float, which the
    decoder above never produces, is not rendered digit by digit. *)
Fixpoint repr_of (v : pyval) : str :=
  match v with
  | PNone => lit "None"
  | PBool true => lit "True"
  | PBool false => lit "False"
  | PInt z => decimal_z z
  | PFloat _ => lit "<float>"
  | PStr s => single_quoted s
  | PList l => lit "[" ++ join (lit ", ") (map repr_of l) ++ lit "]"
  | PDict d =>
      lit "{"
      ++ join (lit ", ")
           (map (fun kv => single_quoted (fst kv) ++ lit ": " ++ repr_of (snd kv)) d)
      ++ lit "}"
  end.

Definition hex_char (d : N) : char := (if d <? 10 then d + 48 else d + 87)%N.

(** The escapes of [json.dumps] inside a string. *)
Definition escape_char (c : char) : str :=
  (if c =? 34 then [92; 34]
   else if c =? 92 then [92; 92]
   else if c =? 8 then [92; 98]
   else if c =? 12 then [92; 102]
   else if c =? 10 then [92; 110]
   else if c =? 13 then [92; 114]
   else if c =? 9 then [92; 116]
   else if c <? 32 then [92; 117; 48; 48; hex_char (c / 16); hex_char (c mod 16)]
   else [c])%N.

Definition json_string (s : str) : str := dq ++ flat_map escape_char s ++ dq.

(** [json.dumps(v, ensure_ascii=False)], with the same proviso on floats. *)
Fixpoint dumps (v : pyval) : str :=
  match v with
  | PNone => lit "null"
  | PBool true => lit "true"
  | PBool false => lit "false"
  | PInt z => decimal_z z
  | PFloat _ => lit "<float>"
  | PStr s => json_string s
  | PList l => lit "[" ++ join (lit ", ") (map dumps l) ++ lit "]"
  | PDict d =>
      lit "{"
      ++ join (lit ", ")
           (map (fun kv => json_string (fst kv) ++ lit ": " ++ dumps (snd kv)) d)
      ++ lit "}"
  end.

(** The number of chat completions issued so far. *)
Definition chats_so_far (t : trace) : nat :=
  length (filter (fun e => match e with EChat _ => true | _ => false end) t).

(** A chat service that answers its k-th call with the k-th scripted text. *)
Definition scripted (replies : list str) (t : trace) (_ : chat_request) : chat_outcome :=
  match nth_error replies (chats_so_far t) with
  | Some reply => ChatContent reply
  | None => ChatError (lit "Connection error.")
  end.

(** A clock stopped at noon on 1 January 2024. *)
Definition clock (_ : trace) (format : str) : str :=
  if str_eqb format (lit "%Y%m%d_%H%M%S") then lit "20240101_120000"
  else if str_eqb format (lit "%B %d, %Y") then lit "January 01, 2024"
  else format.

(** The layout library's check of a paragraph text, for the markup the
    program itself writes: the tags [<b>], [<i>] and [<br/>].  A text that
    is no string has no [split] method (AttributeError).  In a string every
    [<] opens a tag; a tag must be one of these and an element is closed in
    the order of opening; a tag or an element still open at the end of the
    text is a parse error (ValueError).  A [<] that opens no tag, entities
    and the other tags of the library are outside this fragment. *)
Inductive markup_state :=
| InText
| InTag (name : str).

Definition closes (tag : char) (opened : list char) : option (list char) :=
  match opened with
  | top :: below => if (top =? tag)%N then Some below else None
  | [] => None
  end.

(** [name] is the tag read so far, last character first. *)
Fixpoint markup_scan (state : markup_state) (opened : list char) (s : str) : bool :=
  match s with
  | [] =>
      match state, opened with
      | InText, [] => true
      | _, _ => false
      end
  | c :: rest =>
      match state with
      | InText =>
          if (c =? 60)%N then markup_scan (InTag []) opened rest
          else markup_scan InText opened rest
      | InTag name =>
          if (c =? 62)%N then
            let tag := rev name in
            if str_eqb tag (lit "b") then markup_scan InText (98%N :: opened) rest
            else if str_eqb tag (lit "i") then markup_scan InText (105%N :: opened) rest
            else if str_eqb tag (lit "br/") then markup_scan InText opened rest
            else if str_eqb tag (lit "/b") then
              match closes 98%N opened with
              | Some below => markup_scan InText below rest
              | None => false
              end
            else if str_eqb tag (lit "/i") then
              match closes 105%N opened with
              | Some below => markup_scan InText below rest
              | None => false
              end
            else false
          else markup_scan (InTag (c :: name)) opened rest
      end
  end.

Definition markup_error (text : pyval) (_ : style) : option exn :=
  match text with
  | PStr s => if markup_scan InText [] s then None else Some ValueError
  | _ => Some AttributeError
  end.

(** A file system in which every directory exists and can be written to: a
    document cannot be written at a path that names a directory. *)
Definition build_error (_ : trace) (path : str) (_ : list flowable) : option exn :=
  match path with
  | [] => Some OSError
  | _ :: _ => if endswith path (lit "/") then Some OSError else None
  end.

(** The environment: scripted chat replies, one answer for every post. *)
Definition env (replies : list str) (posted : post_outcome) : Env :=
  {| json_loads := loads;
     json_dumps := dumps;
     repr := repr_of;
     lower := lower_ascii;
     chat_create := scripted replies;
     requests_post := fun _ _ => posted;
     file_write := fun _ _ _ => None;
     now_strftime := clock;
     gettempdir := lit "/tmp";
     paragraph_error := markup_error;
     doc_build_error := build_error |}.

(** The system as the form creates it for Spanish, without and with an audio
    key. *)
Definition spanish : BibleLanguageLearningSystem :=
  {| model := lit "gpt-4o-mini";
     target_language := lit "Spanish";
     elevenlabs_key := None |}.

Definition spanish_with_audio : BibleLanguageLearningSystem :=
  {| model := lit "gpt-4o-mini";
     target_language := lit "Spanish";
     elevenlabs_key := Some (lit "sk_test") |}.

Definition unreachable : post_outcome := PostError (lit "Connection refused").

(** Four well-formed replies, one per stage, each in a labelled fence. *)
Definition fenced (body : str) : str :=
  lit "```json" ++ nl ++ body ++ nl ++ lit "```".

Definition verse_reply : str :=
  fenced (lit "{" ++ quoted "verse_reference" ++ lit ": " ++ quoted "Juan 3:16"
          ++ lit ", " ++ quoted "verse_text_english" ++ lit ": "
          ++ quoted "For God so loved the world"
          ++ lit ", " ++ quoted "verse_text_spanish" ++ lit ": "
          ++ quoted "Porque de tal manera amo Dios al mundo"
          ++ lit ", " ++ quoted "meditation_english" ++ lit ": " ++ quoted "God loves."
          ++ lit ", " ++ quoted "meditation_spanish" ++ lit ": " ++ quoted "Dios ama."
          ++ lit "}").

Definition reading_reply : str :=
  fenced (lit "{" ++ quoted "reading_text_spanish" ++ lit ": "
          ++ quoted "Dios ama al mundo."
          ++ lit ", " ++ quoted "reading_text_english" ++ lit ": "
          ++ quoted "God loves the world."
          ++ lit ", " ++ quoted "key_vocabulary" ++ lit ": ["
          ++ quoted "amor" ++ lit ", " ++ quoted "mundo" ++ lit "]}").

Definition lesson_reply : str :=
  fenced (lit "{" ++ quoted "reading_exercises" ++ lit ": [{" ++ quoted "question"
          ++ lit ": " ++ quoted "A quien ama Dios?" ++ lit "}]}").

Definition answers_reply : str :=
  fenced (lit "{" ++ quoted "reading_exercises" ++ lit ": [{" ++ quoted "answer"
          ++ lit ": " ++ quoted "Al mundo" ++ lit ", " ++ quoted "explanation"
          ++ lit ": " ++ quoted "Primera frase" ++ lit "}]}").

(** A run in which every stage is answered well, and one in which the
    exercise stage gets an apology instead of a record. *)
Definition well_answered : Env :=
  env [verse_reply; reading_reply; lesson_reply; answers_reply] unreachable.

Definition exercises_refused : Env :=
  env [ verse_reply; reading_reply;
        lit "I'm sorry, I can't design exercises right now."; answers_reply ]
      unreachable.

(** Inputs with which every stage can build its request. *)
Definition inputs : stage_inputs :=
  {| language_level := lit "B1";
     verse_data := PDict [];
     reading_data := PDict [];
     lesson_data := PDict [] |}.

(** A run in which the exercise stage is answered with questions given as
    plain strings instead of records. *)
Definition plain_questions : Env :=
  env [ verse_reply; reading_reply;
        fenced (lit "{" ++ quoted "reading_exercises" ++ lit ": ["
                ++ quoted "A quien ama Dios?" ++ lit ", " ++ quoted "Por que?"
                ++ lit "]}");
        answers_reply ]
      unreachable.

End Ref.

(** [k in v] for every [k] of [keys]; false when [v] is not a dict. *)
Definition has_keys (v : pyval) (keys : list str) : bool :=
  match v with
  | PDict d =>
      forallb (fun k => match dict_lookup d k with Some _ => true | None => false end)
              keys
  | _ => false
  end.

(** A part of the lesson bundle as [format_lesson_display] and
    [generate_pdf] fetch it: [lesson_content.get(key, {})]. *)
Definition bundle_part (content : dict) (key : str) : pyval :=
  match dict_lookup content key with
  | Some part => part
  | None => PDict []
  end.

(** The events of a trace that are requests to the speech service. *)
Definition is_post (e : event) : bool :=
  match e with EPost _ => true | _ => false end.

(** A computation that only adds to the trace, and no speech request. *)
Definition posts_nothing {A} (m : M A) : Prop :=
  forall t, exists added, snd (m t) = t ++ added /\ filter is_post added = [].

(** ** Occurrences, for stating where a fence is *)

(** [sub] occurs in [s] right after [before]. *)
Definition occurs_after (sub s before : str) : Prop :=
  exists rest, s = before ++ sub ++ rest.

(** The first occurrence of [sub] in [s] is the one right after [before], and
    [rest] follows it. *)
Definition first_occurrence (sub s before rest : str) : Prop :=
  s = before ++ sub ++ rest
  /\ forall before', occurs_after sub s before' -> length before <= length before'.

(** ** The entry point of the form *)

Section Entry.

Variable E : Env.

(** [os.getenv(name)] once [load_dotenv()] has run. *)
Variable getenv : str -> option str.

(** [str(e)] of a caught exception.  The model keeps the class of an
    exception only, so the wording of its message is left to this
    parameter. *)
Variable error_text : exn -> str.

(** [generate_lesson]: the text for the form, the document path and the audio
    path.  A key is a string of the form or what [os.getenv] gave; the
    constructor of the system is taken to succeed. *)
Definition generate_lesson (api_key elevenlabs_key : option str)
    (language level model : str) : trace -> (str * option str * option str) * trace :=
  fun t =>
    let keys :=
      if negb (key_given api_key)
      then (getenv (lit "OPENAI_API_KEY"), getenv (lit "ELEVEN_API_KEY"))
      else (api_key, elevenlabs_key) in
    if negb (key_given (fst keys)) then
      (([8218; 246; 8224; 212; 8719; 232]%N ++ lit " Please enter your OpenAI API key",
        None, None), t)
    else
      let system := Build_BibleLanguageLearningSystem model language (snd keys) in
      match run_full_lesson_generation E system level t with
      | (Return (lesson_content, pdf_path, audio_path), t') =>
          match format_lesson_display E lesson_content with
          | Return display_text => ((display_text, Some pdf_path, audio_path), t')
          | Raise e =>
              (([8218; 249; 229]%N ++ lit " Error: " ++ error_text e, None, None), t')
          end
      | (Raise e, t') =>
          (([8218; 249; 229]%N ++ lit " Error: " ++ error_text e, None, None), t')
      end.

End Entry.

(** ** Notions for the further properties *)

(** The events of a trace that are chat completions. *)
Definition is_chat (e : event) : bool :=
  match e with EChat _ => true | _ => false end.

(** The events of a trace that are documents handed to the layout library. *)
Definition is_build (e : event) : bool :=
  match e with EBuild _ _ => true | _ => false end.

(** [isinstance(v, dict)] and [isinstance(v, str)] *)
Definition is_dict (v : pyval) : bool :=
  match v with PDict _ => true | _ => false end.

Definition is_str (v : pyval) : bool :=
  match v with PStr _ => true | _ => false end.

(** [", ".join(vocab)] is only attempted on a list, and goes through when
    every item is a string. *)
Definition joinable (vocab : pyval) : bool :=
  match vocab with
  | PList items => forallb is_str items
  | _ => true
  end.

(** [d.get(key, default)] on the entries of a dict. *)
Definition lookup_or (d : dict) (key : str) (default : pyval) : pyval :=
  match dict_lookup d key with
  | Some v => v
  | None => default
  end.

(** The bundles [generate_pdf] can render: the four records are dicts (or
    absent) and the vocabulary can be joined. *)
Definition renderable (content : dict) : bool :=
  is_dict (bundle_part content (lit "verse_data"))
  && match bundle_part content (lit "reading_data") with
     | PDict reading => joinable (lookup_or reading (lit "key_vocabulary") (PList []))
     | _ => false
     end
  && is_dict (bundle_part content (lit "lesson_data"))
  && is_dict (bundle_part content (lit "answers")).

(** [sep.join(v)] goes through: [v] is a list of strings, a string (joined
    character by character) or a dict (its keys are joined). *)
Definition joins (v : pyval) : bool :=
  match v with
  | PList items => forallb is_str items
  | PStr _ => true
  | PDict _ => true
  | _ => false
  end.

(** A loop [for i, ex in enumerate(v, 1): ... ex.get(...)] goes through: [v]
    is a list of dicts, or an empty string or dict. *)
Definition loops (v : pyval) : bool :=
  match v with
  | PList items => forallb is_dict items
  | PStr [] => true
  | PDict [] => true
  | _ => false
  end.

(** The bundles [format_lesson_display] can show. *)
Definition displayable (content : dict) : bool :=
  is_dict (bundle_part content (lit "verse_data"))
  && match bundle_part content (lit "reading_data") with
     | PDict reading => joins (lookup_or reading (lit "key_vocabulary") (PList []))
     | _ => false
     end
  && match bundle_part content (lit "lesson_data") with
     | PDict lesson =>
         forallb (fun key => loops (lookup_or lesson key (PList []))) exercise_keys
     | _ => false
     end.

(** An outcome that is an exception. *)
Definition raises {A} (o : outcome A) : Prop := exists e, o = Raise e.

(** The bundle [run_full_lesson_generation] assembles in step 6. *)
Definition lesson_bundle (level : str) (verse reading lesson answers : pyval)
    (audio : option str) : dict :=
  dict_of
    [ (lit "level", PStr level);
      (lit "verse_data", verse);
      (lit "reading_data", reading);
      (lit "lesson_data", lesson);
      (lit "answers", answers);
      (lit "audio_path", of_path audio) ].

(** The speech requests step 5 sends for a reading record: one, for the
    target-language text, when there is a key and that text is not empty. *)
Definition speech_requests (E : Env) (self : BibleLanguageLearningSystem)
    (reading : pyval) : list event :=
  if key_given (elevenlabs_key self) then
    match py_get reading (field E "reading_text_" self) (PStr []) with
    | Return text =>
        if truthy text
        then [EPost (tts_request self
                       (match elevenlabs_key self with Some k => k | None => [] end)
                       text)]
        else []
    | Raise _ => []
    end
  else [].

(** The environment with a layout library that accepts every paragraph. *)
Definition accepting (E : Env) : Env :=
  {| json_loads := json_loads E;
     json_dumps := json_dumps E;
     repr := repr E;
     lower := lower E;
     chat_create := chat_create E;
     requests_post := requests_post E;
     file_write := file_write E;
     now_strftime := now_strftime E;
     gettempdir := gettempdir E;
     paragraph_error := fun _ _ => None;
     doc_build_error := doc_build_error E |}.

(** The elements [generate_pdf] asks the layout library for: the list it
    builds when every paragraph is accepted. *)
Definition requested_elements (E : Env) (self : BibleLanguageLearningSystem)
    (lesson_content : pyval) (date : str) : outcome (list flowable) :=
  pdf_elements (accepting E) self lesson_content date.

(** The layout library accepts the flowable when it is constructed. *)
Definition accepts (E : Env) (f : flowable) : bool :=
  match f with
  | Paragraph text st =>
      match paragraph_error E text st with
      | None => true
      | Some _ => false
      end
  | _ => true
  end.

(** [p], run with the layout library of [E], against [q], the same
    statements run with a library that accepts everything: [p] returns what
    [q] returns when the library accepts all that [q] appended, and raises
    otherwise. *)
Definition follows (E : Env) {A} (p q : B A) : Prop :=
  forall elements,
    match q elements with
    | Raise _ => exists e, p elements = Raise e
    | Return (a, elements') =>
        exists added,
          elements' = elements ++ added
          /\ (forallb (accepts E) added = true -> p elements = Return (a, elements'))
          /\ (forallb (accepts E) added = false -> exists e, p elements = Raise e)
    end.

(** * Properties *)

(** ** Strings: prefixes, occurrences and splitting *)

Lemma str_eqb_eq (a b : str) : str_eqb a b = true <-> a = b.
Proof.
  revert b; induction a as [|x a IH]; intros [|y b]; simpl;
    try (split; [discriminate | discriminate]); try tauto.
  rewrite andb_true_iff, N.eqb_eq, IH.
  split; [intros [-> ->]; reflexivity | intros H; inversion H; auto].
Qed.

Lemma str_eqb_refl (a : str) : str_eqb a a = true.
Proof. apply str_eqb_eq; reflexivity. Qed.

Lemma str_eqb_neq (a b : str) : str_eqb a b = false <-> a <> b.
Proof.
  rewrite <- str_eqb_eq. destruct (str_eqb a b); split; congruence.
Qed.

Lemma startswith_iff (s prefix : str) :
  startswith s prefix = true <-> exists rest, s = prefix ++ rest.
Proof.
  revert s; induction prefix as [|p prefix IH]; intros s; simpl.
  - split; [intros _; exists s; reflexivity | reflexivity].
  - destruct s as [|c s].
    + split; [discriminate | intros [r Hr]; discriminate].
    + rewrite andb_true_iff, N.eqb_eq, IH. split.
      * intros [-> [r ->]]. exists r; reflexivity.
      * intros [r Hr]. inversion Hr; subst. eauto.
Qed.

Lemma startswith_app (prefix rest : str) : startswith (prefix ++ rest) prefix = true.
Proof. apply startswith_iff; eauto. Qed.

Lemma find_unfold (s sub : str) :
  find s sub =
  if startswith s sub then Some 0
  else match s with
       | [] => None
       | _ :: s' => option_map S (find s' sub)
       end.
Proof. destruct s; reflexivity. Qed.

Lemma find_at_prefix (sub rest : str) : find (sub ++ rest) sub = Some 0.
Proof. rewrite find_unfold, startswith_app. reflexivity. Qed.

(** [find] returns an index at which [sub] occurs. *)
Lemma find_some_occurs (sub s : str) (i : nat) :
  find s sub = Some i ->
  exists rest, s = firstn i s ++ sub ++ rest /\ i <= length s.
Proof.
  revert i; induction s as [|c s IH]; intros i; simpl.
  - destruct (startswith [] sub) eqn:Hs; [|discriminate].
    intros [= <-]. apply startswith_iff in Hs. destruct Hs as [r Hr].
    exists r; simpl; auto.
  - destruct (startswith (c :: s) sub) eqn:Hs.
    + intros [= <-]. apply startswith_iff in Hs. destruct Hs as [r Hr].
      exists r; simpl; split; [assumption | lia].
    + destruct (find s sub) as [j|] eqn:Hf; [|discriminate].
      simpl. intros [= <-]. destruct (IH j eq_refl) as [r [Hr Hl]].
      exists r; simpl; split; [f_equal; assumption | lia].
Qed.

(** [find] returns the lowest such index. *)
Lemma find_of_first_occurrence (sub s before rest : str) :
  first_occurrence sub s before rest -> find s sub = Some (length before).
Proof.
  revert s; induction before as [|c before IH]; intros s [Hs Hmin]; subst s.
  - simpl app. apply find_at_prefix.
  - simpl app. simpl find.
    destruct (startswith (c :: before ++ sub ++ rest) sub) eqn:Hp.
    + apply startswith_iff in Hp. destruct Hp as [r Hr].
      specialize (Hmin [] (ex_intro _ r Hr)). simpl in Hmin; lia.
    + rewrite (IH (before ++ sub ++ rest)); [reflexivity|].
      split; [reflexivity|].
      intros b' [r Hr].
      assert (H : occurs_after sub (c :: before ++ sub ++ rest) (c :: b')).
      { exists r. simpl. f_equal. exact Hr. }
      specialize (Hmin _ H). simpl in Hmin; lia.
Qed.

Lemma find_none_no_occurrence (sub s before : str) :
  find s sub = None -> ~ occurs_after sub s before.
Proof.
  revert s; induction before as [|c before IH]; intros s Hf [r Hr]; subst s.
  - simpl app in Hf. rewrite find_at_prefix in Hf. discriminate.
  - simpl in Hf.
    destruct (startswith (c :: before ++ sub ++ r) sub); [discriminate|].
    destruct (find (before ++ sub ++ r) sub) eqn:Hf'; [discriminate|].
    apply (IH _ Hf'). exists r; reflexivity.
Qed.

Lemma contains_false_no_occurrence (sub s before : str) :
  contains s sub = false -> ~ occurs_after sub s before.
Proof.
  unfold contains. destruct (find s sub) eqn:Hf; [discriminate|].
  intros _. apply find_none_no_occurrence; assumption.
Qed.

(** [sub in s] holds exactly when [sub] occurs somewhere in [s]. *)
Lemma contains_iff (sub s : str) :
  contains s sub = true <-> exists before, occurs_after sub s before.
Proof.
  split.
  - unfold contains. destruct (find s sub) as [i|] eqn:Hf; [|discriminate].
    intros _. destruct (find_some_occurs _ _ _ Hf) as [r [Hr _]].
    exists (firstn i s), r. exact Hr.
  - intros [before H]. destruct (contains s sub) eqn:Hc; [reflexivity|].
    exfalso. exact (contains_false_no_occurrence _ _ _ Hc H).
Qed.

Lemma contains_of_first_occurrence (sub s before rest : str) :
  first_occurrence sub s before rest -> contains s sub = true.
Proof.
  intros H. unfold contains. rewrite (find_of_first_occurrence _ _ _ _ H). reflexivity.
Qed.

Lemma find_nil (sub : str) : sub <> [] -> find [] sub = None.
Proof. destruct sub; [congruence | reflexivity]. Qed.

Lemma split_rounds_unfold (n : nat) (s sep : str) :
  split_rounds n s sep =
  match find s sep with
  | None => [s]
  | Some i =>
      match n with
      | O => [s]
      | S n' => firstn i s :: split_rounds n' (skipn (i + length sep) s) sep
      end
  end.
Proof. destruct n; reflexivity. Qed.

(** Any number of rounds from the length of the text on gives the same
    pieces: [split] never stops for want of rounds. *)
Lemma split_rounds_enough (sep : str) :
  sep <> [] ->
  forall n m s, length s <= n -> length s <= m ->
  split_rounds n s sep = split_rounds m s sep.
Proof.
  intros Hsep. induction n as [|n IH]; intros m s Hn Hm.
  - destruct s; [|simpl in Hn; lia].
    rewrite !split_rounds_unfold, (find_nil _ Hsep). reflexivity.
  - rewrite !split_rounds_unfold. destruct (find s sep) as [i|] eqn:Hf; [|reflexivity].
    destruct s as [|c s]; [rewrite (find_nil _ Hsep) in Hf; discriminate|].
    destruct m as [|m]; [simpl in Hm; lia|].
    f_equal. apply IH.
    + rewrite length_skipn. destruct sep; [congruence|]. cbn [length] in *. lia.
    + rewrite length_skipn. destruct sep; [congruence|]. cbn [length] in *. lia.
Qed.

Lemma split_none (s sep : str) : find s sep = None -> split s sep = [s].
Proof. intros H. unfold split. rewrite split_rounds_unfold, H. reflexivity. Qed.

Lemma split_some (s sep : str) (i : nat) :
  sep <> [] -> find s sep = Some i ->
  split s sep = firstn i s :: split (skipn (i + length sep) s) sep.
Proof.
  intros Hsep Hf. unfold split at 1. rewrite split_rounds_unfold, Hf.
  destruct s as [|c s]; [rewrite (find_nil _ Hsep) in Hf; discriminate|].
  cbn [length]. f_equal. unfold split. apply split_rounds_enough; auto.
  rewrite length_skipn. destruct sep; [congruence|]. cbn [length] in *. lia.
Qed.

Lemma firstn_length_app {A} (a b : list A) : firstn (length a) (a ++ b) = a.
Proof. rewrite firstn_app, Nat.sub_diag, firstn_all. simpl. apply app_nil_r. Qed.

Lemma skipn_length_app2 {A} (a b c : list A) :
  skipn (length a + length b) (a ++ b ++ c) = c.
Proof.
  rewrite app_assoc, <- length_app, skipn_app, Nat.sub_diag, skipn_all.
  reflexivity.
Qed.

(** Splitting at the first occurrence of the separator. *)
Lemma split_first_occurrence (sep s before rest : str) :
  sep <> [] -> first_occurrence sep s before rest ->
  split s sep = before :: split rest sep.
Proof.
  intros Hsep H.
  rewrite (split_some _ _ _ Hsep (find_of_first_occurrence _ _ _ _ H)).
  destruct H as [-> _]. rewrite firstn_length_app, skipn_length_app2. reflexivity.
Qed.

(** A text in which the separator first occurs after [before] has no
    occurrence inside [before]. *)
Lemma first_occurrence_none_before (sep s before rest : str) :
  sep <> [] -> first_occurrence sep s before rest -> find before sep = None.
Proof.
  intros Hsep [Hs Hmin]. destruct (find before sep) as [i|] eqn:Hf; [|reflexivity].
  destruct (find_some_occurs _ _ _ Hf) as [r [Hr Hi]].
  assert (H : occurs_after sep s (firstn i before)).
  { exists (r ++ sep ++ rest). rewrite Hs. rewrite Hr at 1.
    rewrite <- !app_assoc. reflexivity. }
  specialize (Hmin _ H). rewrite length_firstn in Hmin.
  assert (Hl : length before = length (firstn i before ++ sep ++ r))
    by (rewrite <- Hr; reflexivity).
  rewrite !length_app, length_firstn in Hl.
  destruct sep; [congruence|]. cbn [length] in Hl. lia.
Qed.

Lemma fence_nonempty : fence <> [].
Proof. discriminate. Qed.

Lemma fence_json_nonempty : fence_json <> [].
Proof. discriminate. Qed.

Lemma find_least (sub s before : str) (i : nat) :
  find s sub = Some i -> occurs_after sub s before -> i <= length before.
Proof.
  revert s i; induction before as [|c before IH]; intros s i Hf [r Hr]; subst s.
  - simpl app in Hf. rewrite find_at_prefix in Hf. injection Hf as <-. lia.
  - simpl in Hf. destruct (startswith (c :: before ++ sub ++ r) sub).
    + injection Hf as <-. lia.
    + destruct (find (before ++ sub ++ r) sub) as [j|] eqn:Hj; [|discriminate].
      simpl in Hf. injection Hf as <-.
      assert (j <= length before) by (apply (IH _ _ Hj); exists r; reflexivity).
      simpl. lia.
Qed.

(** The converse of [find_of_first_occurrence], to establish a first
    occurrence by running [find]. *)
Lemma first_occurrence_of_find (sub s before rest : str) :
  s = before ++ sub ++ rest -> find s sub = Some (length before) ->
  first_occurrence sub s before rest.
Proof.
  intros Hs Hf. split; [assumption|].
  intros b' Hb. exact (find_least _ _ _ _ Hf Hb).
Qed.

(** A text that contains a longer marker contains each prefix of it. *)
Lemma contains_prefix (s a b : str) :
  contains s (a ++ b) = true -> contains s a = true.
Proof.
  unfold contains at 1. destruct (find s (a ++ b)) as [i|] eqn:Hf; [|discriminate].
  intros _. destruct (find_some_occurs _ _ _ Hf) as [r [Hr _]].
  destruct (contains s a) eqn:Hc; [reflexivity|].
  exfalso. apply (contains_false_no_occurrence a s (firstn i s) Hc).
  exists (b ++ r). rewrite Hr at 1. rewrite <- !app_assoc. reflexivity.
Qed.

Lemma no_fence_no_label (response : str) :
  contains response fence = false -> contains response fence_json = false.
Proof.
  intros H. destruct (contains response fence_json) eqn:Hc; [|reflexivity].
  change fence_json with (fence ++ lit "json") in Hc.
  apply contains_prefix in Hc. congruence.
Qed.

(** ** The three extraction strategies *)

(** Third strategy: without any fence the whole response, trimmed. *)
Lemma extract_unfenced (response : str) :
  contains response fence = false ->
  extract_json_str response = Some (strip response).
Proof.
  intros H. unfold extract_json_str.
  rewrite (no_fence_no_label _ H), H. reflexivity.
Qed.

(** Second strategy: between the first generic fence and the next one. *)
Lemma extract_generic_fence (response before body after : str) :
  contains response fence_json = false ->
  first_occurrence fence response before (body ++ fence ++ after) ->
  first_occurrence fence (body ++ fence ++ after) body after ->
  extract_json_str response = Some (strip body).
Proof.
  intros Hlabel Hopen Hclose. unfold extract_json_str.
  rewrite Hlabel, (contains_of_first_occurrence _ _ _ _ Hopen).
  rewrite (split_first_occurrence _ _ _ _ fence_nonempty Hopen).
  rewrite (split_first_occurrence _ _ _ _ fence_nonempty Hclose).
  cbn [nth_error].
  rewrite (split_none _ _ (first_occurrence_none_before _ _ _ _ fence_nonempty Hclose)).
  reflexivity.
Qed.

(** First strategy.  The text after the first "```json" is cut at the next
    label before it is cut at the next fence; the two cuts give the text up
    to the closing fence unless a further label begins inside that fence,
    that is unless the fence is directly followed by one or two backquotes
    and "json". *)
Lemma extract_labelled_fence (response before body after : str) :
  first_occurrence fence_json response before (body ++ fence ++ after) ->
  first_occurrence fence (body ++ fence ++ after) body after ->
  startswith after (lit "`json") = false ->
  startswith after (lit "``json") = false ->
  extract_json_str response = Some (strip body).
Proof.
  intros Hopen Hclose H1 H2. unfold extract_json_str.
  rewrite (contains_of_first_occurrence _ _ _ _ Hopen).
  rewrite (split_first_occurrence _ _ _ _ fence_json_nonempty Hopen).
  set (R := body ++ fence ++ after) in *.
  pose proof (find_of_first_occurrence _ _ _ _ Hclose) as Hp.
  pose proof (first_occurrence_none_before _ _ _ _ fence_nonempty Hclose) as Hbody.
  destruct (find R fence_json) as [q|] eqn:Hq.
  - rewrite (split_some _ _ _ fence_json_nonempty Hq). cbn [nth_error].
    destruct (find_some_occurs _ _ _ Hq) as [r [Hr Hle]].
    assert (Hpq : length body <= q).
    { assert (Ho : occurs_after fence R (firstn q R)).
      { exists (lit "json" ++ r). rewrite Hr at 1. reflexivity. }
      pose proof (find_least _ _ _ _ Hp Ho) as Hl.
      rewrite length_firstn in Hl. lia. }
    assert (Hcut : firstn q R = body ++ firstn (q - length body) (fence ++ after)).
    { unfold R. rewrite firstn_app, (firstn_all2 body) by exact Hpq. reflexivity. }
    assert (Htail : fence ++ after
                    = firstn (q - length body) (fence ++ after) ++ fence_json ++ r).
    { apply (app_inv_head body). rewrite Hcut, <- app_assoc in Hr. exact Hr. }
    rewrite Hcut.
    destruct (q - length body) as [|[|[|k]]] eqn:Hk.
    + cbn [firstn]. rewrite app_nil_r, (split_none _ _ Hbody). reflexivity.
    + exfalso. cbn in Htail. injection Htail as Ha. subst after.
      cbn in H1. discriminate.
    + exfalso. cbn in Htail. injection Htail as Ha. subst after.
      cbn in H2. discriminate.
    + change (firstn (S (S (S k))) (fence ++ after)) with (fence ++ firstn k after).
      assert (Hfirst : first_occurrence fence (body ++ fence ++ firstn k after)
                         body (firstn k after)).
      { split; [reflexivity|]. intros b' [r' Hr'].
        apply (proj2 Hclose). exists (r' ++ fence_json ++ r).
        rewrite Hr, Hcut.
        change (firstn (S (S (S k))) (fence ++ after)) with (fence ++ firstn k after).
        rewrite Hr'. rewrite <- !app_assoc. reflexivity. }
      rewrite (split_first_occurrence _ _ _ _ fence_nonempty Hfirst). reflexivity.
  - rewrite (split_none _ _ Hq). cbn [nth_error].
    rewrite (split_first_occurrence _ _ _ _ fence_nonempty Hclose). reflexivity.
Qed.

(** ** The shape of a generation stage *)

(** Every agent builds its request, sends it, and returns the decoded reply
    or its fallback; the only exception it can raise comes from building the
    user message. *)
Lemma agent_run (E : Env) (self : BibleLanguageLearningSystem) (s : stage)
    (i : stage_inputs) (t : trace) :
  agent E self s i t =
  match stage_request E self s i with
  | Raise e => (Raise e, t)
  | Return req =>
      let response := reply_text (chat_create E t req) in
      (Return (parse_or E (fallback_of E self s response) response),
       t ++ [EChat req])
  end.
Proof.
  destruct s; cbn [agent stage_request fallback_of].
  - reflexivity.
  - unfold agent_content_creator, bind, lift.
    destruct (reading_user_message E self (verse_data i)); reflexivity.
  - unfold agent_lesson_designer, bind, lift.
    destruct (lesson_user_message E self (verse_data i) (reading_data i));
      reflexivity.
  - unfold agent_answer_key_generator, bind, lift.
    destruct (answers_user_message E self (lesson_data i) (reading_data i));
      reflexivity.
Qed.

Lemma agent_returns (E : Env) (self : BibleLanguageLearningSystem) (s : stage)
    (i : stage_inputs) (t : trace) (req : chat_request) (response : str) :
  stage_request E self s i = Return req ->
  reply_text (chat_create E t req) = response ->
  agent E self s i t =
  (Return (parse_or E (fallback_of E self s response) response), t ++ [EChat req]).
Proof. intros Hreq <-. rewrite agent_run, Hreq. reflexivity. Qed.

(** ** Claims on extraction and fallback *)

(** C2. For each of the four generation stages: when the raw response holds
    no fence and its trimmed text does not decode ([json.loads] raises), the
    stage returns its fallback record; it raises nothing and has done nothing
    but send its one request. *)
Theorem unfenced_undecodable_reply_falls_back
    (E : Env) (self : BibleLanguageLearningSystem) (s : stage) (i : stage_inputs)
    (t : trace) (req : chat_request) (response : str) :
  stage_request E self s i = Return req ->
  reply_text (chat_create E t req) = response ->
  contains response fence = false ->
  json_loads E (strip response) = None ->
  agent E self s i t = (Return (fallback_of E self s response), t ++ [EChat req]).
Proof.
  intros Hreq Hreply Hfence Hdecode.
  rewrite (agent_returns E self s i t req response Hreq Hreply).
  unfold parse_or, parse_response.
  rewrite (extract_unfenced _ Hfence), Hdecode. reflexivity.
Qed.

Lemma unfenced_undecodable_reply_falls_back_witness :
  let E := Ref.env [lit "Sorry, I cannot provide exercises today."] Ref.unreachable in
  exists req,
    agent E Ref.spanish Exercise Ref.inputs [] =
    (Return lesson_fallback, [] ++ [EChat req]).
Proof.
  intros E. eexists.
  apply (unfenced_undecodable_reply_falls_back E Ref.spanish Exercise Ref.inputs []
           _ (lit "Sorry, I cannot provide exercises today.")).
  - reflexivity.
  - reflexivity.
  - vm_compute; reflexivity.
  - vm_compute; reflexivity.
Defined.

(** C2 as stated fails: the reply [[1, 2]] holds no fence and decodes, to a
    list, which is no record; each of the four stages returns that list and
    not its fallback record. *)
Lemma unfenced_list_reply_is_returned_as_decoded :
  let response := lit "[1, 2]" in
  let E := Ref.env [response] Ref.unreachable in
  let decoded := PList [PInt 1; PInt 2] in
  contains response fence = false
  /\ json_loads E (strip response) = Some decoded
  /\ is_dict decoded = false
  /\ fst (agent E Ref.spanish Verse Ref.inputs []) = Return decoded
  /\ fst (agent E Ref.spanish Reading Ref.inputs []) = Return decoded
  /\ fst (agent E Ref.spanish Exercise Ref.inputs []) = Return decoded
  /\ fst (agent E Ref.spanish Answer Ref.inputs []) = Return decoded
  /\ is_dict (fallback_of E Ref.spanish Verse response) = true
  /\ is_dict (fallback_of E Ref.spanish Reading response) = true
  /\ is_dict (fallback_of E Ref.spanish Exercise response) = true
  /\ is_dict (fallback_of E Ref.spanish Answer response) = true.
Proof. cbv zeta. repeat split; vm_compute; reflexivity. Qed.

(** C3. For each of the four generation stages: when the raw response holds
    a generic fence but no "```json" label, the text to decode is the one
    between the first fence and the next (the second strategy), trimmed, and
    if it decodes the stage returns the decoded record. *)
Theorem generic_fence_reply_decodes
    (E : Env) (self : BibleLanguageLearningSystem) (s : stage) (i : stage_inputs)
    (t : trace) (req : chat_request) (response before body after : str)
    (record : pyval) :
  stage_request E self s i = Return req ->
  reply_text (chat_create E t req) = response ->
  contains response fence_json = false ->
  first_occurrence fence response before (body ++ fence ++ after) ->
  first_occurrence fence (body ++ fence ++ after) body after ->
  json_loads E (strip body) = Some record ->
  extract_json_str response = Some (strip body)
  /\ agent E self s i t = (Return record, t ++ [EChat req]).
Proof.
  intros Hreq Hreply Hlabel Hopen Hclose Hdecode.
  pose proof (extract_generic_fence _ _ _ _ Hlabel Hopen Hclose) as Hx.
  split; [exact Hx|].
  rewrite (agent_returns E self s i t req response Hreq Hreply).
  unfold parse_or, parse_response. rewrite Hx, Hdecode. reflexivity.
Qed.

Lemma generic_fence_reply_decodes_witness :
  let response := lit "Here is the reading:" ++ nl ++ lit "```" ++ nl
                  ++ lit "{" ++ quoted "key_vocabulary" ++ lit ": []}" ++ nl
                  ++ lit "```" ++ nl ++ lit "Enjoy!" in
  let E := Ref.env [response] Ref.unreachable in
  exists req,
    agent E Ref.spanish Reading Ref.inputs [] =
    (Return (PDict [(lit "key_vocabulary", PList [])]), [] ++ [EChat req]).
Proof.
  intros response E. eexists.
  apply (generic_fence_reply_decodes E Ref.spanish Reading Ref.inputs [] _ response
           (lit "Here is the reading:" ++ nl)
           (nl ++ lit "{" ++ quoted "key_vocabulary" ++ lit ": []}" ++ nl)
           (nl ++ lit "Enjoy!")).
  - reflexivity.
  - reflexivity.
  - vm_compute; reflexivity.
  - apply first_occurrence_of_find; vm_compute; reflexivity.
  - apply first_occurrence_of_find; vm_compute; reflexivity.
  - vm_compute; reflexivity.
Defined.

(** ** The labelled fence *)

(** Unless a further label begins inside the closing fence, every stage
    returns the record decoded from the text between the first "```json" and
    the next "```". *)
Lemma labelled_fence_reply_decodes
    (E : Env) (self : BibleLanguageLearningSystem) (s : stage) (i : stage_inputs)
    (t : trace) (req : chat_request) (response before body after : str)
    (record : pyval) :
  stage_request E self s i = Return req ->
  reply_text (chat_create E t req) = response ->
  first_occurrence fence_json response before (body ++ fence ++ after) ->
  first_occurrence fence (body ++ fence ++ after) body after ->
  startswith after (lit "`json") = false ->
  startswith after (lit "``json") = false ->
  json_loads E (strip body) = Some record ->
  agent E self s i t = (Return record, t ++ [EChat req]).
Proof.
  intros Hreq Hreply Hopen Hclose H1 H2 Hdecode.
  rewrite (agent_returns E self s i t req response Hreq Hreply).
  unfold parse_or, parse_response.
  rewrite (extract_labelled_fence _ _ _ _ Hopen Hclose H1 H2), Hdecode. reflexivity.
Qed.

Example labelled_fence_reply_decodes_run :
  exists req,
    agent Ref.well_answered Ref.spanish Verse Ref.inputs [] =
    (Return (PDict [ (lit "verse_reference", PStr (lit "Juan 3:16"));
                     (lit "verse_text_english", PStr (lit "For God so loved the world"));
                     (lit "verse_text_spanish",
                       PStr (lit "Porque de tal manera amo Dios al mundo"));
                     (lit "meditation_english", PStr (lit "God loves."));
                     (lit "meditation_spanish", PStr (lit "Dios ama.")) ]),
     [EChat req]).
Proof. eexists. vm_compute. reflexivity. Qed.

(** C1, at a response on which the code departs from it.  In
    "```json{}````json" the first "```json" label is at the start and the
    next "```" closes right after "{}", which decodes to the empty record.
    The code splits at the labels first: the later "```json", which begins
    one backquote into that closing fence, cuts the text at "{}`"; no "```"
    is left in it, it does not decode, and every stage returns its fallback
    instead of the decoded record. *)
Theorem labelled_fence_overlapping_label_falls_back :
  let response := lit "```json{}````json" in
  let E := Ref.env [response] Ref.unreachable in
  first_occurrence fence_json response [] (lit "{}" ++ fence ++ lit "`json")
  /\ first_occurrence fence (lit "{}" ++ fence ++ lit "`json") (lit "{}") (lit "`json")
  /\ json_loads E (strip (lit "{}")) = Some (PDict [])
  /\ extract_json_str response = Some (lit "{}`")
  /\ forall s : stage,
       fst (agent E Ref.spanish s Ref.inputs []) =
       Return (fallback_of E Ref.spanish s response)
       /\ fallback_of E Ref.spanish s response <> PDict [].
Proof.
  intros response E.
  split; [apply first_occurrence_of_find; vm_compute; reflexivity|].
  split; [apply first_occurrence_of_find; vm_compute; reflexivity|].
  split; [vm_compute; reflexivity|].
  split; [vm_compute; reflexivity|].
  intros s; split.
  - destruct s; vm_compute; reflexivity.
  - destruct s; vm_compute; discriminate.
Qed.

(** ** Keys of the fallback records *)

Lemma dict_set_lookup_same (d : dict) (k : str) (v : pyval) :
  dict_lookup (dict_set d k v) k = Some v.
Proof.
  induction d as [|[k' v'] d IH]; simpl.
  - rewrite str_eqb_refl. reflexivity.
  - destruct (str_eqb k' k) eqn:Hk; simpl; rewrite Hk; [reflexivity | exact IH].
Qed.

Lemma dict_set_lookup_other (d : dict) (k k' : str) (v : pyval) :
  k <> k' -> dict_lookup (dict_set d k v) k' = dict_lookup d k'.
Proof.
  intros Hne. induction d as [|[k0 v0] d IH]; simpl.
  - apply str_eqb_neq in Hne. rewrite Hne. reflexivity.
  - destruct (str_eqb k0 k) eqn:Hk; simpl.
    + apply str_eqb_eq in Hk. subst k0.
      apply str_eqb_neq in Hne. rewrite Hne. reflexivity.
    + rewrite IH. reflexivity.
Qed.

Lemma dict_set_keeps (d : dict) (k k' : str) (v : pyval) :
  dict_lookup d k' <> None -> dict_lookup (dict_set d k v) k' <> None.
Proof.
  intros H. destruct (list_eq_dec N.eq_dec k k') as [->|Hne].
  - rewrite dict_set_lookup_same. discriminate.
  - rewrite (dict_set_lookup_other d k k' v Hne). exact H.
Qed.

Lemma fold_dict_set_keeps (items : list (str * pyval)) (d : dict) (k : str) :
  dict_lookup d k <> None ->
  dict_lookup (fold_left (fun d kv => dict_set d (fst kv) (snd kv)) items d) k <> None.
Proof.
  revert d; induction items as [|[k0 v0] items IH]; intros d H; simpl.
  - exact H.
  - apply IH. apply dict_set_keeps. exact H.
Qed.

(** Every key written in a dictionary display is a key of the dictionary. *)
Lemma dict_of_has_key (items : list (str * pyval)) (k : str) :
  In k (map fst items) -> dict_lookup (dict_of items) k <> None.
Proof.
  unfold dict_of. generalize (@nil (str * pyval)) as d.
  induction items as [|[k0 v0] items IH]; intros d Hin; simpl in *.
  - contradiction.
  - destruct Hin as [->|Hin].
    + apply fold_dict_set_keeps. rewrite dict_set_lookup_same. discriminate.
    + apply IH. exact Hin.
Qed.

Lemma has_keys_dict_of (items : list (str * pyval)) (keys : list str) :
  (forall k, In k keys -> In k (map fst items)) ->
  has_keys (PDict (dict_of items)) keys = true.
Proof.
  intros H. simpl. apply forallb_forall. intros k Hk.
  pose proof (dict_of_has_key items k (H k Hk)) as Hl.
  destruct (dict_lookup (dict_of items) k); congruence.
Qed.

Lemma fallback_has_keys (E : Env) (self : BibleLanguageLearningSystem) (s : stage)
    (response : str) :
  has_keys (fallback_of E self s response) (keys_read E self s) = true.
Proof.
  destruct s; cbn [fallback_of keys_read].
  - apply has_keys_dict_of. simpl. intuition.
  - apply has_keys_dict_of. simpl. intuition.
  - reflexivity.
  - reflexivity.
Qed.

(** ** The voice table *)

Lemma dict_lookup_in {V} (d : list (str * V)) (k : str) (v : V) :
  dict_lookup d k = Some v -> In v (map snd d).
Proof.
  induction d as [|[k' v'] d IH]; simpl; [discriminate|].
  destruct (str_eqb k' k); [intros [= ->]; auto | auto].
Qed.

(** C9. Whatever the target language, in the table or not, the voice lookup
    gives the one default voice: every entry of the table and the default of
    the lookup are that constant, and it is the voice of the request. *)
Theorem every_language_gets_the_default_voice (language : str) :
  voice_id language = default_voice
  /\ Forall (fun entry => snd entry = default_voice) voice_map
  /\ forall self key text,
       target_language self = language ->
       post_url (tts_request self key text)
       = lit "https://api.elevenlabs.io/v1/text-to-speech/" ++ default_voice.
Proof.
  assert (Hall : Forall (fun entry : str * str => snd entry = default_voice) voice_map)
    by (repeat constructor).
  assert (Hv : voice_id language = default_voice).
  { unfold voice_id. destruct (dict_lookup voice_map language) as [v|] eqn:Hl.
    - apply dict_lookup_in in Hl. apply in_map_iff in Hl.
      destruct Hl as [entry [<- Hin]].
      rewrite Forall_forall in Hall. exact (Hall entry Hin).
    - reflexivity. }
  split; [exact Hv|]. split; [exact Hall|].
  intros self key text Hl. unfold tts_request; cbn [post_url].
  rewrite Hl, Hv. reflexivity.
Qed.

(** ** The key selection of the display formatter *)

Lemma filter_first {A} (f : A -> bool) (l : list A) (x : A) (rest : list A) :
  filter f l = x :: rest ->
  exists before after, l = before ++ x :: after /\ filter f before = [] /\ f x = true.
Proof.
  induction l as [|a l IH]; simpl; [discriminate|].
  destruct (f a) eqn:Ha.
  - intros [= -> <-]. exists [], l. auto.
  - intros H. destruct (IH H) as [before [after [-> [Hb Hx]]]].
    exists (a :: before), after. simpl. rewrite Ha. auto.
Qed.

Lemma filter_at_first {A} (f : A -> bool) (before after : list A) (x : A) :
  filter f before = [] -> f x = true ->
  filter f (before ++ x :: after) = x :: filter f after.
Proof. intros Hb Hx. rewrite filter_app, Hb. simpl. rewrite Hx. reflexivity. Qed.

Lemma is_language_key (k : str) :
  startswith k (lit "verse_text_") = true -> k <> lit "verse_text_english" ->
  (startswith k (lit "verse_text_")
   && negb (str_eqb k (lit "verse_text_english")))%bool = true.
Proof.
  intros Hp Hne. rewrite Hp. apply str_eqb_neq in Hne. rewrite Hne. reflexivity.
Qed.

(** The formatter's primary key is the first language key of the record. *)
Lemma verse_lang_key_first (before after : list str) (k : str) :
  lang_keys before = [] ->
  startswith k (lit "verse_text_") = true -> k <> lit "verse_text_english" ->
  verse_lang_key (before ++ k :: after) = k.
Proof.
  intros Hb Hp Hne. unfold verse_lang_key, lang_keys.
  rewrite (filter_at_first _ before after k Hb (is_language_key k Hp Hne)).
  reflexivity.
Qed.

(** The formatter reads the three parts of the bundle, picks the primary key
    among the keys of the verse record and derives the other two from it. *)
Lemma format_lesson_display_keys (E : Env) (content verse : dict) :
  bundle_part content (lit "verse_data") = PDict verse ->
  let primary := verse_lang_key (dict_keys verse) in
  format_lesson_display E (PDict content) =
  display_with E primary
    (replace primary (lit "verse_text_") (lit "meditation_"))
    (replace primary (lit "verse_text_") (lit "reading_text_"))
    (PDict verse) (bundle_part content (lit "reading_data"))
    (bundle_part content (lit "lesson_data")).
Proof.
  intros Hverse primary. unfold format_lesson_display, py_get.
  fold (bundle_part content (lit "verse_data")).
  fold (bundle_part content (lit "reading_data")).
  fold (bundle_part content (lit "lesson_data")).
  rewrite Hverse. reflexivity.
Qed.

(** C6, as the code has it.  When the verse record holds a key other than
    "verse_text_english" that starts with "verse_text_", the primary key the
    formatter looks the verse up under is the first such key in the order of
    the record and never "verse_text_english"; it is "verse_text_french"
    when that is the first such key. *)
Theorem primary_key_is_first_language_key
    (E : Env) (content verse : dict) (k : str) :
  bundle_part content (lit "verse_data") = PDict verse ->
  In k (dict_keys verse) ->
  startswith k (lit "verse_text_") = true ->
  k <> lit "verse_text_english" ->
  let primary := verse_lang_key (dict_keys verse) in
  format_lesson_display E (PDict content) =
    display_with E primary
      (replace primary (lit "verse_text_") (lit "meditation_"))
      (replace primary (lit "verse_text_") (lit "reading_text_"))
      (PDict verse) (bundle_part content (lit "reading_data"))
      (bundle_part content (lit "lesson_data"))
  /\ primary <> lit "verse_text_english"
  /\ startswith primary (lit "verse_text_") = true
  /\ (exists before after,
        dict_keys verse = before ++ primary :: after /\ lang_keys before = [])
  /\ (forall before after,
        dict_keys verse = before ++ lit "verse_text_french" :: after ->
        lang_keys before = [] ->
        primary = lit "verse_text_french").
Proof.
  intros Hverse Hin Hp Hne primary.
  split; [exact (format_lesson_display_keys E content verse Hverse)|].
  assert (Hk : In k (lang_keys (dict_keys verse))).
  { unfold lang_keys. apply filter_In. split; [exact Hin|].
    apply is_language_key; assumption. }
  subst primary. unfold verse_lang_key.
  destruct (lang_keys (dict_keys verse)) as [|x rest] eqn:Hl; [contradiction|].
  destruct (filter_first _ (dict_keys verse) x rest Hl) as [before [after [Hs [Hb Hx]]]].
  apply andb_true_iff in Hx. destruct Hx as [Hxp Hxe].
  apply negb_true_iff, str_eqb_neq in Hxe.
  split; [exact Hxe|]. split; [exact Hxp|]. split.
  - exists before, after. auto.
  - intros b a Hs' Hb'.
    pose proof (verse_lang_key_first b a (lit "verse_text_french") Hb' eq_refl) as Hf.
    unfold verse_lang_key in Hf. rewrite <- Hs', Hl in Hf.
    apply Hf. discriminate.
Qed.

Lemma primary_key_is_first_language_key_witness :
  let verse := [ (lit "verse_reference", PStr (lit "Jean 3:16"));
                 (lit "verse_text_english", PStr (lit "For God so loved the world"));
                 (lit "verse_text_french", PStr (lit "Car Dieu a tant aime le monde")) ] in
  let content := [ (lit "verse_data", PDict verse) ] in
  format_lesson_display Ref.well_answered (PDict content) =
    display_with Ref.well_answered (lit "verse_text_french")
      (lit "meditation_french") (lit "reading_text_french")
      (PDict verse) (PDict []) (PDict [])
  /\ verse_lang_key (dict_keys verse) <> lit "verse_text_english".
Proof.
  cbv zeta.
  destruct (primary_key_is_first_language_key Ref.well_answered
              [ (lit "verse_data",
                  PDict [ (lit "verse_reference", PStr (lit "Jean 3:16"));
                          (lit "verse_text_english",
                            PStr (lit "For God so loved the world"));
                          (lit "verse_text_french",
                            PStr (lit "Car Dieu a tant aime le monde")) ]) ]
              [ (lit "verse_reference", PStr (lit "Jean 3:16"));
                (lit "verse_text_english", PStr (lit "For God so loved the world"));
                (lit "verse_text_french", PStr (lit "Car Dieu a tant aime le monde")) ]
              (lit "verse_text_french"))
    as [Hdisplay [Hne _]].
  - reflexivity.
  - simpl; auto.
  - reflexivity.
  - discriminate.
  - split; [exact Hdisplay | exact Hne].
Defined.

(** C6 as stated fails: a record may hold "verse_text_french" and
    "verse_text_english" and still be shown in another language, the one
    whose key comes first. *)
Lemma french_not_primary_behind_another_language :
  let verse := [ (lit "verse_text_german", PStr (lit "Also hat Gott die Welt geliebt"));
                 (lit "verse_text_french", PStr (lit "Car Dieu a tant aime le monde"));
                 (lit "verse_text_english", PStr (lit "For God so loved the world")) ] in
  let content := [ (lit "verse_data", PDict verse) ] in
  In (lit "verse_text_french") (dict_keys verse)
  /\ In (lit "verse_text_english") (dict_keys verse)
  /\ verse_lang_key (dict_keys verse) = lit "verse_text_german"
  /\ verse_lang_key (dict_keys verse) <> lit "verse_text_french"
  /\ exists shown,
       format_lesson_display Ref.well_answered (PDict content) = Return shown
       /\ contains shown (lit "*Also hat Gott die Welt geliebt*") = true
       /\ contains shown (lit "Car Dieu a tant aime le monde") = false.
Proof.
  cbv zeta. split; [simpl; tauto|]. split; [simpl; tauto|].
  split; [reflexivity|]. split; [vm_compute; discriminate|].
  eexists. split; [vm_compute; reflexivity|].
  split; vm_compute; reflexivity.
Qed.

(** ** Rendering: the layout library *)

Lemma follows_ret (E : Env) {A} (a : A) : follows E (bret a) (bret a).
Proof.
  intros elements. exists []. rewrite app_nil_r.
  split; [reflexivity|]. split; [reflexivity | discriminate].
Qed.

Lemma follows_lift (E : Env) {A} (o : outcome A) : follows E (blift o) (blift o).
Proof.
  intros elements. unfold blift. destruct o as [a|e]; [|eauto].
  exists []. rewrite app_nil_r.
  split; [reflexivity|]. split; [reflexivity | discriminate].
Qed.

Lemma follows_append (E : Env) (f : flowable) :
  follows E (append E f) (append (accepting E) f).
Proof.
  intros elements. destruct f as [text st|width height|]; cbn.
  - exists [Paragraph text st]. split; [reflexivity|]. cbn.
    destruct (paragraph_error E text st); split; first [discriminate | eauto].
  - eexists. split; [reflexivity|]. split; [reflexivity | discriminate].
  - eexists. split; [reflexivity|]. split; [reflexivity | discriminate].
Qed.

Lemma follows_bind (E : Env) {A C} (p q : B A) (k k' : A -> B C) :
  follows E p q -> (forall a, follows E (k a) (k' a)) ->
  follows E (bbind p k) (bbind q k').
Proof.
  intros Hp Hk elements. unfold bbind. specialize (Hp elements).
  destruct (q elements) as [[a middle]|e].
  - destruct Hp as (added & -> & Hyes & Hno).
    specialize (Hk a (elements ++ added)).
    destruct (forallb (accepts E) added) eqn:Hadded.
    + rewrite (Hyes eq_refl).
      destruct (k' a (elements ++ added)) as [[c final]|e]; [|exact Hk].
      destruct Hk as (added' & -> & Hyes' & Hno').
      exists (added ++ added'). rewrite app_assoc, forallb_app, Hadded.
      split; [reflexivity|]. split; assumption.
    + destruct (Hno eq_refl) as [e ->].
      destruct (k' a (elements ++ added)) as [[c final]|e']; [|eauto].
      destruct Hk as (added' & -> & _).
      exists (added ++ added'). rewrite app_assoc, forallb_app, Hadded.
      split; [reflexivity|]. split; [discriminate | eauto].
  - destruct Hp as [e' ->]. eauto.
Qed.

Lemma follows_each (E : Env) (fs : list flowable) :
  follows E (append_each E fs) (append_each (accepting E) fs).
Proof.
  induction fs as [|f fs IH]; cbn [append_each].
  - apply follows_ret.
  - apply follows_bind; [apply follows_append | intros _; exact IH].
Qed.

Lemma follows_if (E : Env) {A} (b : bool) (p p' q q' : B A) :
  follows E p q -> follows E p' q' ->
  follows E (if b then p else p') (if b then q else q').
Proof. destruct b; auto. Qed.

(** Steps through statements built from the pieces above. *)
Ltac follows_steps :=
  repeat first
    [ apply follows_ret
    | apply follows_lift
    | apply follows_append
    | apply follows_each
    | apply follows_if
    | (apply follows_bind; [|intros ?]) ].

Lemma pdf_body_follows (E : Env) (self : BibleLanguageLearningSystem)
    (lesson_content : pyval) (date : str) :
  follows E (pdf_body E self lesson_content date)
    (pdf_body (accepting E) self lesson_content date).
Proof. unfold pdf_body. follows_steps. Qed.

(** [generate_pdf] has its elements exactly when every lookup goes through
    and the library accepts every paragraph asked for. *)
Lemma pdf_elements_follows (E : Env) (self : BibleLanguageLearningSystem)
    (lesson_content : pyval) (date : str) :
  match requested_elements E self lesson_content date with
  | Raise _ => exists e, pdf_elements E self lesson_content date = Raise e
  | Return elements =>
      (forallb (accepts E) elements = true ->
       pdf_elements E self lesson_content date = Return elements)
      /\ (forallb (accepts E) elements = false ->
          exists e, pdf_elements E self lesson_content date = Raise e)
  end.
Proof.
  unfold requested_elements, pdf_elements.
  pose proof (pdf_body_follows E self lesson_content date []) as H.
  destruct (pdf_body (accepting E) self lesson_content date []) as [[u elements]|e].
  - destruct H as (added & -> & Hyes & Hno). cbn [app]. split.
    + intros Hacc. rewrite (Hyes Hacc). reflexivity.
    + intros Hacc. destruct (Hno Hacc) as [e ->]. eauto.
  - destruct H as [e' ->]. eauto.
Qed.

Lemma pdf_elements_accepted (E : Env) (self : BibleLanguageLearningSystem)
    (lesson_content : pyval) (date : str) (elements : list flowable) :
  requested_elements E self lesson_content date = Return elements ->
  forallb (accepts E) elements = true ->
  pdf_elements E self lesson_content date = Return elements.
Proof.
  intros Hreq. pose proof (pdf_elements_follows E self lesson_content date) as H.
  rewrite Hreq in H. apply H.
Qed.

Lemma pdf_elements_returned (E : Env) (self : BibleLanguageLearningSystem)
    (lesson_content : pyval) (date : str) (elements : list flowable) :
  pdf_elements E self lesson_content date = Return elements ->
  requested_elements E self lesson_content date = Return elements
  /\ forallb (accepts E) elements = true.
Proof.
  intros Hpdf. pose proof (pdf_elements_follows E self lesson_content date) as H.
  destruct (requested_elements E self lesson_content date) as [asked|e].
  - destruct H as [Hyes Hno]. destruct (forallb (accepts E) asked) eqn:Hacc.
    + rewrite (Hyes eq_refl) in Hpdf. injection Hpdf as <-. auto.
    + destruct (Hno eq_refl) as [e He]. congruence.
  - destruct H as [e' He]. congruence.
Qed.

(** *** Which bundles can be rendered *)

Lemma all_str_returns (items : list pyval) :
  forallb is_str items = true -> exists pieces, all_str items = Return pieces.
Proof.
  induction items as [|v items IH]; simpl; [eauto|].
  destruct v; simpl; try discriminate.
  intros H. destruct (IH H) as [pieces ->]. simpl. eauto.
Qed.

Lemma all_str_raises (items : list pyval) :
  forallb is_str items = false -> all_str items = Raise TypeError.
Proof.
  induction items as [|v items IH]; simpl; [discriminate|].
  destruct v; simpl; try reflexivity.
  intros H. rewrite (IH H). reflexivity.
Qed.

(** The text of the vocabulary line is made unless the vocabulary is a list
    with an item that is not a string. *)
Lemma vocabulary_text (E : Env) (vocab : pyval) :
  truthy vocab = true ->
  (joinable vocab = true ->
   exists text,
     match vocab with
     | PList _ => py_join (lit ", ") vocab
     | _ => Return (fmt E vocab)
     end = Return text)
  /\ (joinable vocab = false ->
      match vocab with
      | PList _ => py_join (lit ", ") vocab
      | _ => Return (fmt E vocab)
      end = Raise TypeError).
Proof.
  intros _. split; intros H.
  - destruct vocab; try (eexists; reflexivity).
    simpl in H. unfold py_join, py_iter. cbn [obind].
    destruct (all_str_returns _ H) as [pieces ->]. cbn [obind]. eauto.
  - destruct vocab; try discriminate. simpl in H.
    unfold py_join, py_iter. cbn [obind].
    rewrite (all_str_raises _ H). reflexivity.
Qed.

Lemma joinable_falsy (vocab : pyval) : truthy vocab = false -> joinable vocab = true.
Proof. destruct vocab as [| | | | |items|]; try reflexivity. destruct items; [reflexivity | discriminate]. Qed.

Lemma bbind_each_accepting (E : Env) {C} (fs : list flowable) (k : unit -> B C)
    (elements : list flowable) :
  bbind (append_each (accepting E) fs) k elements = k tt (elements ++ fs).
Proof.
  revert elements; induction fs as [|f fs IH]; intros elements.
  - rewrite app_nil_r. reflexivity.
  - cbn [append_each]. unfold bbind at 1. unfold bbind at 1.
    assert (Hf : append (accepting E) f elements = Return (tt, elements ++ [f]))
      by (destruct f; reflexivity).
    rewrite Hf. fold (bbind (append_each (accepting E) fs) k (elements ++ [f])).
    rewrite IH, <- app_assoc. reflexivity.
Qed.

Lemma each_accepting (E : Env) (fs elements : list flowable) :
  append_each (accepting E) fs elements = Return (tt, elements ++ fs).
Proof.
  pose proof (bbind_each_accepting E fs (@bret unit) elements) as H.
  unfold bbind, bret in H.
  destruct (append_each (accepting E) fs elements) as [[[] final]|e]; congruence.
Qed.

(** One statement of [pdf_body] run with the accepting library. *)
Ltac requested_step :=
  cbn [bbind blift append bret accepting paragraph_error py_get];
  try first [ rewrite bbind_each_accepting | rewrite each_accepting ].

Lemma requested_renderable (E : Env) (self : BibleLanguageLearningSystem)
    (content : dict) (date : str) :
  match requested_elements E self (PDict content) date with
  | Return _ => renderable content = true
  | Raise _ => renderable content = false
  end.
Proof.
  unfold renderable, requested_elements, pdf_elements, pdf_body.
  requested_step.
  fold (bundle_part content (lit "verse_data")).
  fold (bundle_part content (lit "reading_data")).
  fold (bundle_part content (lit "lesson_data")).
  fold (bundle_part content (lit "answers")).
  destruct (bundle_part content (lit "verse_data")) as [| | | | | |verse];
    try reflexivity.
  requested_step.
  match goal with
  | |- context [if truthy ?v then _ else _] => destruct (truthy v)
  end.
  all: requested_step.
  all: destruct (bundle_part content (lit "reading_data")) as [| | | | | |reading];
    try reflexivity.
  all: requested_step.
  all: match goal with
       | |- context [if truthy ?v then _ else _] => destruct (truthy v)
       end.
  all: requested_step.
  all: fold (lookup_or reading (lit "key_vocabulary") (PList [])).
  all: destruct (truthy (lookup_or reading (lit "key_vocabulary") (PList [])))
         eqn:Htruthy.
  all: requested_step.
  all: try (destruct (vocabulary_text (accepting E) _ Htruthy) as [Hyes Hno];
            destruct (joinable (lookup_or reading (lit "key_vocabulary") (PList [])));
            [ destruct (Hyes eq_refl) as [text ->]; clear Hyes Hno
            | rewrite (Hno eq_refl); reflexivity ]).
  all: try rewrite (joinable_falsy _ Htruthy).
  all: requested_step.
  all: destruct (bundle_part content (lit "lesson_data")) as [| | | | | |lesson];
    try reflexivity.
  all: repeat requested_step.
  all: destruct (bundle_part content (lit "answers")) as [| | | | | |answers];
    try reflexivity.
  all: repeat requested_step.
  all: reflexivity.
Qed.

(** *** The method as a whole *)

(** [generate_pdf] ends as its elements and the build end. *)
Lemma generate_pdf_run (E : Env) (self : BibleLanguageLearningSystem)
    (lesson_content : pyval) (filename : option str) (t : trace) :
  let name :=
    match filename with
    | Some given => given
    | None => lit "bible_lesson_" ++ now_strftime E t (lit "%Y%m%d_%H%M%S") ++ lit ".pdf"
    end in
  let path := path_join (gettempdir E) name in
  generate_pdf E self lesson_content filename t =
  match pdf_elements E self lesson_content (now_strftime E t (lit "%B %d, %Y")) with
  | Raise e => (Raise e, t)
  | Return elements =>
      match doc_build_error E t path elements with
      | Some e => (Raise e, t)
      | None => (Return path, t ++ [EBuild path elements])
      end
  end.
Proof.
  unfold generate_pdf, bind, now, lift, doc_build, ret.
  destruct filename; cbv beta iota zeta;
    destruct (pdf_elements E self lesson_content _) as [elements|e];
    try reflexivity;
    destruct (doc_build_error E t _ elements); reflexivity.
Qed.

(** A renderable bundle is built when the library accepts what is asked of
    it. *)
Lemma generate_pdf_runs (E : Env) (self : BibleLanguageLearningSystem)
    (lesson_content : pyval) (filename : option str) (t : trace)
    (elements : list flowable) :
  let name :=
    match filename with
    | Some given => given
    | None => lit "bible_lesson_" ++ now_strftime E t (lit "%Y%m%d_%H%M%S") ++ lit ".pdf"
    end in
  let path := path_join (gettempdir E) name in
  requested_elements E self lesson_content (now_strftime E t (lit "%B %d, %Y"))
  = Return elements ->
  forallb (accepts E) elements = true ->
  doc_build_error E t path elements = None ->
  generate_pdf E self lesson_content filename t
  = (Return path, t ++ [EBuild path elements]).
Proof.
  intros name path Hreq Hacc Hbuild. rewrite generate_pdf_run. cbv zeta.
  rewrite (pdf_elements_accepted E self _ _ _ Hreq Hacc).
  fold name. fold path. rewrite Hbuild. reflexivity.
Qed.

(** A document that is returned was asked for, accepted and built, last
    and once. *)
Lemma generate_pdf_returned (E : Env) (self : BibleLanguageLearningSystem)
    (lesson_content : pyval) (filename : option str) (t t' : trace) (path : str) :
  generate_pdf E self lesson_content filename t = (Return path, t') ->
  exists elements,
    requested_elements E self lesson_content (now_strftime E t (lit "%B %d, %Y"))
    = Return elements
    /\ forallb (accepts E) elements = true
    /\ doc_build_error E t path elements = None
    /\ t' = t ++ [EBuild path elements].
Proof.
  rewrite generate_pdf_run. cbv zeta.
  destruct (pdf_elements E self lesson_content _) as [elements|e] eqn:Hpdf;
    [|discriminate].
  destruct (doc_build_error E t _ elements) eqn:Hbuild; [discriminate|].
  intros [= <- <-]. exists elements.
  destruct (pdf_elements_returned E self _ _ _ Hpdf) as [Hreq Hacc]. auto.
Qed.

(** A method that raises has built nothing. *)
Lemma generate_pdf_raised (E : Env) (self : BibleLanguageLearningSystem)
    (lesson_content : pyval) (filename : option str) (t t' : trace) (e : exn) :
  generate_pdf E self lesson_content filename t = (Raise e, t') -> t' = t.
Proof.
  rewrite generate_pdf_run. cbv zeta.
  destruct (pdf_elements E self lesson_content _) as [elements|e0].
  - destruct (doc_build_error E t _ elements); intros [= _ <-]; reflexivity.
  - intros [= _ <-]. reflexivity.
Qed.

(** ** Rendering a bundle that holds only the level *)




(** ** The run *)

Lemma bind_return_inv {A B} (m : M A) (k : A -> M B) (t t' : trace) (b : B) :
  bind m k t = (Return b, t') ->
  exists a t1, m t = (Return a, t1) /\ k a t1 = (Return b, t').
Proof.
  unfold bind. destruct (m t) as [[a|e] t1]; [|discriminate].
  intros H. exists a, t1. auto.
Qed.

Lemma bind_run {A B} (m : M A) (k : A -> M B) (t t1 : trace) (a : A) :
  m t = (Return a, t1) -> bind m k t = k a t1.
Proof. intros H. unfold bind. rewrite H. reflexivity. Qed.

Lemma run_full_in_segments (E : Env) (self : BibleLanguageLearningSystem)
    (language_level : str) (t : trace) :
  run_full_lesson_generation E self language_level t
  = run_in_segments E self language_level t.
Proof.
  unfold run_full_lesson_generation, run_in_segments, first_stages, finish_lesson.
  unfold bind, progress, emit, ret. cbv beta iota.
  destruct (agent_verse_retriever E self language_level _) as [[vd|e] t1];
    [|reflexivity].
  destruct (agent_content_creator E self vd language_level _) as [[rd|e] t2];
    reflexivity.
Qed.

(** *** What a run adds to the trace *)

Lemma posts_nothing_ret {A} (a : A) : posts_nothing (ret a).
Proof. intros t. exists []. rewrite app_nil_r. auto. Qed.

Lemma posts_nothing_lift {A} (o : outcome A) : posts_nothing (lift o).
Proof. intros t. exists []. rewrite app_nil_r. auto. Qed.

Lemma posts_nothing_emit (e : event) : is_post e = false -> posts_nothing (emit e).
Proof. intros He t. exists [e]. simpl. rewrite He. auto. Qed.

Lemma posts_nothing_bind {A B} (m : M A) (k : A -> M B) :
  posts_nothing m -> (forall a, posts_nothing (k a)) -> posts_nothing (bind m k).
Proof.
  intros Hm Hk t. unfold bind. destruct (Hm t) as [added [Ht Hf]].
  destruct (m t) as [[a|e] t1]; simpl in Ht; subst t1.
  - destruct (Hk a (t ++ added)) as [added' [Ht' Hf']].
    exists (added ++ added'). rewrite Ht', <- app_assoc, filter_app, Hf, Hf'. auto.
  - exists added. auto.
Qed.

Lemma posts_nothing_call (E : Env) (self : BibleLanguageLearningSystem)
    (system_prompt user_message : str) (temperature : float) :
  posts_nothing (_call_gpt E self system_prompt user_message temperature).
Proof. intros t. eexists. split; reflexivity. Qed.

Lemma posts_nothing_now (E : Env) (format : str) : posts_nothing (now E format).
Proof. intros t. exists []. rewrite app_nil_r. auto. Qed.

Lemma posts_nothing_agent (E : Env) (self : BibleLanguageLearningSystem) (s : stage)
    (i : stage_inputs) :
  posts_nothing (agent E self s i).
Proof.
  intros t. rewrite agent_run. destruct (stage_request E self s i) as [req|e].
  - exists [EChat req]. auto.
  - exists []. rewrite app_nil_r. auto.
Qed.

(** Steps through a computation built from the pieces above. *)
Ltac posts_nothing_steps :=
  repeat first
    [ apply posts_nothing_ret
    | apply posts_nothing_lift
    | apply posts_nothing_now
    | apply posts_nothing_call
    | (apply posts_nothing_emit; reflexivity)
    | (apply posts_nothing_bind; [|intros ?]) ].

Lemma posts_nothing_build (E : Env) (filepath : str) (elements : list flowable) :
  posts_nothing (doc_build E filepath elements).
Proof.
  intros t. unfold doc_build. destruct (doc_build_error E t filepath elements).
  - exists []. rewrite app_nil_r. auto.
  - exists [EBuild filepath elements]. auto.
Qed.

Lemma posts_nothing_generate_pdf (E : Env) (self : BibleLanguageLearningSystem)
    (lesson_content : pyval) (filename : option str) :
  posts_nothing (generate_pdf E self lesson_content filename).
Proof.
  unfold generate_pdf.
  destruct filename; repeat first [ apply posts_nothing_build | progress posts_nothing_steps ].
Qed.

(** Without a key the text-to-speech agent returns at once. *)
Lemma tts_without_key (E : Env) (self : BibleLanguageLearningSystem)
    (reading_text : pyval) (t : trace) :
  key_given (elevenlabs_key self) = false ->
  agent_tts_generator E self reading_text t = (Return None, t).
Proof. intros H. unfold agent_tts_generator. rewrite H. reflexivity. Qed.

Lemma posts_nothing_finish_without_key (E : Env) (self : BibleLanguageLearningSystem)
    (language_level : str) (verse_data reading_data lesson_data answers : pyval) :
  key_given (elevenlabs_key self) = false ->
  posts_nothing
    (finish_lesson E self language_level verse_data reading_data lesson_data answers).
Proof.
  intros H. unfold finish_lesson. rewrite H.
  apply posts_nothing_bind; [apply posts_nothing_ret | intros audio_path].
  apply posts_nothing_bind; [apply posts_nothing_emit; reflexivity | intros _].
  apply posts_nothing_bind; [apply posts_nothing_generate_pdf | intros pdf_path].
  posts_nothing_steps.
Qed.

Lemma posts_nothing_run_without_key (E : Env) (self : BibleLanguageLearningSystem)
    (language_level : str) :
  key_given (elevenlabs_key self) = false ->
  posts_nothing (run_in_segments E self language_level).
Proof.
  intros H. unfold run_in_segments.
  apply posts_nothing_bind; [unfold first_stages; posts_nothing_steps | intros stage12].
  apply posts_nothing_bind; [posts_nothing_steps | intros lesson_data].
  apply posts_nothing_bind; [posts_nothing_steps | intros _].
  apply posts_nothing_bind; [posts_nothing_steps | intros answers].
  apply posts_nothing_finish_without_key. exact H.
Qed.

(** A document path is returned only after the content tree went to the
    layout library under that path. *)
Lemma generate_pdf_builds (E : Env) (self : BibleLanguageLearningSystem)
    (lesson_content : pyval) (filename : option str) (t t' : trace) (path : str) :
  generate_pdf E self lesson_content filename t = (Return path, t') ->
  exists elements before, t' = before ++ [EBuild path elements].
Proof.
  intros H. apply generate_pdf_returned in H.
  destruct H as (elements & _ & _ & _ & ->). exists elements, t. reflexivity.
Qed.

(** C8. Without a synthesis credential ([None] or the empty string) the
    audio stage returns no path and leaves the trace as it was: it issues no
    request.  The run goes on without it: it sends no speech request at any
    point, and when it completes its audio path is [None], the bundle holds
    [None] under "audio_path", and the document has been built. *)
Theorem no_audio_key_no_speech_request
    (E : Env) (self : BibleLanguageLearningSystem) :
  key_given (elevenlabs_key self) = false ->
  (forall reading_text t,
     agent_tts_generator E self reading_text t = (Return None, t))
  /\ forall language_level t,
       let run := run_full_lesson_generation E self language_level t in
       filter is_post (snd run) = filter is_post t
       /\ forall content pdf_path audio_path,
            fst run = Return (content, pdf_path, audio_path) ->
            audio_path = None
            /\ py_get content (lit "audio_path") (PStr (lit "missing")) = Return PNone
            /\ exists elements, In (EBuild pdf_path elements) (snd run).
Proof.
  intros Hkey. split.
  - intros reading_text t. apply tts_without_key. exact Hkey.
  - intros language_level t run. split.
    + subst run. rewrite run_full_in_segments.
      destruct (posts_nothing_run_without_key E self language_level Hkey t)
        as [added [Ht Hf]].
      rewrite Ht, filter_app, Hf, app_nil_r. reflexivity.
    + intros content pdf_path audio_path Hrun.
      subst run. rewrite run_full_in_segments in *.
      destruct (run_in_segments E self language_level t) as [r t'] eqn:Hr.
      simpl in Hrun. subst r. unfold run_in_segments in Hr.
      apply bind_return_inv in Hr. destruct Hr as (stage12 & t1 & _ & Hr).
      apply bind_return_inv in Hr. destruct Hr as (lesson & t2 & _ & Hr).
      apply bind_return_inv in Hr. destruct Hr as (u & t3 & _ & Hr).
      apply bind_return_inv in Hr. destruct Hr as (answers & t4 & _ & Hr).
      unfold finish_lesson in Hr. rewrite Hkey in Hr.
      apply bind_return_inv in Hr. destruct Hr as (audio & t5 & Haudio & Hr).
      unfold ret in Haudio. injection Haudio as <- <-.
      apply bind_return_inv in Hr. destruct Hr as (u' & t6 & _ & Hr).
      apply bind_return_inv in Hr. destruct Hr as (path & t7 & Hpdf & Hr).
      apply bind_return_inv in Hr. destruct Hr as (u'' & t8 & Hdone & Hr).
      unfold ret in Hr. injection Hr as <- <- <- <-.
      apply generate_pdf_builds in Hpdf. destruct Hpdf as (elements & before & ->).
      unfold progress, emit in Hdone. injection Hdone as _ <-.
      split; [reflexivity|]. split; [reflexivity|].
      exists elements. simpl. rewrite !in_app_iff. simpl. auto.
Qed.

Lemma no_audio_key_no_speech_request_witness :
  let run := run_full_lesson_generation Ref.well_answered Ref.spanish (lit "B1") [] in
  agent_tts_generator Ref.well_answered Ref.spanish (PStr (lit "Dios ama al mundo.")) []
    = (Return None, [])
  /\ filter is_post (snd run) = []
  /\ exists content pdf_path,
       fst run = Return (content, pdf_path, None)
       /\ py_get content (lit "audio_path") (PStr (lit "missing")) = Return PNone.
Proof.
  cbv zeta.
  destruct (no_audio_key_no_speech_request Ref.well_answered Ref.spanish eq_refl)
    as [Htts Hrun].
  split; [apply Htts|].
  destruct (Hrun (lit "B1") []) as [Hposts Hdone]. cbv zeta in Hposts, Hdone.
  split; [exact Hposts|].
  destruct (fst (run_full_lesson_generation Ref.well_answered Ref.spanish (lit "B1") []))
    as [[[content pdf_path] audio_path]|e] eqn:Hr.
  - destruct (Hdone content pdf_path audio_path eq_refl) as [-> [Hnone _]].
    exists content, pdf_path. split; [reflexivity | exact Hnone].
  - vm_compute in Hr. discriminate.
Defined.

(** ** The exercise stage falls back and the run goes on *)

(** When the exercise stage could build its user message, the answer stage
    can build its own whatever the exercises are: it reads the same two
    fields of the reading record, and cuts the same text. *)
Lemma answers_message_builds (E : Env) (self : BibleLanguageLearningSystem)
    (verse_data reading_data lesson_data : pyval) (message : str) :
  lesson_user_message E self verse_data reading_data = Return message ->
  exists context vocabulary,
    answers_user_message E self lesson_data reading_data =
    Return (lit "Generate answers for:" ++ nl
            ++ lit "Exercises: " ++ upto 500 (json_dumps E lesson_data) ++ nl
            ++ lit "Reading context: " ++ context ++ nl
            ++ lit "Vocabulary: " ++ vocabulary).
Proof.
  unfold lesson_user_message, answers_user_message, py_get.
  destruct verse_data; try discriminate.
  destruct reading_data as [| | | | |l0|d]; try discriminate.
  cbn [obind].
  destruct (match dict_lookup d (field E "reading_text_" self) with
            | Some x => x
            | None => PStr []
            end) as [| | | |text0|items0|entries0]; try discriminate; intros _;
    cbn [py_upto obind]; eexists; eexists; reflexivity.
Qed.

(** C7. When the run has reached the exercise stage and the reply to that
    stage's request does not parse, the stage raises nothing and returns its
    hard-coded fallback, one item per category; the answer stage is then
    called with that fallback as its exercises (its request carries the
    first 500 characters of the fallback's JSON text) and returns, and the
    run goes on to its last steps with the fallback as the exercise set. *)
Theorem unparsable_exercise_reply_falls_back_and_run_goes_on
    (E : Env) (self : BibleLanguageLearningSystem) (language_level : str)
    (t0 t3 : trace) (verse_data reading_data : pyval) (message3 : str) :
  first_stages E self language_level t0 = (Return (verse_data, reading_data), t3) ->
  lesson_user_message E self verse_data reading_data = Return message3 ->
  let req3 :=
    completion_request self (lesson_system_prompt self language_level) message3 0.7 in
  parse_response E (reply_text (chat_create E t3 req3)) = None ->
  let t4 :=
    t3 ++ [EChat req3]
       ++ [EProgress 0.60 ([8218; 250; 214]%N ++ lit " Generating answer key...")] in
  exists context vocabulary,
    let message4 :=
      lit "Generate answers for:" ++ nl
      ++ lit "Exercises: " ++ upto 500 (json_dumps E lesson_fallback) ++ nl
      ++ lit "Reading context: " ++ context ++ nl
      ++ lit "Vocabulary: " ++ vocabulary in
    let req4 := completion_request self (answers_system_prompt self) message4 0.5 in
    let answers := parse_or E answers_fallback (reply_text (chat_create E t4 req4)) in
    agent_lesson_designer E self verse_data reading_data language_level t3
      = (Return lesson_fallback, t3 ++ [EChat req3])
    /\ (forall key, In key exercise_keys ->
          exists item, py_get lesson_fallback key PNone = Return (PList [item]))
    /\ agent_answer_key_generator E self lesson_fallback verse_data reading_data t4
       = (Return answers, t4 ++ [EChat req4])
    /\ run_full_lesson_generation E self language_level t0
       = finish_lesson E self language_level verse_data reading_data
           lesson_fallback answers (t4 ++ [EChat req4]).
Proof.
  intros H12 Hmsg req3 Hparse t4.
  destruct (answers_message_builds E self verse_data reading_data lesson_fallback
              message3 Hmsg) as (context & vocabulary & Hmsg4).
  exists context, vocabulary. intros message4 req4 answers.
  assert (H3 : agent_lesson_designer E self verse_data reading_data language_level t3
               = (Return lesson_fallback, t3 ++ [EChat req3])).
  { unfold agent_lesson_designer, bind, lift. rewrite Hmsg.
    unfold _call_gpt, ret, parse_or. fold req3. rewrite Hparse. reflexivity. }
  assert (H4 : agent_answer_key_generator E self lesson_fallback verse_data
                 reading_data t4 = (Return answers, t4 ++ [EChat req4])).
  { unfold agent_answer_key_generator, bind, lift. rewrite Hmsg4. reflexivity. }
  split; [exact H3|]. split; [|split; [exact H4|]].
  { intros key Hkey. simpl in Hkey.
    destruct Hkey as [<-|[<-|[<-|[<-|[<-|[]]]]]]; eexists; reflexivity. }
  rewrite run_full_in_segments. unfold run_in_segments.
  rewrite (bind_run _ _ _ _ _ H12). cbn [fst snd].
  rewrite (bind_run _ _ _ _ _ H3).
  unfold bind at 1. unfold progress, emit. rewrite <- app_assoc. fold t4.
  rewrite (bind_run _ _ _ _ _ H4). reflexivity.
Qed.

Lemma unparsable_exercise_reply_falls_back_and_run_goes_on_witness :
  exists verse_data reading_data t3 lesson_request content pdf_path,
    first_stages Ref.exercises_refused Ref.spanish (lit "B1") []
      = (Return (verse_data, reading_data), t3)
    /\ agent_lesson_designer Ref.exercises_refused Ref.spanish verse_data reading_data
         (lit "B1") t3
       = (Return lesson_fallback, t3 ++ [EChat lesson_request])
    /\ fst (run_full_lesson_generation Ref.exercises_refused Ref.spanish (lit "B1") [])
       = Return (content, pdf_path, None)
    /\ py_get content (lit "lesson_data") PNone = Return lesson_fallback.
Proof.
  assert (H12 : exists vd rd t3,
            first_stages Ref.exercises_refused Ref.spanish (lit "B1") []
            = (Return (vd, rd), t3))
    by (eexists; eexists; eexists; vm_compute; reflexivity).
  destruct H12 as (vd & rd & t3 & H12).
  assert (Hm : exists m,
            lesson_user_message Ref.exercises_refused Ref.spanish vd rd = Return m).
  { vm_compute in H12. injection H12 as <- <- <-. eexists. vm_compute. reflexivity. }
  destruct Hm as [m Hm].
  pose proof (unparsable_exercise_reply_falls_back_and_run_goes_on
                Ref.exercises_refused Ref.spanish (lit "B1") [] t3 vd rd m H12 Hm) as H.
  cbv zeta in H.
  destruct H as (context & vocabulary & H3 & _ & _ & Hrun).
  { vm_compute in H12. injection H12 as <- <- <-.
    vm_compute in Hm. injection Hm as <-. vm_compute. reflexivity. }
  exists vd, rd, t3. eexists. eexists. eexists.
  split; [exact H12|]. split; [exact H3|].
  rewrite Hrun.
  vm_compute in H12. injection H12 as <- <- <-.
  vm_compute in Hm. injection Hm as <-.
  split; vm_compute; reflexivity.
Defined.

(** ** Runs with an audio key *)

(** A speech service that cannot be reached leaves the run without audio. *)
Example unreachable_speech_service_is_not_fatal :
  exists content pdf_path t,
    run_full_lesson_generation Ref.well_answered Ref.spanish_with_audio (lit "B1") []
    = (Return (content, pdf_path, None), t)
    /\ length (filter is_post t) = 1.
Proof. eexists; eexists; eexists. split; vm_compute; reflexivity. Qed.

(** A service that answers 200 gives the audio file, named after the time,
    and the bundle carries its path. *)
Example audio_saved_when_speech_service_answers :
  let E := Ref.env [Ref.verse_reply; Ref.reading_reply; Ref.lesson_reply;
                    Ref.answers_reply]
             (PostResponse 200 [73; 68; 51]%N []) in
  exists content pdf_path t,
    run_full_lesson_generation E Ref.spanish_with_audio (lit "B1") []
    = (Return (content, pdf_path, Some (lit "/tmp/reading_audio_20240101_120000.mp3")), t)
    /\ py_get content (lit "audio_path") PNone
       = Return (PStr (lit "/tmp/reading_audio_20240101_120000.mp3")).
Proof. cbv zeta. eexists; eexists; eexists. split; vm_compute; reflexivity. Qed.

(** * Further properties *)

(** ** Extraction never fails before the decoder *)

Lemma split_nonempty (s sep : str) : exists head rest, split s sep = head :: rest.
Proof.
  unfold split. rewrite split_rounds_unfold.
  destruct (find s sep); [|eauto]. destruct (length s); eauto.
Qed.

(** X1. The index expressions of the [try] block are always in range: for
    every response there is a text handed to [json.loads], so an agent takes
    its [except:] branch exactly when the decoder raises. *)
Theorem extraction_reaches_the_decoder (E : Env) (response : str) :
  exists json_str,
    extract_json_str response = Some json_str
    /\ parse_response E response = json_loads E json_str
    /\ forall fallback,
         parse_or E fallback response =
         match json_loads E json_str with Some record => record | None => fallback end.
Proof.
  assert (H : exists json_str, extract_json_str response = Some json_str).
  { unfold extract_json_str.
    assert (Hsplit : forall sep, sep <> [] -> contains response sep = true ->
              exists piece inner,
                nth_error (split response sep) 1 = Some piece
                /\ nth_error (split piece fence) 0 = Some inner).
    { intros sep Hsep Hc. unfold contains in Hc.
      destruct (find response sep) as [i|] eqn:Hf; [|discriminate].
      rewrite (split_some _ _ _ Hsep Hf).
      destruct (split_nonempty (skipn (i + length sep) response) sep) as [p [tl ->]].
      destruct (split_nonempty p fence) as [inner [tl' Hp]].
      exists p, inner. rewrite Hp. auto. }
    destruct (contains response fence_json) eqn:Hj.
    - destruct (Hsplit _ fence_json_nonempty Hj) as (p & inner & -> & ->). eauto.
    - destruct (contains response fence) eqn:Hg; [|eauto].
      destruct (Hsplit _ fence_nonempty Hg) as (p & inner & -> & ->). eauto. }
  destruct H as [json_str H]. exists json_str.
  split; [exact H|]. unfold parse_or, parse_response. rewrite H. auto.
Qed.

(** ** Fences that are never closed *)

Lemma contains_false_find (s sub : str) : contains s sub = false -> find s sub = None.
Proof. unfold contains. destruct (find s sub); [discriminate | reflexivity]. Qed.

(** X2. A fence that is opened and never closed (a reply cut short, say) still
    yields a text to decode: everything after the opening marker, trimmed. *)
Theorem unterminated_fence_takes_the_rest (response before rest : str) :
  contains rest fence = false ->
  first_occurrence fence_json response before rest
  \/ (contains response fence_json = false
      /\ first_occurrence fence response before rest) ->
  extract_json_str response = Some (strip rest).
Proof.
  intros Hrest [Hopen | [Hlabel Hopen]]; unfold extract_json_str.
  - rewrite (contains_of_first_occurrence _ _ _ _ Hopen).
    rewrite (split_first_occurrence _ _ _ _ fence_json_nonempty Hopen).
    rewrite (split_none _ _ (contains_false_find _ _ (no_fence_no_label _ Hrest))).
    cbn [nth_error]. rewrite (split_none _ _ (contains_false_find _ _ Hrest)).
    reflexivity.
  - rewrite Hlabel, (contains_of_first_occurrence _ _ _ _ Hopen).
    rewrite (split_first_occurrence _ _ _ _ fence_nonempty Hopen).
    rewrite (split_none _ _ (contains_false_find _ _ Hrest)).
    cbn [nth_error]. rewrite (split_none _ _ (contains_false_find _ _ Hrest)).
    reflexivity.
Qed.

Lemma unterminated_fence_takes_the_rest_witness :
  extract_json_str (lit "Here you go:" ++ nl ++ lit "```json" ++ nl ++ lit "{}")
  = Some (lit "{}")
  /\ parse_response Ref.well_answered
       (lit "Here you go:" ++ nl ++ lit "```json" ++ nl ++ lit "{}")
     = Some (PDict []).
Proof.
  assert (H : extract_json_str (lit "Here you go:" ++ nl ++ lit "```json" ++ nl ++ lit "{}")
              = Some (strip (nl ++ lit "{}"))).
  { apply (unterminated_fence_takes_the_rest _ (lit "Here you go:" ++ nl) (nl ++ lit "{}")).
    - vm_compute; reflexivity.
    - left. apply first_occurrence_of_find; vm_compute; reflexivity. }
  split; [exact H|]. unfold parse_response. rewrite H. vm_compute. reflexivity.
Defined.

(** ** The text handed to the decoder *)

Lemma first_piece_has_no_separator (s sep inner : str) :
  sep <> [] -> nth_error (split s sep) 0 = Some inner -> contains inner sep = false.
Proof.
  intros Hsep H. destruct (find s sep) as [i|] eqn:Hf.
  - rewrite (split_some _ _ _ Hsep Hf) in H. injection H as <-.
    destruct (find_some_occurs _ _ _ Hf) as [r [Hr Hi]].
    assert (Hlen : length (firstn i s) = i) by (rewrite length_firstn; lia).
    assert (Hfirst : first_occurrence sep s (firstn i s) r).
    { apply first_occurrence_of_find; [exact Hr | rewrite Hlen; exact Hf]. }
    unfold contains.
    rewrite (first_occurrence_none_before _ _ _ _ Hsep Hfirst). reflexivity.
  - rewrite (split_none _ _ Hf) in H. injection H as <-.
    unfold contains. rewrite Hf. reflexivity.
Qed.

Lemma lstrip_suffix (s : str) : exists a, s = a ++ lstrip s.
Proof.
  induction s as [|c s [a IH]]; [exists []; reflexivity|]. simpl.
  destruct (isspace c); [|exists []; reflexivity].
  exists (c :: a). simpl. f_equal. exact IH.
Qed.

Lemma strip_inside (s : str) : exists a b, s = a ++ strip s ++ b.
Proof.
  destruct (lstrip_suffix s) as [a Ha].
  destruct (lstrip_suffix (rev (lstrip s))) as [b Hb].
  exists a, (rev b). unfold strip, rstrip.
  rewrite <- rev_app_distr, <- Hb, rev_involutive. exact Ha.
Qed.

Lemma contains_strip (s sub : str) :
  contains s sub = false -> contains (strip s) sub = false.
Proof.
  intros H. destruct (contains (strip s) sub) eqn:Hc; [|reflexivity]. exfalso.
  apply contains_iff in Hc. destruct Hc as [before [rest Hocc]].
  destruct (strip_inside s) as (a & b & Hs).
  apply (contains_false_no_occurrence sub s (a ++ before) H).
  exists (rest ++ b). rewrite Hs at 1. rewrite Hocc. rewrite <- !app_assoc. reflexivity.
Qed.

Lemma lstrip_idempotent (s : str) : lstrip (lstrip s) = lstrip s.
Proof.
  induction s as [|c s IH]; [reflexivity|]. simpl.
  destruct (isspace c) eqn:Hc; [exact IH|]. simpl. rewrite Hc. reflexivity.
Qed.

Lemma lstrip_keeps_the_last (u : str) (c : char) :
  isspace c = false -> exists v, lstrip (u ++ [c]) = v ++ [c].
Proof.
  intros Hc. induction u as [|d u [v IH]]; simpl.
  - rewrite Hc. exists []. reflexivity.
  - destruct (isspace d); [exists v; exact IH|]. exists (d :: u). reflexivity.
Qed.

Lemma lstrip_length (s : str) : length (lstrip s) <= length s.
Proof.
  induction s as [|c s IH]; simpl; [lia|]. destruct (isspace c); simpl; lia.
Qed.

Lemma lstrip_of_rstrip (s : str) : lstrip s = s -> lstrip (rstrip s) = rstrip s.
Proof.
  destruct s as [|c s]; [reflexivity|]. intros H.
  assert (Hc : isspace c = false).
  { simpl in H. destruct (isspace c); [|reflexivity].
    pose proof (lstrip_length s) as Hlen. rewrite H in Hlen. simpl in Hlen. lia. }
  unfold rstrip. cbn [rev].
  destruct (lstrip_keeps_the_last (rev s) c Hc) as [v ->].
  rewrite rev_app_distr. simpl. rewrite Hc. reflexivity.
Qed.

Lemma strip_idempotent (s : str) : strip (strip s) = strip s.
Proof.
  unfold strip.
  rewrite (lstrip_of_rstrip (lstrip s) (lstrip_idempotent s)).
  unfold rstrip. rewrite rev_involutive, lstrip_idempotent. reflexivity.
Qed.

(** X3. Whatever the reply, the text handed to [json.loads] holds no fence
    marker and neither begins nor ends with white space: every branch of the
    block trims, and a fenced branch stops at the next fence. *)
Theorem decoder_input_is_trimmed_and_fence_free (response json_str : str) :
  extract_json_str response = Some json_str ->
  contains json_str fence = false
  /\ contains json_str fence_json = false
  /\ strip json_str = json_str.
Proof.
  intros H.
  assert (Hmain : contains json_str fence = false /\ strip json_str = json_str).
  { unfold extract_json_str in H.
    destruct (contains response fence_json).
    - destruct (nth_error (split response fence_json) 1) as [labelled|]; [|discriminate].
      destruct (nth_error (split labelled fence) 0) as [inner|] eqn:Hinner;
        [|discriminate].
      injection H as <-. split; [|apply strip_idempotent].
      apply contains_strip.
      exact (first_piece_has_no_separator _ _ _ fence_nonempty Hinner).
    - destruct (contains response fence) eqn:Hfence.
      + destruct (nth_error (split response fence) 1) as [fenced|]; [|discriminate].
        destruct (nth_error (split fenced fence) 0) as [inner|] eqn:Hinner;
          [|discriminate].
        injection H as <-. split; [|apply strip_idempotent].
        apply contains_strip.
        exact (first_piece_has_no_separator _ _ _ fence_nonempty Hinner).
      + injection H as <-. split; [|apply strip_idempotent].
        apply contains_strip. exact Hfence. }
  destruct Hmain as [Hfence Hstrip].
  split; [exact Hfence|]. split; [|exact Hstrip].
  apply no_fence_no_label. exact Hfence.
Qed.

Lemma decoder_input_is_trimmed_and_fence_free_witness :
  let json_str :=
    match extract_json_str Ref.verse_reply with Some j => j | None => [] end in
  extract_json_str Ref.verse_reply = Some json_str
  /\ contains json_str fence = false
  /\ strip json_str = json_str.
Proof.
  cbv zeta.
  assert (H : extract_json_str Ref.verse_reply
              = Some (match extract_json_str Ref.verse_reply with
                      | Some j => j
                      | None => []
                      end)) by (vm_compute; reflexivity).
  split; [exact H|].
  destruct (decoder_input_is_trimmed_and_fence_free Ref.verse_reply _ H)
    as (Hfence & _ & Hstrip).
  split; [exact Hfence | exact Hstrip].
Defined.

(** ** What the fallback records keep of the reply *)

Lemma english_key (prefix : string) (x : str) :
  x <> lit "english" ->
  lit prefix ++ x <> lit prefix ++ lit "english".
Proof. intros H Heq. apply H. exact (app_inv_head _ _ _ Heq). Qed.

(** X4. When the verse stage falls back, the target-language verse text is the
    first 100 characters of the reply and the meditation the next 100 (a fixed
    word when the reply has at most 100): for a longer reply the two fields
    together are its first 200 characters.  The reading stage keeps the first
    300 characters, except for the target language English, whose key is the
    one of the canned English text, written later in the same record. *)
Theorem fallbacks_keep_the_head_of_the_reply
    (E : Env) (self : BibleLanguageLearningSystem) (response : str) :
  let verse := verse_fallback E self response in
  let reading := reading_fallback E self response in
  py_get verse (field E "verse_text_" self) PNone = Return (PStr (upto 100 response))
  /\ py_get verse (field E "meditation_" self) PNone
     = Return (PStr (if 100 <? length response then slice 100 200 response
                     else lit "Meditaci" ++ [8730; 8805]%N ++ lit "n"))
  /\ (lower E (target_language self) <> lit "english" ->
      py_get reading (field E "reading_text_" self) PNone
      = Return (PStr (upto 300 response)))
  /\ (lower E (target_language self) = lit "english" ->
      py_get reading (field E "reading_text_" self) PNone
      = Return (PStr (lit "Reading comprehension text")))
  /\ (100 < length response ->
      upto 100 response ++ slice 100 200 response = upto 200 response)
  /\ length (upto 100 response) <= 100
  /\ length (slice 100 200 response) <= 100
  /\ length (upto 300 response) <= 300.
Proof.
  intros verse reading.
  subst verse reading. unfold verse_fallback, reading_fallback, dict_of, py_get.
  cbn [fold_left fst snd].
  repeat split.
  - rewrite dict_set_lookup_other
      by (unfold field; intros H; cbn in H; discriminate).
    rewrite dict_set_lookup_other
      by (unfold field; intros H; cbn in H; discriminate).
    rewrite dict_set_lookup_same. reflexivity.
  - rewrite dict_set_lookup_same. reflexivity.
  - intros Hlang.
    rewrite dict_set_lookup_other
      by (unfold field; intros H; cbn in H; discriminate).
    rewrite dict_set_lookup_other
      by (intros Heq; symmetry in Heq;
          exact (english_key "reading_text_" _ Hlang Heq)).
    rewrite dict_set_lookup_same. reflexivity.
  - intros Hlang. unfold field. rewrite Hlang.
    rewrite dict_set_lookup_other by (intros H; cbn in H; discriminate).
    change (lit "reading_text_" ++ lit "english") with (lit "reading_text_english").
    rewrite dict_set_lookup_same. reflexivity.
  - intros _. unfold upto, slice.
    replace 200 with (100 + 100) by reflexivity.
    rewrite <- (firstn_skipn 100 (firstn (100 + 100) response)).
    rewrite firstn_firstn, skipn_firstn_comm. reflexivity.
  - unfold upto. apply firstn_le_length.
  - unfold slice. apply firstn_le_length.
  - unfold upto. apply firstn_le_length.
Qed.

(** ** When the document can be rendered *)

(** X5. [generate_pdf] returns in one case only: the verse, reading,
    exercise and answer records of the bundle are dicts (or absent) and its
    vocabulary, if a list, holds only strings, so that every lookup goes
    through; the layout library accepts every paragraph asked of it; and
    the build writes the file.  The trace then gains the one document, at
    the returned path.  In every other case the method raises and the trace
    is as it was: nothing has been built. *)
Theorem generate_pdf_renders_or_builds_nothing
    (E : Env) (self : BibleLanguageLearningSystem) (content : dict)
    (filename : option str) (t : trace) :
  let name :=
    match filename with
    | Some given => given
    | None => lit "bible_lesson_" ++ now_strftime E t (lit "%Y%m%d_%H%M%S") ++ lit ".pdf"
    end in
  let path := path_join (gettempdir E) name in
  let date := now_strftime E t (lit "%B %d, %Y") in
  (renderable content = false ->
   exists e, generate_pdf E self (PDict content) filename t = (Raise e, t))
  /\ (renderable content = true ->
      exists elements,
        requested_elements E self (PDict content) date = Return elements
        /\ (forallb (accepts E) elements = false ->
            exists e, generate_pdf E self (PDict content) filename t = (Raise e, t))
        /\ (forallb (accepts E) elements = true ->
            generate_pdf E self (PDict content) filename t =
            match doc_build_error E t path elements with
            | Some e => (Raise e, t)
            | None => (Return path, t ++ [EBuild path elements])
            end)).
Proof.
  intros name path date.
  pose proof (requested_renderable E self content date) as Hrender.
  pose proof (pdf_elements_follows E self (PDict content) date) as Hfollows.
  rewrite generate_pdf_run. cbv zeta. fold name. fold path. fold date.
  destruct (requested_elements E self (PDict content) date) as [elements|e0].
  - split; [congruence|]. intros _. exists elements.
    destruct Hfollows as [Hyes Hno]. split; [reflexivity|]. split.
    + intros Hacc. destruct (Hno Hacc) as [e ->]. eauto.
    + intros Hacc. rewrite (Hyes Hacc). reflexivity.
  - split; [|congruence]. intros _. destruct Hfollows as [e ->]. eauto.
Qed.

(** X6. The document goes to the temporary directory under the given file
    name, or under a name made of the time stamp; a file name that is an
    absolute path replaces the directory altogether. *)
Theorem generate_pdf_path
    (E : Env) (self : BibleLanguageLearningSystem) (lesson_content : pyval)
    (filename : option str) (t t' : trace) (path : str) :
  generate_pdf E self lesson_content filename t = (Return path, t') ->
  path = path_join (gettempdir E)
           (match filename with
            | Some given => given
            | None => lit "bible_lesson_" ++ now_strftime E t (lit "%Y%m%d_%H%M%S")
                      ++ lit ".pdf"
            end)
  /\ (forall given, filename = Some given ->
        startswith given (lit "/") = true -> path = given)
  /\ (filename = None -> startswith path (gettempdir E) = true).
Proof.
  intros H.
  assert (Hp : path = path_join (gettempdir E)
           (match filename with
            | Some given => given
            | None => lit "bible_lesson_" ++ now_strftime E t (lit "%Y%m%d_%H%M%S")
                      ++ lit ".pdf"
            end)).
  { rewrite generate_pdf_run in H. cbv zeta in H.
    destruct (pdf_elements E self lesson_content _) as [elements|e0];
      [|discriminate].
    destruct (doc_build_error E t _ elements); [discriminate|].
    injection H as <- _. reflexivity. }
  split; [exact Hp|]. split.
  - intros given -> Habs. rewrite Hp. unfold path_join. rewrite Habs. reflexivity.
  - intros ->. rewrite Hp. unfold path_join.
    change (startswith (lit "bible_lesson_" ++ _ ++ lit ".pdf") (lit "/")) with false.
    cbv iota. destruct (_ || _); apply startswith_app.
Qed.

Lemma generate_pdf_path_witness :
  fst (generate_pdf Ref.well_answered Ref.spanish (PDict [])
         (Some (lit "/srv/lesson.pdf")) [])
  = Return (lit "/srv/lesson.pdf")
  /\ lit "/srv/lesson.pdf" = path_join (lit "/tmp") (lit "/srv/lesson.pdf").
Proof.
  split; [vm_compute; reflexivity|].
  destruct (generate_pdf_path Ref.well_answered Ref.spanish (PDict [])
              (Some (lit "/srv/lesson.pdf")) []
              (snd (generate_pdf Ref.well_answered Ref.spanish (PDict [])
                      (Some (lit "/srv/lesson.pdf")) []))
              (lit "/srv/lesson.pdf")) as [Hpath _].
  - vm_compute. reflexivity.
  - exact Hpath.
Defined.

(** ** When the lesson can be shown on screen *)

Lemma exercise_lines_of_dicts (E : Env) (items : list pyval) (start : nat) :
  forallb is_dict items = true ->
  exists text, exercise_lines E (combine (seq start (length items)) items) = Return text.
Proof.
  revert start; induction items as [|ex items IH]; intros start H; simpl; [eauto|].
  simpl in H. apply andb_true_iff in H. destruct H as [Hex H].
  destruct ex; try discriminate. cbn [py_get obind].
  destruct (IH (S start) H) as [text ->]. cbn [obind]. eauto.
Qed.

Lemma exercise_lines_of_other (E : Env) (items : list pyval) (start : nat) :
  forallb is_dict items = false ->
  raises (exercise_lines E (combine (seq start (length items)) items)).
Proof.
  revert start; induction items as [|ex items IH]; intros start H; simpl;
    [discriminate|].
  simpl in H. apply andb_false_iff in H.
  destruct ex; try (eexists; reflexivity).
  cbn [py_get obind]. destruct H as [H|H]; [discriminate|].
  destruct (IH (S start) H) as [e ->]. eexists; reflexivity.
Qed.

(** One loop of the formatter over a category of exercises. *)
Lemma exercise_loop_outcome (E : Env) (lesson : dict) (key : str) :
  (loops (lookup_or lesson key (PList [])) = true ->
   exists text, exercise_loop E (PDict lesson) key = Return text)
  /\ (loops (lookup_or lesson key (PList [])) = false ->
      raises (exercise_loop E (PDict lesson) key)).
Proof.
  unfold exercise_loop, py_get. fold (lookup_or lesson key (PList [])).
  cbn [obind]. unfold enumerate1.
  destruct (lookup_or lesson key (PList [])) as [| | | |s|items|d];
    try (split; [discriminate | intros _; eexists; reflexivity]).
  - destruct s as [|c s]; cbn [py_iter loops map obind].
    + split; [intros _; eexists; reflexivity | discriminate].
    + split; [discriminate | intros _; eexists; reflexivity].
  - cbn [py_iter loops obind]. split; intros H.
    + exact (exercise_lines_of_dicts E items 1 H).
    + exact (exercise_lines_of_other E items 1 H).
  - destruct d as [|[k v] d]; cbn [py_iter loops dict_keys map obind].
    + split; [intros _; eexists; reflexivity | discriminate].
    + split; [discriminate | intros _; eexists; reflexivity].
Qed.

Lemma all_str_of_chars (s : str) :
  exists pieces, all_str (map (fun c => PStr [c]) s) = Return pieces.
Proof.
  induction s as [|c s [pieces IH]]; simpl; [eauto|]. rewrite IH. simpl. eauto.
Qed.

Lemma all_str_of_keys (keys : list str) :
  exists pieces, all_str (map PStr keys) = Return pieces.
Proof.
  induction keys as [|k keys [pieces IH]]; simpl; [eauto|]. rewrite IH. simpl. eauto.
Qed.

(** The vocabulary line of the formatter. *)
Lemma py_join_outcome (sep : str) (v : pyval) :
  (joins v = true -> exists text, py_join sep v = Return text)
  /\ (joins v = false -> raises (py_join sep v)).
Proof.
  unfold py_join.
  destruct v as [| | | |s|items|d];
    try (split; [discriminate | intros _; eexists; reflexivity]);
    cbn [py_iter joins obind].
  - split; [intros _ | discriminate].
    destruct (all_str_of_chars s) as [pieces ->]. cbn [obind]. eauto.
  - split; intros H.
    + destruct (all_str_returns _ H) as [pieces ->]. cbn [obind]. eauto.
    + rewrite (all_str_raises _ H). eexists; reflexivity.
  - split; [intros _ | discriminate].
    destruct (all_str_of_keys (dict_keys d)) as [pieces ->]. cbn [obind]. eauto.
Qed.

(** The formatter returns a text exactly for the displayable bundles. *)
Lemma display_outcome (E : Env) (content : dict) :
  (displayable content = true ->
   exists text, format_lesson_display E (PDict content) = Return text)
  /\ (displayable content = false ->
      raises (format_lesson_display E (PDict content))).
Proof.
  unfold displayable, format_lesson_display, py_get.
  fold (bundle_part content (lit "verse_data")).
  fold (bundle_part content (lit "reading_data")).
  fold (bundle_part content (lit "lesson_data")).
  cbn [obind].
  destruct (bundle_part content (lit "verse_data")) as [| | | | | |verse];
    try (split; [discriminate | intros _; eexists; reflexivity]).
  cbn [py_keys obind is_dict andb]. unfold display_with. cbn [py_get obind].
  destruct (bundle_part content (lit "reading_data")) as [| | | | | |reading];
    try (split; [discriminate | intros _; eexists; reflexivity]).
  cbn [py_get obind]. fold (lookup_or reading (lit "key_vocabulary") (PList [])).
  destruct (py_join_outcome (lit ", ") (lookup_or reading (lit "key_vocabulary") (PList [])))
    as [Hyes Hno].
  destruct (joins (lookup_or reading (lit "key_vocabulary") (PList [])));
    [ destruct (Hyes eq_refl) as [vocabulary ->]; clear Hyes Hno
    | destruct (Hno eq_refl) as [e ->];
      split; [discriminate | intros _; eexists; reflexivity] ].
  cbn [obind andb].
  destruct (bundle_part content (lit "lesson_data")) as [| | | | | |lesson];
    try (split; [discriminate | intros _; eexists; reflexivity]).
  cbn [forallb exercise_keys].
  repeat match goal with
  | |- context [exercise_loop E (PDict lesson) ?key] =>
      let Hyes := fresh "Hyes" in
      let Hno := fresh "Hno" in
      destruct (exercise_loop_outcome E lesson key) as [Hyes Hno];
      destruct (loops (lookup_or lesson key (PList [])));
      [ let text := fresh "text" in
        destruct (Hyes eq_refl) as [text ->]; clear Hyes Hno; cbn [obind andb]
      | let e := fresh "e" in
        destruct (Hno eq_refl) as [e ->];
        split; [discriminate | intros _; eexists; reflexivity] ]
  end.
  split; [intros _; eexists; reflexivity | discriminate].
Qed.

(** X7. [format_lesson_display] returns a text exactly for the bundles whose
    verse, reading and exercise records are dicts (or absent), whose
    vocabulary can be joined and whose five exercise lists hold only dicts;
    for any other bundle it raises.  It reads neither the answers nor the
    level nor the audio path: changing them changes nothing. *)
Theorem format_lesson_display_shows_or_raises (E : Env) (content : dict) :
  (displayable content = true ->
   exists text, format_lesson_display E (PDict content) = Return text)
  /\ (displayable content = false ->
      raises (format_lesson_display E (PDict content)))
  /\ forall key v,
       In key [lit "answers"; lit "level"; lit "audio_path"] ->
       format_lesson_display E (PDict (dict_set content key v))
       = format_lesson_display E (PDict content).
Proof.
  destruct (display_outcome E content) as [Hyes Hno].
  split; [exact Hyes|]. split; [exact Hno|].
  intros key v Hin. unfold format_lesson_display, py_get.
  destruct Hin as [<-|[<-|[<-|[]]]];
    rewrite !dict_set_lookup_other by (intros H; vm_compute in H; discriminate);
    reflexivity.
Qed.

(** ** The formatter without a language key *)

Lemma lookup_twice (d : dict) (key : str) (default : pyval) :
  match dict_lookup d key with
  | Some x => x
  | None => lookup_or d key default
  end = lookup_or d key default.
Proof. unfold lookup_or. destruct (dict_lookup d key); reflexivity. Qed.

(** C10. The formatter chooses its three lookup keys from the keys of the
    verse record alone.  When that record has no key starting with
    "verse_text_" other than "verse_text_english", the verse, the meditation
    and the reading are all looked up under their English keys: the text
    shown opens with the verse reference, the value of "verse_text_english",
    the value of "meditation_english", the value of "reading_text_english"
    and the joined vocabulary, each "N/A" when missing, and a text is shown
    exactly when the bundle is displayable.  The text is the same for any
    two reading records that agree on "reading_text_english" and
    "key_vocabulary": what a reading record holds under another key, such as
    "reading_text_spanish", is never displayed. *)
Theorem no_language_key_shows_english_fields
    (E : Env) (content verse reading : dict) :
  bundle_part content (lit "verse_data") = PDict verse ->
  bundle_part content (lit "reading_data") = PDict reading ->
  lang_keys (dict_keys verse) = [] ->
  format_lesson_display E (PDict content) =
    display_with E (lit "verse_text_english") (lit "meditation_english")
      (lit "reading_text_english")
      (PDict verse) (PDict reading) (bundle_part content (lit "lesson_data"))
  /\ (displayable content = true ->
      exists vocabulary exercises,
        py_join (lit ", ") (lookup_or reading (lit "key_vocabulary") (PList []))
        = Return vocabulary
        /\ format_lesson_display E (PDict content) =
           Return
             ((nl ++ lit "# " ++ [63743; 252; 236; 241]%N ++ lit " Verse of the Day" ++ nl
               ++ nl
               ++ lit "**"
               ++ fmt E (lookup_or verse (lit "verse_reference") (PStr (lit "N/A")))
               ++ lit "**" ++ nl
               ++ nl
               ++ lit "*"
               ++ fmt E (lookup_or verse (lit "verse_text_english") (PStr (lit "N/A")))
               ++ lit "*" ++ nl
               ++ nl
               ++ lit "**Meditation:**" ++ nl
               ++ fmt E (lookup_or verse (lit "meditation_english") (PStr (lit "N/A")))
               ++ nl
               ++ nl
               ++ lit "---" ++ nl
               ++ nl
               ++ lit "# " ++ [63743; 252; 236; 246]%N ++ lit " Reading Comprehension" ++ nl
               ++ nl
               ++ fmt E (lookup_or reading (lit "reading_text_english") (PStr (lit "N/A")))
               ++ nl
               ++ nl
               ++ lit "**Key Vocabulary:** " ++ vocabulary ++ nl
               ++ nl
               ++ lit "---" ++ nl
               ++ nl
               ++ lit "# " ++ [63743; 252; 236; 249]%N ++ lit " Exercises" ++ nl
               ++ nl
               ++ lit "## " ++ [63743; 252; 236; 241]%N ++ lit " Reading Exercises" ++ nl)
              ++ exercises))
  /\ (displayable content = false -> raises (format_lesson_display E (PDict content)))
  /\ forall (content' : dict) (reading' : dict),
       bundle_part content' (lit "verse_data") = PDict verse ->
       bundle_part content' (lit "lesson_data") = bundle_part content (lit "lesson_data") ->
       bundle_part content' (lit "reading_data") = PDict reading' ->
       dict_lookup reading' (lit "reading_text_english")
         = dict_lookup reading (lit "reading_text_english") ->
       dict_lookup reading' (lit "key_vocabulary")
         = dict_lookup reading (lit "key_vocabulary") ->
       format_lesson_display E (PDict content') = format_lesson_display E (PDict content).
Proof.
  intros Hverse Hreading Hkeys.
  assert (Hfmt : forall c : dict,
            bundle_part c (lit "verse_data") = PDict verse ->
            format_lesson_display E (PDict c) =
            display_with E (lit "verse_text_english") (lit "meditation_english")
              (lit "reading_text_english")
              (PDict verse) (bundle_part c (lit "reading_data"))
              (bundle_part c (lit "lesson_data"))).
  { intros c Hc. rewrite (format_lesson_display_keys E c verse Hc).
    unfold verse_lang_key. rewrite Hkeys. reflexivity. }
  split; [rewrite (Hfmt content Hverse), Hreading; reflexivity|].
  split; [|split; [exact (proj2 (display_outcome E content))|]].
  - intros Hshow. rewrite (Hfmt content Hverse), Hreading.
    unfold displayable in Hshow. rewrite Hverse, Hreading in Hshow.
    cbn [is_dict andb] in Hshow.
    apply andb_prop in Hshow. destruct Hshow as [Hjoin Hlesson].
    destruct (proj1 (py_join_outcome (lit ", ") _) Hjoin) as [vocabulary Hvocabulary].
    destruct (bundle_part content (lit "lesson_data")) as [| | | | | |lesson];
      try discriminate.
    cbn [forallb exercise_keys] in Hlesson.
    repeat match type of Hlesson with
    | (_ && _)%bool = true =>
        let H := fresh "Hloop" in
        apply andb_prop in Hlesson; destruct Hlesson as [H Hlesson];
        apply (proj1 (exercise_loop_outcome E lesson _)) in H
    end.
    destruct Hloop as [part1 Hpart1]. destruct Hloop0 as [part2 Hpart2].
    destruct Hloop1 as [part3 Hpart3]. destruct Hloop2 as [part4 Hpart4].
    destruct Hloop3 as [part5 Hpart5].
    exists vocabulary. eexists. split; [exact Hvocabulary|].
    unfold display_with, py_get. cbn [obind].
    fold (lookup_or verse (lit "verse_reference") (PStr (lit "N/A"))).
    fold (lookup_or verse (lit "verse_text_english") (PStr (lit "N/A"))).
    fold (lookup_or verse (lit "meditation_english") (PStr (lit "N/A"))).
    fold (lookup_or reading (lit "reading_text_english") (PStr (lit "N/A"))).
    fold (lookup_or reading (lit "key_vocabulary") (PList [])).
    rewrite !lookup_twice, Hvocabulary. cbn [obind].
    rewrite Hpart1, Hpart2, Hpart3, Hpart4, Hpart5. cbn [obind].
    reflexivity.
  - intros content' reading' Hverse' Hlesson Hr' Henglish Hvocabulary.
    rewrite (Hfmt content Hverse), (Hfmt content' Hverse'), Hlesson, Hreading, Hr'.
    unfold display_with, py_get. rewrite Henglish, Hvocabulary. reflexivity.
Qed.

Lemma no_language_key_shows_english_fields_witness :
  let E := Ref.env [] Ref.unreachable in
  let verse := [ (lit "verse_reference", PStr (lit "John 3:16"));
                 (lit "verse_text_english", PStr (lit "For God so loved the world")) ] in
  let reading := [ (lit "reading_text_spanish", PStr (lit "Porque de tal manera"));
                   (lit "reading_text_english", PStr (lit "For God so loved")) ] in
  let content := [ (lit "verse_data", PDict verse); (lit "reading_data", PDict reading) ] in
  exists exercises,
    format_lesson_display E (PDict content) =
    Return
      ((nl ++ lit "# " ++ [63743; 252; 236; 241]%N ++ lit " Verse of the Day" ++ nl
        ++ nl
        ++ lit "**John 3:16**" ++ nl
        ++ nl
        ++ lit "*For God so loved the world*" ++ nl
        ++ nl
        ++ lit "**Meditation:**" ++ nl
        ++ lit "N/A" ++ nl
        ++ nl
        ++ lit "---" ++ nl
        ++ nl
        ++ lit "# " ++ [63743; 252; 236; 246]%N ++ lit " Reading Comprehension" ++ nl
        ++ nl
        ++ lit "For God so loved" ++ nl
        ++ nl
        ++ lit "**Key Vocabulary:** " ++ nl
        ++ nl
        ++ lit "---" ++ nl
        ++ nl
        ++ lit "# " ++ [63743; 252; 236; 249]%N ++ lit " Exercises" ++ nl
        ++ nl
        ++ lit "## " ++ [63743; 252; 236; 241]%N ++ lit " Reading Exercises" ++ nl)
       ++ exercises).
Proof.
  cbv zeta.
  destruct (no_language_key_shows_english_fields (Ref.env [] Ref.unreachable)
              [ (lit "verse_data",
                  PDict [ (lit "verse_reference", PStr (lit "John 3:16"));
                          (lit "verse_text_english",
                            PStr (lit "For God so loved the world")) ]);
                (lit "reading_data",
                  PDict [ (lit "reading_text_spanish", PStr (lit "Porque de tal manera"));
                          (lit "reading_text_english", PStr (lit "For God so loved")) ]) ]
              [ (lit "verse_reference", PStr (lit "John 3:16"));
                (lit "verse_text_english", PStr (lit "For God so loved the world")) ]
              [ (lit "reading_text_spanish", PStr (lit "Porque de tal manera"));
                (lit "reading_text_english", PStr (lit "For God so loved")) ]
              eq_refl eq_refl eq_refl)
    as (_ & Hshow & _).
  destruct (Hshow eq_refl) as (vocabulary & exercises & Hvocabulary & Htext).
  vm_compute in Hvocabulary. injection Hvocabulary as <-.
  exists exercises. rewrite Htext. reflexivity.
Defined.

(** X8. The renderer and the formatter disagree on exercise items that are
    not dicts (plain strings, say): for a bundle that holds such an item in
    one of its five exercise lists, [format_lesson_display] raises, while
    [generate_pdf] returns the document whenever the layout library accepts
    the paragraphs asked of it and writes the file. *)
Theorem renderer_accepts_items_the_formatter_rejects
    (E : Env) (self : BibleLanguageLearningSystem) (content lesson : dict)
    (key : str) (items : list pyval) (t : trace) (elements : list flowable) :
  let path :=
    path_join (gettempdir E)
      (lit "bible_lesson_" ++ now_strftime E t (lit "%Y%m%d_%H%M%S") ++ lit ".pdf") in
  bundle_part content (lit "lesson_data") = PDict lesson ->
  In key exercise_keys ->
  dict_lookup lesson key = Some (PList items) ->
  forallb is_dict items = false ->
  requested_elements E self (PDict content) (now_strftime E t (lit "%B %d, %Y"))
  = Return elements ->
  forallb (accepts E) elements = true ->
  doc_build_error E t path elements = None ->
  raises (format_lesson_display E (PDict content))
  /\ generate_pdf E self (PDict content) None t
     = (Return path, t ++ [EBuild path elements]).
Proof.
  intros path Hlesson Hkey Hlookup Hitems Hreq Hacc Hbuild. split.
  - apply (proj2 (display_outcome E content)).
    unfold displayable. rewrite Hlesson.
    assert (Hloop : forallb (fun k => loops (lookup_or lesson k (PList []))) exercise_keys
                    = false).
    { destruct (forallb _ exercise_keys) eqn:Hall; [|reflexivity].
      rewrite forallb_forall in Hall. specialize (Hall key Hkey).
      unfold lookup_or in Hall. rewrite Hlookup in Hall. simpl in Hall. congruence. }
    rewrite Hloop. apply andb_false_r.
  - exact (generate_pdf_runs E self (PDict content) None t elements Hreq Hacc Hbuild).
Qed.

Lemma renderer_accepts_items_the_formatter_rejects_witness :
  let content :=
    [ (lit "lesson_data",
        PDict [ (lit "reading_exercises",
                  PList [PStr (lit "A quien ama Dios?"); PStr (lit "Por que?")]) ]) ] in
  raises (format_lesson_display Ref.well_answered (PDict content))
  /\ fst (generate_pdf Ref.well_answered Ref.spanish (PDict content) None [])
     = Return (lit "/tmp/bible_lesson_20240101_120000.pdf").
Proof.
  cbv zeta.
  destruct (renderer_accepts_items_the_formatter_rejects Ref.well_answered Ref.spanish
              [ (lit "lesson_data",
                  PDict [ (lit "reading_exercises",
                            PList [PStr (lit "A quien ama Dios?");
                                   PStr (lit "Por que?")]) ]) ]
              [ (lit "reading_exercises",
                  PList [PStr (lit "A quien ama Dios?"); PStr (lit "Por que?")]) ]
              (lit "reading_exercises")
              [PStr (lit "A quien ama Dios?"); PStr (lit "Por que?")] []
              (match requested_elements Ref.well_answered Ref.spanish
                       (PDict [ (lit "lesson_data",
                                  PDict [ (lit "reading_exercises",
                                            PList [PStr (lit "A quien ama Dios?");
                                                   PStr (lit "Por que?")]) ]) ])
                       (lit "January 01, 2024")
               with Return asked => asked | Raise _ => [] end))
    as [Hshow Hpdf].
  - reflexivity.
  - simpl; auto.
  - reflexivity.
  - reflexivity.
  - vm_compute. reflexivity.
  - vm_compute. reflexivity.
  - vm_compute. reflexivity.
  - split; [exact Hshow|]. rewrite Hpdf. reflexivity.
Defined.

(** ** The speech request *)

(** X9. With a key, the audio stage sends exactly one request, first of all,
    and never raises.  It returns a path only when the answer has status 200
    and the file could be written: the path is then in the temporary
    directory, named after the time, and the answer's content was written
    there.  For any other status nothing is written. *)
Theorem tts_sends_one_request_and_saves_on_200
    (E : Env) (self : BibleLanguageLearningSystem) (reading_text : pyval) (t : trace) :
  key_given (elevenlabs_key self) = true ->
  let key := match elevenlabs_key self with Some k => k | None => [] end in
  let req := tts_request self key reading_text in
  let audio_path :=
    path_join (gettempdir E)
      (lit "reading_audio_" ++ now_strftime E (t ++ [EPost req]) (lit "%Y%m%d_%H%M%S")
       ++ lit ".mp3") in
  exists result after,
    agent_tts_generator E self reading_text t = (Return result, t ++ EPost req :: after)
    /\ filter is_post after = []
    /\ (forall path, result = Some path ->
          path = audio_path
          /\ exists content text,
               requests_post E t req = PostResponse 200 content text
               /\ file_write E (t ++ [EPost req]) path content = None
               /\ after = [EWrite path content])
    /\ (forall status content text,
          requests_post E t req = PostResponse status content text ->
          status <> 200%Z ->
          result = None /\ forall e, In e after -> exists line, e = EPrint line).
Proof.
  intros Hkey key req audio_path.
  unfold agent_tts_generator. rewrite Hkey. cbn [negb].
  fold key. fold req. fold audio_path.
  destruct (requests_post E t req) as [status content text | message] eqn:Hpost.
  - destruct (Z.eqb status 200) eqn:Hstatus.
    + apply Z.eqb_eq in Hstatus. subst status.
      destruct (file_write E (t ++ [EPost req]) audio_path content) as [message|] eqn:Hw.
      * eexists. eexists. split; [rewrite <- app_assoc; reflexivity|].
        split; [reflexivity|]. split; [discriminate|].
        intros s c x [= -> -> ->] Hs. congruence.
      * eexists. eexists. split; [rewrite <- app_assoc; reflexivity|].
        split; [reflexivity|]. split.
        -- intros path [= <-]. split; [reflexivity|]. exists content, text. auto.
        -- intros s c x [= <- _ _] Hs. congruence.
    + eexists. eexists. split; [rewrite <- app_assoc; reflexivity|].
      split; [reflexivity|]. split; [discriminate|].
      intros s c x _ _. split; [reflexivity|].
      intros e [<-|[]]. eauto.
  - eexists. eexists. split; [rewrite <- app_assoc; reflexivity|].
    split; [reflexivity|]. split; [discriminate|]. discriminate.
Qed.

Lemma tts_sends_one_request_and_saves_on_200_witness :
  let E := Ref.env [] (PostResponse 200 [73; 68; 51]%N []) in
  exists after,
    agent_tts_generator E Ref.spanish_with_audio (PStr (lit "Dios ama al mundo.")) []
    = (Return (Some (lit "/tmp/reading_audio_20240101_120000.mp3")),
       [] ++ EPost (tts_request Ref.spanish_with_audio (lit "sk_test")
                      (PStr (lit "Dios ama al mundo."))) :: after)
    /\ after = [EWrite (lit "/tmp/reading_audio_20240101_120000.mp3") [73; 68; 51]%N].
Proof.
  cbv zeta.
  destruct (tts_sends_one_request_and_saves_on_200
              (Ref.env [] (PostResponse 200 [73; 68; 51]%N [])) Ref.spanish_with_audio
              (PStr (lit "Dios ama al mundo.")) [] eq_refl)
    as (result & after & Hrun & _ & Hpath & _).
  cbv zeta in Hrun, Hpath.
  assert (Hres : result = Some (lit "/tmp/reading_audio_20240101_120000.mp3")).
  { assert (H : fst (agent_tts_generator (Ref.env [] (PostResponse 200 [73; 68; 51]%N []))
                      Ref.spanish_with_audio (PStr (lit "Dios ama al mundo.")) [])
                = Return (Some (lit "/tmp/reading_audio_20240101_120000.mp3")))
      by (vm_compute; reflexivity).
    rewrite Hrun in H. simpl in H. congruence. }
  destruct (Hpath _ Hres) as [_ (content & text & Hpost & _ & Hafter)].
  injection Hpost as <- _.
  exists after. subst result. split; [exact Hrun | exact Hafter].
Defined.

(** ** What a completed run has sent *)

Lemma agent_returned (E : Env) (self : BibleLanguageLearningSystem) (s : stage)
    (i : stage_inputs) (t t' : trace) (record : pyval) :
  agent E self s i t = (Return record, t') ->
  exists req,
    stage_request E self s i = Return req
    /\ t' = t ++ [EChat req]
    /\ record = parse_or E (fallback_of E self s (reply_text (chat_create E t req)))
                  (reply_text (chat_create E t req)).
Proof.
  rewrite agent_run. destruct (stage_request E self s i) as [req|e]; [|discriminate].
  cbv zeta. intros [= <- <-]. exists req. auto.
Qed.

Lemma stage_request_system (E : Env) (self : BibleLanguageLearningSystem) (s : stage)
    (i : stage_inputs) (req : chat_request) :
  stage_request E self s i = Return req ->
  chat_system req =
  match s with
  | Verse => verse_system_prompt E self (language_level i)
  | Reading => reading_system_prompt E self (language_level i)
  | Exercise => lesson_system_prompt self (language_level i)
  | Answer => answers_system_prompt self
  end.
Proof.
  destruct s; cbn [stage_request].
  - intros [= <-]. reflexivity.
  - destruct (reading_user_message E self (verse_data i)); [|discriminate].
    intros [= <-]. reflexivity.
  - destruct (lesson_user_message E self (verse_data i) (reading_data i));
      [|discriminate].
    intros [= <-]. reflexivity.
  - destruct (answers_user_message E self (lesson_data i) (reading_data i));
      [|discriminate].
    intros [= <-]. reflexivity.
Qed.

Lemma emit_returned (e : event) (t t' : trace) (u : unit) :
  emit e t = (Return u, t') -> t' = t ++ [e].
Proof. unfold emit. intros [= _ <-]. reflexivity. Qed.

(** What the audio stage adds to the trace, in every case. *)
Lemma tts_trace (E : Env) (self : BibleLanguageLearningSystem) (reading_text : pyval)
    (t : trace) :
  exists result added,
    agent_tts_generator E self reading_text t = (Return result, t ++ added)
    /\ filter is_chat added = []
    /\ filter is_build added = []
    /\ filter is_post added
       = if key_given (elevenlabs_key self)
         then [EPost (tts_request self
                        (match elevenlabs_key self with Some k => k | None => [] end)
                        reading_text)]
         else [].
Proof.
  unfold agent_tts_generator. destruct (key_given (elevenlabs_key self)); cbn [negb].
  - destruct (requests_post E t _) as [status content text | message].
    + destruct (Z.eqb status 200).
      * destruct (file_write E _ _ content); eexists; eexists;
          (split; [rewrite <- app_assoc; reflexivity|]); repeat split.
      * eexists; eexists. split; [rewrite <- app_assoc; reflexivity|].
        repeat split.
    + eexists; eexists. split; [rewrite <- app_assoc; reflexivity|].
      repeat split.
  - exists None, []. rewrite app_nil_r. repeat split.
Qed.

(** Steps 5 and 6, when they return. *)
Lemma finish_returned (E : Env) (self : BibleLanguageLearningSystem)
    (level : str) (vd rd ld answers content : pyval)
    (pdf_path : str) (audio_path : option str) (t t' : trace) :
  finish_lesson E self level vd rd ld answers t
  = (Return (content, pdf_path, audio_path), t') ->
  content = PDict (lesson_bundle level vd rd ld answers audio_path)
  /\ renderable (lesson_bundle level vd rd ld answers audio_path) = true
  /\ (speech_requests E self rd = [] -> audio_path = None)
  /\ exists added elements,
       t' = t ++ added
       /\ filter is_chat added = []
       /\ filter is_post added = speech_requests E self rd
       /\ filter is_build added = [EBuild pdf_path elements].
Proof.
  unfold finish_lesson. intros H.
  apply bind_return_inv in H. destruct H as (audio & t1 & Haudio & H).
  apply bind_return_inv in H. destruct H as (u & t2 & Hp & H).
  apply emit_returned in Hp. subst t2.
  apply bind_return_inv in H. destruct H as (path & t3 & Hpdf & H).
  apply bind_return_inv in H. destruct H as (u' & t4 & Hp' & H).
  apply emit_returned in Hp'. subst t4.
  unfold ret in H. injection H as <- <- <- <-.
  split; [reflexivity|].
  apply generate_pdf_returned in Hpdf.
  destruct Hpdf as (elements & Hreq & _ & _ & ->).
  split.
  { fold (lesson_bundle level vd rd ld answers audio) in Hreq.
    match type of Hreq with
    | requested_elements _ _ _ ?date = _ =>
        pose proof (requested_renderable E self
                      (lesson_bundle level vd rd ld answers audio) date) as Hrender
    end.
    rewrite Hreq in Hrender. exact Hrender. }
  assert (Ha : exists added1,
             t1 = t ++ added1 /\ filter is_chat added1 = []
             /\ filter is_post added1 = speech_requests E self rd
             /\ filter is_build added1 = []
             /\ (speech_requests E self rd = [] -> audio = None)).
  { unfold speech_requests.
    destruct (key_given (elevenlabs_key self)) eqn:Hkey.
    - apply bind_return_inv in Haudio. destruct Haudio as (u0 & t0 & Hp0 & Haudio).
      apply emit_returned in Hp0. subst t0.
      apply bind_return_inv in Haudio. destruct Haudio as (text & t0 & Hget & Haudio).
      unfold lift in Hget.
      destruct (py_get rd (field E "reading_text_" self) (PStr [])) as [text'|];
        [|discriminate].
      injection Hget as -> <-.
      destruct (truthy text) eqn:Htruthy.
      + match type of Haudio with
        | agent_tts_generator _ _ _ ?tt = _ =>
            destruct (tts_trace E self text tt)
              as (result & added & Hrun & Hc & Hb & Hpost)
        end.
        rewrite Hrun in Haudio. injection Haudio as <- <-.
        rewrite Hkey in Hpost.
        eexists. split; [rewrite <- app_assoc; reflexivity|].
        split; [simpl; exact Hc|]. split; [simpl; exact Hpost|].
        split; [simpl; exact Hb | discriminate].
      + unfold ret in Haudio. injection Haudio as <- <-.
        eexists. split; [reflexivity|]. simpl. repeat split; auto.
    - unfold ret in Haudio. injection Haudio as <- <-.
      exists []. rewrite app_nil_r. simpl. repeat split; auto. }
  destruct Ha as (added1 & -> & Hc1 & Hp1 & Hb1 & Hno).
  split; [exact Hno|].
  eexists. exists elements.
  split; [repeat rewrite <- app_assoc; reflexivity|].
  rewrite !filter_app. cbn [filter is_chat is_post is_build app].
  rewrite Hc1, Hp1, Hb1, !app_nil_r. repeat split.
Qed.

(** A run that returns has passed the four stages in order, one request
    each, and then steps 5 and 6. *)
Lemma run_returned (E : Env) (self : BibleLanguageLearningSystem)
    (level : str) (t t' : trace) (result : pyval * str * option str) :
  run_full_lesson_generation E self level t = (Return result, t') ->
  exists vd rd ld answers q1 q2 q3 q4 before,
    filter is_chat before = [EChat q1; EChat q2; EChat q3; EChat q4]
    /\ filter is_post before = []
    /\ filter is_build before = []
    /\ chat_system q1 = verse_system_prompt E self level
    /\ chat_system q2 = reading_system_prompt E self level
    /\ chat_system q3 = lesson_system_prompt self level
    /\ chat_system q4 = answers_system_prompt self
    /\ finish_lesson E self level vd rd ld answers
         (t ++ before) = (Return result, t').
Proof.
  rewrite run_full_in_segments. unfold run_in_segments. intros H.
  apply bind_return_inv in H. destruct H as ([vd rd] & t1 & H12 & H).
  cbn [fst snd] in H.
  unfold first_stages in H12.
  apply bind_return_inv in H12. destruct H12 as (u0 & s0 & Hp & H12).
  apply emit_returned in Hp. subst s0.
  apply bind_return_inv in H12. destruct H12 as (u1 & s1 & Hp & H12).
  apply emit_returned in Hp. subst s1.
  apply bind_return_inv in H12. destruct H12 as (vd0 & s2 & Hv & H12).
  apply bind_return_inv in H12. destruct H12 as (u2 & s3 & Hp & H12).
  apply emit_returned in Hp. subst s3.
  apply bind_return_inv in H12. destruct H12 as (rd0 & s4 & Hr & H12).
  apply bind_return_inv in H12. destruct H12 as (u3 & s5 & Hp & H12).
  apply emit_returned in Hp. subst s5.
  unfold ret in H12. injection H12 as <- <- <-.
  apply bind_return_inv in H. destruct H as (ld & s6 & Hl & H).
  apply bind_return_inv in H. destruct H as (u4 & s7 & Hp & H).
  apply emit_returned in Hp. subst s7.
  apply bind_return_inv in H. destruct H as (ans & s8 & Ha & H).
  apply (agent_returned E self Verse
           {| language_level := level; verse_data := PNone;
              reading_data := PNone; lesson_data := PNone |}) in Hv.
  destruct Hv as (q1 & Hq1 & -> & _).
  apply (agent_returned E self Reading
           {| language_level := level; verse_data := vd0;
              reading_data := PNone; lesson_data := PNone |}) in Hr.
  destruct Hr as (q2 & Hq2 & -> & _).
  apply (agent_returned E self Exercise
           {| language_level := level; verse_data := vd0;
              reading_data := rd0; lesson_data := PNone |}) in Hl.
  destruct Hl as (q3 & Hq3 & -> & _).
  apply (agent_returned E self Answer
           {| language_level := level; verse_data := vd0;
              reading_data := rd0; lesson_data := ld |}) in Ha.
  destruct Ha as (q4 & Hq4 & -> & _).
  apply stage_request_system in Hq1, Hq2, Hq3, Hq4. cbn in Hq1, Hq2, Hq3, Hq4.
  exists vd0, rd0, ld, ans, q1, q2, q3, q4.
  eexists. split; [|split; [|split; [|repeat (split; [eassumption|])]]].
  4: { repeat rewrite <- app_assoc in H. exact H. }
  - reflexivity.
  - reflexivity.
  - reflexivity.
Qed.

(** X10. A completed run has asked the language model exactly four times, in
    the order verse, reading, exercises, answers, each with its own system
    prompt, and has handed exactly one document to the layout library, the one
    whose path it returns. *)
Theorem completed_run_asks_four_times (E : Env) (self : BibleLanguageLearningSystem)
    (level : str) (t t' : trace) (result : pyval * str * option str) :
  run_full_lesson_generation E self level t = (Return result, t') ->
  exists added q1 q2 q3 q4 elements,
    t' = t ++ added
    /\ filter is_chat added = [EChat q1; EChat q2; EChat q3; EChat q4]
    /\ chat_system q1 = verse_system_prompt E self level
    /\ chat_system q2 = reading_system_prompt E self level
    /\ chat_system q3 = lesson_system_prompt self level
    /\ chat_system q4 = answers_system_prompt self
    /\ filter is_build added = [EBuild (snd (fst result)) elements].
Proof.
  intros H. apply run_returned in H.
  destruct H as (vd & rd & ld & ans & q1 & q2 & q3 & q4 & before
                 & Hc & Hp & Hb & H1 & H2 & H3 & H4 & H).
  destruct result as [[content pdf] audio].
  apply finish_returned in H.
  destruct H as (_ & _ & _ & added & elements & -> & Hc' & Hp' & Hb').
  exists (before ++ added), q1, q2, q3, q4, elements.
  rewrite app_assoc, !filter_app, Hc, Hc', Hb, Hb', app_nil_r. cbn [app fst snd].
  repeat (split; [first [reflexivity | assumption]|]). reflexivity.
Qed.

Lemma completed_run_asks_four_times_witness :
  exists added q1 q2 q3 q4 elements pdf,
    snd (run_full_lesson_generation Ref.well_answered Ref.spanish (lit "A1") [])
    = [] ++ added
    /\ filter is_chat added = [EChat q1; EChat q2; EChat q3; EChat q4]
    /\ filter is_build added = [EBuild pdf elements].
Proof.
  destruct (run_full_lesson_generation Ref.well_answered Ref.spanish (lit "A1") [])
    as [[result|e] t'] eqn:Hrun.
  - destruct (completed_run_asks_four_times _ _ _ _ _ _ Hrun)
      as (added & q1 & q2 & q3 & q4 & elements & Ht & Hc & _ & _ & _ & _ & Hb).
    exists added, q1, q2, q3, q4, elements, (snd (fst result)). auto.
  - exfalso. vm_compute in Hrun. discriminate.
Defined.

(** ** What a returned bundle is *)

Lemma bundle_parts (level : str) (vd rd ld answers : pyval) (audio : option str) :
  bundle_part (lesson_bundle level vd rd ld answers audio) (lit "verse_data") = vd
  /\ bundle_part (lesson_bundle level vd rd ld answers audio) (lit "reading_data") = rd
  /\ bundle_part (lesson_bundle level vd rd ld answers audio) (lit "lesson_data") = ld
  /\ bundle_part (lesson_bundle level vd rd ld answers audio) (lit "answers") = answers.
Proof. repeat split. Qed.

(** X11. The bundle of every run that returns holds the level, the four
    stage records and the audio path, and could be rendered without a
    lookup failing: its four records are dicts and its vocabulary, when a
    list, holds strings only.  A reply that decodes to anything else never
    reaches the caller. *)
Theorem returned_bundle_is_renderable (E : Env) (self : BibleLanguageLearningSystem)
    (level : str) (t t' : trace) (content : pyval) (pdf_path : str)
    (audio_path : option str) :
  run_full_lesson_generation E self level t
  = (Return (content, pdf_path, audio_path), t') ->
  exists vd rd ld answers,
    content = PDict (lesson_bundle level vd rd ld answers audio_path)
    /\ renderable (lesson_bundle level vd rd ld answers audio_path) = true
    /\ is_dict vd = true /\ is_dict rd = true /\ is_dict ld = true
    /\ is_dict answers = true.
Proof.
  intros H. apply run_returned in H.
  destruct H as (vd & rd & ld & ans & q1 & q2 & q3 & q4 & before & _ & _ & _
                 & _ & _ & _ & _ & H).
  apply finish_returned in H. destruct H as (-> & Hrender & _).
  exists vd, rd, ld, ans. split; [reflexivity|]. split; [exact Hrender|].
  pose proof Hrender as Hparts. unfold renderable in Hparts.
  destruct (bundle_parts level vd rd ld ans audio_path) as (-> & -> & -> & ->) in Hparts.
  apply andb_prop in Hparts. destruct Hparts as [Hparts Hans].
  apply andb_prop in Hparts. destruct Hparts as [Hparts Hld].
  apply andb_prop in Hparts. destruct Hparts as [Hvd Hrd].
  repeat split; first [assumption | destruct rd; first [discriminate | reflexivity]].
Qed.

Lemma returned_bundle_is_renderable_witness :
  exists content pdf_path t' vd rd ld answers,
    run_full_lesson_generation Ref.well_answered Ref.spanish (lit "B1") []
    = (Return (content, pdf_path, None), t')
    /\ content = PDict (lesson_bundle (lit "B1") vd rd ld answers None)
    /\ is_dict vd = true /\ is_dict answers = true.
Proof.
  destruct (run_full_lesson_generation Ref.well_answered Ref.spanish (lit "B1") [])
    as [[[[content pdf_path] audio_path]|e] t'] eqn:Hrun.
  - destruct (returned_bundle_is_renderable _ _ _ _ _ _ _ _ Hrun)
      as (vd & rd & ld & answers & Hc & _ & Hvd & _ & _ & Hans).
    assert (Haudio : audio_path = None).
    { apply (f_equal (fun r => match fst r with
                               | Return (_, _, a) => a
                               | Raise _ => None
                               end)) in Hrun.
      vm_compute in Hrun. symmetry. exact Hrun. }
    subst audio_path.
    exists content, pdf_path, t', vd, rd, ld, answers. auto.
  - exfalso. vm_compute in Hrun. discriminate.
Defined.

(** ** When the speech service is asked *)

(** X12. A completed run has sent the speech service exactly the requests of
    [speech_requests] for the reading record of its bundle: one request,
    carrying the target-language reading text, when there is a key and that
    text is not empty, and none otherwise; without a request there is no audio
    path. *)
Theorem speech_is_requested_for_a_key_and_a_text
    (E : Env) (self : BibleLanguageLearningSystem)
    (level : str) (t t' : trace) (content : pyval) (pdf_path : str)
    (audio_path : option str) :
  run_full_lesson_generation E self level t
  = (Return (content, pdf_path, audio_path), t') ->
  exists reading added,
    py_get content (lit "reading_data") PNone = Return reading
    /\ t' = t ++ added
    /\ filter is_post added = speech_requests E self reading
    /\ (speech_requests E self reading = [] -> audio_path = None)
    /\ py_get content (lit "audio_path") (PStr []) = Return (of_path audio_path).
Proof.
  intros H. apply run_returned in H.
  destruct H as (vd & rd & ld & ans & q1 & q2 & q3 & q4 & before & _ & Hp & _
                 & _ & _ & _ & _ & H).
  apply finish_returned in H.
  destruct H as (-> & _ & Hnone & added & elements & -> & _ & Hp' & _).
  exists rd, (before ++ added).
  split; [reflexivity|]. split; [symmetry; apply app_assoc|].
  split; [rewrite filter_app, Hp, Hp'; reflexivity|].
  split; [exact Hnone | reflexivity].
Qed.

Lemma speech_is_requested_for_a_key_and_a_text_witness :
  let E := Ref.env [Ref.verse_reply; lit "{}"; Ref.lesson_reply; Ref.answers_reply]
             Ref.unreachable in
  exists content pdf_path t' reading added,
    run_full_lesson_generation E Ref.spanish_with_audio (lit "B1") []
    = (Return (content, pdf_path, None), t')
    /\ py_get content (lit "reading_data") PNone = Return reading
    /\ t' = [] ++ added
    /\ filter is_post added = [].
Proof.
  cbv zeta.
  destruct (run_full_lesson_generation
              (Ref.env [Ref.verse_reply; lit "{}"; Ref.lesson_reply; Ref.answers_reply]
                 Ref.unreachable)
              Ref.spanish_with_audio (lit "B1") [])
    as [[[[content pdf_path] audio_path]|e] t'] eqn:Hrun.
  - destruct (speech_is_requested_for_a_key_and_a_text _ _ _ _ _ _ _ _ Hrun)
      as (reading & added & Hget & Ht & Hposts & Hnone & _).
    assert (Hrd : reading = PDict []).
    { apply (f_equal (fun r => match fst r with
                               | Return (c, _, _) =>
                                   py_get c (lit "reading_data") PNone
                               | Raise e => Raise e
                               end)) in Hrun.
      cbn [fst] in Hrun. rewrite Hget in Hrun. vm_compute in Hrun.
      injection Hrun as ->. reflexivity. }
    subst reading.
    rewrite (Hnone eq_refl).
    exists content, pdf_path, t', (PDict []), added. auto.
  - exfalso. vm_compute in Hrun. discriminate.
Defined.

(** ** A reply that decodes to something that is no record *)

Lemma reading_message_needs_a_record (E : Env) (self : BibleLanguageLearningSystem)
    (verse : pyval) :
  is_dict verse = false -> reading_user_message E self verse = Raise AttributeError.
Proof. destruct verse; first [discriminate | reflexivity]. Qed.

(** X13. When the verse reply decodes to a value that is no dict (a list, a
    string, a number), the run ends with AttributeError as soon as the reading
    stage reads it: the verse request is the only one sent, and no document is
    built. *)
Theorem non_record_verse_reply_stops_the_run
    (E : Env) (self : BibleLanguageLearningSystem) (level : str) (t : trace)
    (verse : pyval) :
  let t1 := t ++ [ EProgress 0 (lit "Starting lesson generation...");
                   EProgress 0.15 ([63743; 252; 236; 241]%N
                                   ++ lit " Getting verse of the day...") ] in
  let q1 := completion_request self (verse_system_prompt E self level)
              (verse_user_message self level) 0.7 in
  parse_response E (reply_text (chat_create E t1 q1)) = Some verse ->
  is_dict verse = false ->
  exists added,
    run_full_lesson_generation E self level t = (Raise AttributeError, t ++ added)
    /\ filter is_chat added = [EChat q1]
    /\ filter is_post added = []
    /\ filter is_build added = [].
Proof.
  intros t1 q1 Hparse Hnd.
  assert (Hv : agent_verse_retriever E self level
                 ((t ++ [EProgress 0 (lit "Starting lesson generation...")])
                  ++ [EProgress 0.15 ([63743; 252; 236; 241]%N
                                      ++ lit " Getting verse of the day...")])
               = (Return verse, t1 ++ [EChat q1])).
  { change (agent_verse_retriever E self level)
      with (agent E self Verse
              {| language_level := level; verse_data := PNone;
                 reading_data := PNone; lesson_data := PNone |}).
    rewrite agent_run. cbn [stage_request language_level]. cbv zeta.
    fold q1.
    match goal with
    | |- context [chat_create E ?tt q1] =>
        replace tt with t1 by (unfold t1; rewrite <- app_assoc; reflexivity)
    end.
    unfold parse_or. rewrite Hparse. reflexivity. }
  assert (Hr : forall t0, agent_content_creator E self verse level t0
                          = (Raise AttributeError, t0)).
  { intros t0.
    change (agent_content_creator E self verse level)
      with (agent E self Reading
              {| language_level := level; verse_data := verse;
                 reading_data := PNone; lesson_data := PNone |}).
    rewrite agent_run. cbn [stage_request verse_data].
    rewrite (reading_message_needs_a_record E self verse Hnd). reflexivity. }
  unfold run_full_lesson_generation, bind, progress, emit. cbv beta iota.
  rewrite Hv. cbv beta iota. rewrite Hr.
  eexists. split; [unfold t1; repeat rewrite <- app_assoc; reflexivity|].
  repeat split.
Qed.

Lemma non_record_verse_reply_stops_the_run_witness :
  exists added q1,
    run_full_lesson_generation (Ref.env [lit "[1, 2]"] Ref.unreachable) Ref.spanish
      (lit "B1") []
    = (Raise AttributeError, [] ++ added)
    /\ filter is_chat added = [EChat q1]
    /\ filter is_build added = [].
Proof.
  destruct (non_record_verse_reply_stops_the_run
              (Ref.env [lit "[1, 2]"] Ref.unreachable) Ref.spanish (lit "B1") []
              (PList [PInt 1; PInt 2]))
    as (added & Hrun & Hc & _ & Hb).
  - vm_compute. reflexivity.
  - reflexivity.
  - exists added. eexists. split; [exact Hrun|]. split; [exact Hc | exact Hb].
Defined.

(** ** A run in which no reply can be read *)

Section Unreadable.

Variable E : Env.
Variable self : BibleLanguageLearningSystem.
Hypothesis unreadable :
  forall t req, parse_response E (reply_text (chat_create E t req)) = None.

Lemma agent_falls_back (s : stage) (i : stage_inputs) (req : chat_request) (t : trace) :
  stage_request E self s i = Return req ->
  agent E self s i t
  = (Return (fallback_of E self s (reply_text (chat_create E t req))), t ++ [EChat req]).
Proof.
  intros Hreq. rewrite agent_run, Hreq. cbv zeta.
  unfold parse_or. rewrite unreadable. reflexivity.
Qed.

End Unreadable.

(** The reading fallback holds a text under the target-language key. *)
Lemma reading_fallback_text (E : Env) (self : BibleLanguageLearningSystem)
    (response : str) (default : pyval) :
  exists text,
    py_get (reading_fallback E self response) (field E "reading_text_" self) default
    = Return (PStr text).
Proof.
  unfold reading_fallback, dict_of, py_get. cbn [fold_left fst snd].
  rewrite dict_set_lookup_other
    by (unfold field; intros H; cbn in H; discriminate).
  destruct (list_eq_dec N.eq_dec (lit "reading_text_english")
              (field E "reading_text_" self)) as [<-|Hne].
  - rewrite dict_set_lookup_same. eauto.
  - rewrite (dict_set_lookup_other _ _ _ _ Hne), dict_set_lookup_same. eauto.
Qed.

Lemma reading_fallback_vocabulary (E : Env) (self : BibleLanguageLearningSystem)
    (response : str) :
  lookup_or
    (dict_of
       [ (field E "reading_text_" self, PStr (upto 300 response));
         (lit "reading_text_english", PStr (lit "Reading comprehension text"));
         (lit "key_vocabulary",
           PList [PStr (lit "faith"); PStr (lit "love"); PStr (lit "grace")]) ])
    (lit "key_vocabulary") (PList [])
  = PList [PStr (lit "faith"); PStr (lit "love"); PStr (lit "grace")].
Proof.
  unfold lookup_or, dict_of. cbn [fold_left fst snd].
  rewrite dict_set_lookup_same. reflexivity.
Qed.

Lemma requests_after_fallbacks (E : Env) (self : BibleLanguageLearningSystem)
    (level : str) (r1 r2 : str) (ld : pyval) :
  (exists q2, stage_request E self Reading
                {| language_level := level; verse_data := verse_fallback E self r1;
                   reading_data := PNone; lesson_data := PNone |} = Return q2)
  /\ (exists q3, stage_request E self Exercise
                   {| language_level := level; verse_data := verse_fallback E self r1;
                      reading_data := reading_fallback E self r2;
                      lesson_data := PNone |} = Return q3)
  /\ (exists q4, stage_request E self Answer
                   {| language_level := level; verse_data := verse_fallback E self r1;
                      reading_data := reading_fallback E self r2;
                      lesson_data := ld |} = Return q4).
Proof.
  split; [eexists; reflexivity|].
  cbn [stage_request verse_data reading_data lesson_data language_level].
  unfold lesson_user_message, answers_user_message.
  destruct (reading_fallback_text E self r2 (PStr [])) as [text Htext].
  rewrite Htext. cbn [obind py_upto].
  split; eexists; reflexivity.
Qed.

Lemma fallbacks_can_be_rendered (E : Env) (self : BibleLanguageLearningSystem)
    (level r1 r2 : str) (audio_path : option str) :
  let content :=
    lesson_bundle level (verse_fallback E self r1) (reading_fallback E self r2)
      lesson_fallback answers_fallback audio_path in
  renderable content = true /\ displayable content = true.
Proof.
  cbv zeta. unfold renderable, displayable.
  destruct (bundle_parts level (verse_fallback E self r1) (reading_fallback E self r2)
              lesson_fallback answers_fallback audio_path) as (-> & -> & -> & ->).
  unfold reading_fallback. rewrite reading_fallback_vocabulary. split; reflexivity.
Qed.

(** After the four stages a run with a reading record goes on to the
    document, whatever the speech service does. *)
Lemma finish_reaches_the_document (E : Env) (self : BibleLanguageLearningSystem)
    (level : str) (vd rd ld answers : pyval) (t : trace) :
  is_dict rd = true ->
  exists audio_path t5,
    finish_lesson E self level vd rd ld answers t
    = bind (generate_pdf E self
              (PDict (lesson_bundle level vd rd ld answers audio_path)) None)
        (fun pdf_path =>
           bind (progress 1.0 ([8218; 250; 174]%N ++ lit " Complete!"))
             (fun _ =>
                ret (PDict (lesson_bundle level vd rd ld answers audio_path),
                     pdf_path, audio_path))) t5.
Proof.
  intros Hrd.
  assert (Haudio : exists audio t1,
            (if key_given (elevenlabs_key self) then
               progress 0.75 ([63743; 252; 238; 228]%N
                              ++ lit " Generating audio (this may take a moment)...") ;;;
               reading_text <- lift (py_get rd (field E "reading_text_" self) (PStr [])) ;;
               if truthy reading_text then agent_tts_generator E self reading_text
               else ret None
             else ret None) t = (Return audio, t1)).
  { destruct (key_given (elevenlabs_key self)); [|eexists; eexists; reflexivity].
    destruct rd as [| | | | | |reading]; try discriminate.
    unfold bind, progress, emit, lift. cbn [py_get].
    match goal with
    | |- context [if truthy ?text then _ else _] => destruct (truthy text)
    end.
    - match goal with
      | |- context [agent_tts_generator E self ?text ?tt] =>
          destruct (tts_trace E self text tt) as (result & added & -> & _)
      end.
      eauto.
    - eexists; eexists; reflexivity. }
  destruct Haudio as (audio & t1 & Haudio).
  exists audio, (t1 ++ [EProgress 0.90 ([63743; 252; 236; 209]%N ++ lit " Creating PDF...")]).
  unfold finish_lesson.
  rewrite (bind_run _ _ _ _ _ Haudio).
  unfold bind at 1. unfold progress at 1. unfold emit at 1. cbv beta iota.
  reflexivity.
Qed.

(** A run in which no reply parses passes the four stages on their
    fallbacks. *)
Lemma unreadable_run_passes_the_stages (E : Env) (self : BibleLanguageLearningSystem)
    (level : str) (t : trace) :
  (forall t0 req, parse_response E (reply_text (chat_create E t0 req)) = None) ->
  exists r1 r2 t4,
    run_full_lesson_generation E self level t
    = finish_lesson E self level (verse_fallback E self r1) (reading_fallback E self r2)
        lesson_fallback answers_fallback t4.
Proof.
  intros Hall.
  rewrite run_full_in_segments. unfold run_in_segments, first_stages.
  unfold bind at 1. unfold bind at 1. unfold progress at 1. unfold emit at 1.
  cbv beta iota.
  unfold bind at 1. unfold progress at 1. unfold emit at 1. cbv beta iota.
  change (agent_verse_retriever E self level)
    with (agent E self Verse
            {| language_level := level; verse_data := PNone;
               reading_data := PNone; lesson_data := PNone |}).
  unfold bind at 1.
  rewrite (agent_falls_back E self Hall Verse _ _ _ eq_refl).
  cbn [fallback_of]. cbv beta iota.
  match goal with
  | |- context [verse_fallback E self ?r] => set (r1 := r)
  end.
  unfold bind at 1. unfold progress at 1. unfold emit at 1. cbv beta iota.
  destruct (requests_after_fallbacks E self level r1 [] PNone) as ((q2 & Hq2) & _).
  change (agent_content_creator E self (verse_fallback E self r1) level)
    with (agent E self Reading
            {| language_level := level; verse_data := verse_fallback E self r1;
               reading_data := PNone; lesson_data := PNone |}).
  unfold bind at 1.
  rewrite (agent_falls_back E self Hall Reading _ _ _ Hq2).
  cbn [fallback_of]. cbv beta iota.
  match goal with
  | |- context [reading_fallback E self ?r] => set (r2 := r)
  end.
  unfold bind at 1. unfold progress at 1. unfold emit at 1. cbv beta iota.
  unfold ret at 1. cbn [fst snd].
  destruct (requests_after_fallbacks E self level r1 r2 lesson_fallback)
    as (_ & (q3 & Hq3) & (q4 & Hq4)).
  change (agent_lesson_designer E self (verse_fallback E self r1)
            (reading_fallback E self r2) level)
    with (agent E self Exercise
            {| language_level := level; verse_data := verse_fallback E self r1;
               reading_data := reading_fallback E self r2; lesson_data := PNone |}).
  unfold bind at 1.
  rewrite (agent_falls_back E self Hall Exercise _ _ _ Hq3).
  cbn [fallback_of]. cbv beta iota.
  unfold bind at 1. unfold progress at 1. unfold emit at 1. cbv beta iota.
  change (agent_answer_key_generator E self lesson_fallback (verse_fallback E self r1)
            (reading_fallback E self r2))
    with (agent E self Answer
            {| language_level := level; verse_data := verse_fallback E self r1;
               reading_data := reading_fallback E self r2;
               lesson_data := lesson_fallback |}).
  unfold bind at 1.
  rewrite (agent_falls_back E self Hall Answer _ _ _ Hq4).
  cbn [fallback_of]. cbv beta iota.
  eexists; eexists; eexists. reflexivity.
Qed.

(** X14. If no reply of the language model can be read (none parses: the
    service is down, or answers in prose), no stage raises: each falls back,
    the audio step cannot raise, and the run reaches the document with a
    bundle of the four fallback records, which can be shown on screen and
    whose lookups all go through.  The run then ends as the document does:
    it returns the bundle and the path when the layout library accepts the
    paragraphs asked of it and writes the file, and raises, with nothing
    built, when the library rejects one. *)
Theorem unreadable_replies_reach_the_document
    (E : Env) (self : BibleLanguageLearningSystem) (level : str) (t : trace) :
  (forall t0 req, parse_response E (reply_text (chat_create E t0 req)) = None) ->
  exists r1 r2 audio_path t5 text elements,
    let content :=
      lesson_bundle level (verse_fallback E self r1) (reading_fallback E self r2)
        lesson_fallback answers_fallback audio_path in
    let path :=
      path_join (gettempdir E)
        (lit "bible_lesson_" ++ now_strftime E t5 (lit "%Y%m%d_%H%M%S") ++ lit ".pdf") in
    format_lesson_display E (PDict content) = Return text
    /\ requested_elements E self (PDict content) (now_strftime E t5 (lit "%B %d, %Y"))
       = Return elements
    /\ (forallb (accepts E) elements = true ->
        doc_build_error E t5 path elements = None ->
        run_full_lesson_generation E self level t
        = (Return (PDict content, path, audio_path),
           t5 ++ [ EBuild path elements;
                   EProgress 1.0 ([8218; 250; 174]%N ++ lit " Complete!") ]))
    /\ (forallb (accepts E) elements = false ->
        exists e, run_full_lesson_generation E self level t = (Raise e, t5)).
Proof.
  intros Hall.
  destruct (unreadable_run_passes_the_stages E self level t Hall)
    as (r1 & r2 & t4 & Hrun).
  destruct (finish_reaches_the_document E self level (verse_fallback E self r1)
              (reading_fallback E self r2) lesson_fallback answers_fallback t4 eq_refl)
    as (audio_path & t5 & Hfinish).
  destruct (fallbacks_can_be_rendered E self level r1 r2 audio_path)
    as [Hrender Hshow].
  destruct (proj1 (display_outcome E _) Hshow) as [text Htext].
  pose proof (requested_renderable E self
                (lesson_bundle level (verse_fallback E self r1)
                   (reading_fallback E self r2) lesson_fallback answers_fallback
                   audio_path)
                (now_strftime E t5 (lit "%B %d, %Y"))) as Hreq.
  destruct (requested_elements E self _ _) as [elements|e0] eqn:Hasked;
    [|congruence].
  exists r1, r2, audio_path, t5, text, elements. cbv zeta.
  split; [exact Htext|]. split; [exact Hasked|].
  rewrite Hrun, Hfinish. split.
  - intros Hacc Hbuild. unfold bind at 1.
    rewrite (generate_pdf_runs E self _ None t5 elements Hasked Hacc Hbuild).
    unfold bind, progress, emit, ret. rewrite <- app_assoc. reflexivity.
  - intros Hacc. unfold bind at 1. rewrite generate_pdf_run. cbv zeta.
    pose proof (pdf_elements_follows E self
                  (PDict (lesson_bundle level (verse_fallback E self r1)
                            (reading_fallback E self r2) lesson_fallback
                            answers_fallback audio_path))
                  (now_strftime E t5 (lit "%B %d, %Y"))) as Hfollows.
    rewrite Hasked in Hfollows. destruct Hfollows as [_ Hno].
    destruct (Hno Hacc) as [e ->]. eauto.
Qed.

Lemma unreadable_replies_reach_the_document_witness :
  exists r1 r2 audio_path t5 text elements,
    format_lesson_display (Ref.env [] Ref.unreachable)
      (PDict (lesson_bundle (lit "B1")
                (verse_fallback (Ref.env [] Ref.unreachable) Ref.spanish_with_audio r1)
                (reading_fallback (Ref.env [] Ref.unreachable) Ref.spanish_with_audio r2)
                lesson_fallback answers_fallback audio_path))
    = Return text
    /\ requested_elements (Ref.env [] Ref.unreachable) Ref.spanish_with_audio
         (PDict (lesson_bundle (lit "B1")
                   (verse_fallback (Ref.env [] Ref.unreachable) Ref.spanish_with_audio r1)
                   (reading_fallback (Ref.env [] Ref.unreachable) Ref.spanish_with_audio
                      r2)
                   lesson_fallback answers_fallback audio_path))
         (now_strftime (Ref.env [] Ref.unreachable) t5 (lit "%B %d, %Y"))
       = Return elements.
Proof.
  destruct (unreadable_replies_reach_the_document (Ref.env [] Ref.unreachable)
              Ref.spanish_with_audio (lit "B1") [])
    as (r1 & r2 & audio_path & t5 & text & elements & Htext & Hasked & _).
  - intros t0 req. cbn [chat_create Ref.env]. unfold Ref.scripted.
    destruct (Ref.chats_so_far t0); vm_compute; reflexivity.
  - exists r1, r2, audio_path, t5, text, elements. split; assumption.
Defined.

(** With the language model out of reach the run completes on its
    fallbacks, and with a reply that opens a tag the renderer ends it. *)
Example run_on_fallbacks_completes_or_ends_in_the_renderer :
  (exists content t,
     run_full_lesson_generation (Ref.env [] Ref.unreachable) Ref.spanish (lit "B1") []
     = (Return (content, lit "/tmp/bible_lesson_20240101_120000.pdf", None), t))
  /\ fst (run_full_lesson_generation (Ref.env [lit "<b"] Ref.unreachable) Ref.spanish
            (lit "B1") [])
     = Raise ValueError.
Proof. split; [eexists; eexists|]; vm_compute; reflexivity. Qed.

(** ** What a fallback record holds *)

(** Fed with fallback records, every stage can build its request. *)
Lemma stage_request_of_fallbacks (E : Env) (self : BibleLanguageLearningSystem)
    (s : stage) (level r1 r2 : str) (lesson : pyval) :
  exists req,
    stage_request E self s
      {| language_level := level;
         verse_data := verse_fallback E self r1;
         reading_data := reading_fallback E self r2;
         lesson_data := lesson |}
    = Return req.
Proof.
  destruct s; cbn [stage_request verse_data reading_data lesson_data language_level].
  - eexists; reflexivity.
  - eexists; reflexivity.
  - unfold lesson_user_message.
    destruct (reading_fallback_text E self r2 (PStr [])) as [text Htext].
    rewrite Htext. cbn [obind py_upto]. eexists; reflexivity.
  - unfold answers_user_message.
    destruct (reading_fallback_text E self r2 (PStr [])) as [text Htext].
    rewrite Htext. cbn [obind py_upto]. eexists; reflexivity.
Qed.

(** C4, as the code has it.  A stage whose reply does not parse returns its
    fallback record, and that record holds every key that the later stages,
    the renderer and the formatter look up; and every generation stage
    whose verse and reading inputs are fallback records builds its request
    and returns a record, without raising: the generation stages do not
    abort on replies that cannot be parsed. *)
Theorem fallback_record_has_keys_read
    (E : Env) (self : BibleLanguageLearningSystem) (s : stage) (i : stage_inputs)
    (t : trace) (req : chat_request) (response : str) :
  stage_request E self s i = Return req ->
  reply_text (chat_create E t req) = response ->
  parse_response E response = None ->
  agent E self s i t = (Return (fallback_of E self s response), t ++ [EChat req])
  /\ has_keys (fallback_of E self s response) (keys_read E self s) = true
  /\ forall (later : stage) (level r1 r2 : str) (lesson : pyval) (t' : trace),
       exists req' record,
         agent E self later
           {| language_level := level;
              verse_data := verse_fallback E self r1;
              reading_data := reading_fallback E self r2;
              lesson_data := lesson |} t'
         = (Return record, t' ++ [EChat req']).
Proof.
  intros Hreq Hreply Hparse. split; [|split].
  - rewrite (agent_returns E self s i t req response Hreq Hreply).
    unfold parse_or. rewrite Hparse. reflexivity.
  - apply fallback_has_keys.
  - intros later level r1 r2 lesson t'.
    destruct (stage_request_of_fallbacks E self later level r1 r2 lesson)
      as [req' Hreq'].
    exists req'. eexists. rewrite agent_run, Hreq'. reflexivity.
Qed.

Lemma fallback_record_has_keys_read_witness :
  let response := lit "```json" ++ nl ++ lit "{not json" ++ nl ++ lit "```" in
  let E := Ref.env [response] Ref.unreachable in
  exists req,
    agent E Ref.spanish Verse Ref.inputs []
    = (Return (fallback_of E Ref.spanish Verse response), [] ++ [EChat req])
    /\ has_keys (fallback_of E Ref.spanish Verse response) (keys_read E Ref.spanish Verse)
       = true.
Proof.
  cbv zeta.
  destruct (fallback_record_has_keys_read
              (Ref.env [lit "```json" ++ nl ++ lit "{not json" ++ nl ++ lit "```"]
                 Ref.unreachable)
              Ref.spanish Verse Ref.inputs []
              (completion_request Ref.spanish
                 (verse_system_prompt
                    (Ref.env [lit "```json" ++ nl ++ lit "{not json" ++ nl ++ lit "```"]
                       Ref.unreachable)
                    Ref.spanish (lit "B1"))
                 (verse_user_message Ref.spanish (lit "B1")) 0.7)
              (lit "```json" ++ nl ++ lit "{not json" ++ nl ++ lit "```"))
    as (Hrun & Hkeys & _).
  - reflexivity.
  - reflexivity.
  - vm_compute; reflexivity.
  - eexists. split; [exact Hrun | exact Hkeys].
Defined.

(** C4 as stated fails.  The reply [{}] decodes, so the verse stage returns
    the empty record, which has none of the keys the reading stage reads;
    the reply [[]] decodes to a list, and the read of the next stage ends
    the run; and a reply in prose that opens a tag falls back to a record
    whose text the layout library cannot parse, which ends the run in the
    renderer. *)
Lemma malformed_replies_lose_keys_or_end_the_run :
  let E := Ref.env [lit "{}"] Ref.unreachable in
  (exists req,
     agent E Ref.spanish Verse Ref.inputs [] = (Return (PDict []), [EChat req])
     /\ has_keys (PDict []) (keys_read E Ref.spanish Verse) = false
     /\ dict_lookup (@nil (str * pyval)) (lit "verse_reference") = None
     /\ dict_lookup (@nil (str * pyval)) (field E "verse_text_" Ref.spanish) = None)
  /\ fst (agent (Ref.env [lit "[]"] Ref.unreachable) Ref.spanish Verse Ref.inputs [])
     = Return (PList [])
  /\ fst (run_full_lesson_generation (Ref.env [lit "[]"] Ref.unreachable) Ref.spanish
            (lit "B1") [])
     = Raise AttributeError
  /\ parse_response (Ref.env [lit "<b"] Ref.unreachable) (lit "<b") = None
  /\ fst (run_full_lesson_generation (Ref.env [lit "<b"] Ref.unreachable) Ref.spanish
            (lit "B1") [])
     = Raise ValueError.
Proof.
  cbv zeta. split; [eexists|]; repeat split; vm_compute; reflexivity.
Qed.

(** ** The entry point of the form *)

(** X15. Where [generate_lesson] takes its keys from.  With an OpenAI key in
    the form the environment is not consulted; without one both keys come from
    the environment, so an audio key typed into the form is ignored; and with
    no OpenAI key in either place the warning is returned and nothing at all
    is done. *)
Theorem generate_lesson_keys
    (E : Env) (getenv : str -> option str) (error_text : exn -> str)
    (api_key elevenlabs_key : option str) (language level model : str) (t : trace) :
  (key_given api_key = true ->
   forall getenv',
     generate_lesson E getenv error_text api_key elevenlabs_key language level model t
     = generate_lesson E getenv' error_text api_key elevenlabs_key language level model t)
  /\ (key_given api_key = false ->
      forall other_key,
        generate_lesson E getenv error_text api_key elevenlabs_key language level model t
        = generate_lesson E getenv error_text api_key other_key language level model t)
  /\ (key_given api_key = false ->
      key_given (getenv (lit "OPENAI_API_KEY")) = false ->
      generate_lesson E getenv error_text api_key elevenlabs_key language level model t
      = (([8218; 246; 8224; 212; 8719; 232]%N ++ lit " Please enter your OpenAI API key",
          None, None), t)).
Proof.
  unfold generate_lesson. split; [|split].
  - intros Hkey getenv'. rewrite Hkey. reflexivity.
  - intros Hkey other_key. rewrite Hkey. reflexivity.
  - intros Hkey Henv. rewrite Hkey. cbn [negb fst]. rewrite Henv. reflexivity.
Qed.

(** X16. What the form gets back.  A document path is returned only together
    with the text of a lesson the run has completed: the run has then sent its
    four chat requests and built that very document, once.  Without a document
    path there is no audio path either. *)
Theorem generate_lesson_paths
    (E : Env) (getenv : str -> option str) (error_text : exn -> str)
    (api_key elevenlabs_key : option str) (language level model : str)
    (t t' : trace) (text : str) (pdf audio : option str) :
  generate_lesson E getenv error_text api_key elevenlabs_key language level model t
  = ((text, pdf, audio), t') ->
  (pdf = None -> audio = None)
  /\ forall path, pdf = Some path ->
       exists content added elements,
         format_lesson_display E content = Return text
         /\ t' = t ++ added
         /\ length (filter is_chat added) = 4
         /\ filter is_build added = [EBuild path elements].
Proof.
  unfold generate_lesson.
  set (keys := if negb (key_given api_key) then _ else _).
  destruct (negb (key_given (fst keys))).
  { intros [= <- <- <- <-]. split; [reflexivity | discriminate]. }
  set (system := Build_BibleLanguageLearningSystem model language (snd keys)).
  destruct (run_full_lesson_generation E system level t)
    as [[[[content pdf_path] audio_path]|e] t1] eqn:Hrun.
  - destruct (format_lesson_display E content) as [display_text|e] eqn:Hshow.
    + intros [= <- <- <- <-]. split; [discriminate|].
      intros path [= <-].
      apply run_returned in Hrun.
      destruct Hrun as (vd & rd & ld & ans & q1 & q2 & q3 & q4 & before
                        & Hc & _ & Hb & _ & _ & _ & _ & H).
      apply finish_returned in H.
      destruct H as (_ & _ & _ & added & elements & -> & Hc' & _ & Hb').
      exists content, (before ++ added), elements.
      split; [exact Hshow|]. split; [symmetry; apply app_assoc|].
      rewrite !filter_app, Hc, Hc', Hb, Hb'. split; reflexivity.
    + intros [= <- <- <- <-]. split; [reflexivity | discriminate].
  - intros [= <- <- <- <-]. split; [reflexivity | discriminate].
Qed.

Lemma generate_lesson_paths_witness :
  exists text pdf audio t' path,
    generate_lesson Ref.well_answered (fun _ => None) (fun _ => lit "error")
      (Some (lit "sk-test")) None (lit "Spanish") (lit "B1") (lit "gpt-4o-mini") []
    = ((text, pdf, audio), t')
    /\ pdf = Some path
    /\ exists added elements,
         t' = [] ++ added /\ filter is_build added = [EBuild path elements].
Proof.
  destruct (generate_lesson Ref.well_answered (fun _ => None) (fun _ => lit "error")
              (Some (lit "sk-test")) None (lit "Spanish") (lit "B1") (lit "gpt-4o-mini") [])
    as [[[text pdf] audio] t'] eqn:Hrun.
  destruct pdf as [path|] eqn:Hpdf.
  - destruct (generate_lesson_paths _ _ _ _ _ _ _ _ _ _ _ _ _ Hrun) as [_ Hsome].
    destruct (Hsome path eq_refl) as (content & added & elements & _ & Ht & _ & Hb).
    exists text, (Some path), audio, t', path.
    split; [reflexivity|]. split; [reflexivity|].
    exists added, elements. split; assumption.
  - exfalso.
    apply (f_equal (fun r => match snd (fst (fst r)) with
                             | Some _ => true
                             | None => false
                             end)) in Hrun.
    vm_compute in Hrun. discriminate.
Defined.

(** X17. The document can be built and then withheld: when the run completes
    with a bundle the formatter rejects (an exercise list of plain strings,
    say), the form gets the error text and no path, although the document of
    that run has been written. *)
Theorem document_built_and_withheld
    (E : Env) (getenv : str -> option str) (error_text : exn -> str)
    (api_key elevenlabs_key : option str) (language level model : str)
    (t t' : trace) (content : dict) (pdf_path : str) (audio_path : option str) :
  key_given api_key = true ->
  run_full_lesson_generation E (Build_BibleLanguageLearningSystem model language elevenlabs_key)
    level t = (Return (PDict content, pdf_path, audio_path), t') ->
  displayable content = false ->
  exists e added elements,
    generate_lesson E getenv error_text api_key elevenlabs_key language level model t
    = (([8218; 249; 229]%N ++ lit " Error: " ++ error_text e, None, None), t')
    /\ t' = t ++ added
    /\ filter is_build added = [EBuild pdf_path elements].
Proof.
  intros Hkey Hrun Hshow.
  destruct (proj2 (display_outcome E content) Hshow) as [e He].
  unfold generate_lesson. rewrite Hkey. cbn [negb fst snd]. rewrite Hkey. cbn [negb].
  rewrite Hrun, He.
  apply run_returned in Hrun.
  destruct Hrun as (vd & rd & ld & ans & q1 & q2 & q3 & q4 & before
                    & _ & _ & Hb & _ & _ & _ & _ & H).
  apply finish_returned in H.
  destruct H as (_ & _ & _ & added & elements & -> & _ & _ & Hb').
  exists e, (before ++ added), elements.
  split; [reflexivity|]. split; [symmetry; apply app_assoc|].
  rewrite filter_app, Hb, Hb'. reflexivity.
Qed.

Lemma document_built_and_withheld_witness :
  let run := run_full_lesson_generation Ref.plain_questions Ref.spanish (lit "B1") [] in
  let content := match fst run with Return (PDict c, _, _) => c | _ => [] end in
  let pdf_path := match fst run with Return (_, p, _) => p | _ => [] end in
  displayable content = false
  /\ exists (e : exn) added elements,
       generate_lesson Ref.plain_questions (fun _ => None) (fun _ => lit "error")
         (Some (lit "sk-test")) None (lit "Spanish") (lit "B1") (lit "gpt-4o-mini") []
       = (([8218; 249; 229]%N ++ lit " Error: " ++ lit "error", None, None), snd run)
       /\ snd run = [] ++ added
       /\ filter is_build added = [EBuild pdf_path elements].
Proof.
  cbv zeta. split; [vm_compute; reflexivity|].
  destruct (document_built_and_withheld Ref.plain_questions (fun _ => None)
              (fun _ => lit "error") (Some (lit "sk-test")) None
              (lit "Spanish") (lit "B1") (lit "gpt-4o-mini") []
              (snd (run_full_lesson_generation Ref.plain_questions Ref.spanish (lit "B1") []))
              (match fst (run_full_lesson_generation Ref.plain_questions Ref.spanish
                            (lit "B1") [])
               with Return (PDict c, _, _) => c | _ => [] end)
              (match fst (run_full_lesson_generation Ref.plain_questions Ref.spanish
                            (lit "B1") [])
               with Return (_, p, _) => p | _ => [] end)
              None)
    as (e & added & elements & Hgen & Ht & Hb).
  - reflexivity.
  - vm_compute. reflexivity.
  - vm_compute. reflexivity.
  - exists e, added, elements. auto.
Defined.

(** ** The three lookup keys of the formatter *)

Lemma skipn_length_app {A} (a b : list A) : skipn (length a) (a ++ b) = b.
Proof. induction a; simpl; auto. Qed.

(** Replacing a prefix that does not occur again. *)
Lemma replace_prefix (old new x : str) :
  old <> [] -> contains x old = false -> replace (old ++ x) old new = new ++ x.
Proof.
  intros Hold Hx. unfold replace.
  rewrite (split_some _ _ 0 Hold (find_at_prefix old x)).
  cbn [firstn Nat.add]. rewrite skipn_length_app.
  rewrite (split_none _ _ (contains_false_find _ _ Hx)). reflexivity.
Qed.

(** X18. The formatter shows the meditation and the reading of the language of
    its primary verse key: when the first language key of the verse record is
    [verse_text_x], the three fields read are [verse_text_x], [meditation_x]
    and [reading_text_x].  With [x] the lower-cased target language these are
    the fields the agents are asked to write and the renderer reads. *)
Theorem formatter_keys_share_the_language
    (E : Env) (content verse : dict) (before after : list str) (x : str) :
  bundle_part content (lit "verse_data") = PDict verse ->
  dict_keys verse = before ++ (lit "verse_text_" ++ x) :: after ->
  lang_keys before = [] ->
  x <> lit "english" ->
  contains x (lit "verse_text_") = false ->
  format_lesson_display E (PDict content)
  = display_with E (lit "verse_text_" ++ x) (lit "meditation_" ++ x)
      (lit "reading_text_" ++ x)
      (PDict verse) (bundle_part content (lit "reading_data"))
      (bundle_part content (lit "lesson_data")).
Proof.
  intros Hverse Hkeys Hbefore Hx Hsuffix.
  rewrite (format_lesson_display_keys E content verse Hverse). cbv zeta.
  rewrite Hkeys.
  assert (Hk : verse_lang_key (before ++ (lit "verse_text_" ++ x) :: after)
               = lit "verse_text_" ++ x).
  { apply verse_lang_key_first.
    - exact Hbefore.
    - apply startswith_app.
    - exact (english_key "verse_text_" x Hx). }
  rewrite Hk.
  rewrite !replace_prefix by (first [exact Hsuffix | discriminate]).
  reflexivity.
Qed.

Lemma formatter_keys_share_the_language_witness :
  let verse :=
    [ (lit "verse_reference", PStr (lit "Juan 3:16"));
      (lit "verse_text_english", PStr (lit "For God so loved the world"));
      (lit "verse_text_spanish", PStr (lit "Porque de tal manera amo Dios al mundo"));
      (lit "meditation_spanish", PStr (lit "Dios ama.")) ] in
  let content := [ (lit "verse_data", PDict verse) ] in
  format_lesson_display Ref.well_answered (PDict content)
  = display_with Ref.well_answered (lit "verse_text_spanish") (lit "meditation_spanish")
      (lit "reading_text_spanish") (PDict verse) (PDict []) (PDict []).
Proof.
  cbv zeta.
  apply (formatter_keys_share_the_language Ref.well_answered
           [ (lit "verse_data",
               PDict [ (lit "verse_reference", PStr (lit "Juan 3:16"));
                       (lit "verse_text_english", PStr (lit "For God so loved the world"));
                       (lit "verse_text_spanish",
                         PStr (lit "Porque de tal manera amo Dios al mundo"));
                       (lit "meditation_spanish", PStr (lit "Dios ama.")) ]) ]
           _ [lit "verse_reference"; lit "verse_text_english"] [lit "meditation_spanish"]
           (lit "spanish")).
  - reflexivity.
  - reflexivity.
  - reflexivity.
  - discriminate.
  - reflexivity.
Defined.

(** ** Numbered sections of the document *)

Lemma numbered_pairs {A B} (g : nat -> A -> B) (sp : B) (l : list A) :
  forall start,
    length (flat_map (fun '(i, a) => [g i a; sp]) (combine (seq start (length l)) l))
    = 2 * length l
    /\ forall k x, nth_error l k = Some x ->
         nth_error (flat_map (fun '(i, a) => [g i a; sp])
                      (combine (seq start (length l)) l)) (2 * k)
         = Some (g (start + k) x).
Proof.
  induction l as [|a l IH]; intros start.
  - split; [reflexivity|]. intros [|k] x; discriminate.
  - destruct (IH (S start)) as [Hlen Hnth]. split.
    + cbn [length seq combine flat_map app]. rewrite Hlen. lia.
    + intros [|k] x Hx.
      * injection Hx as ->. cbn. rewrite Nat.add_0_r. reflexivity.
      * cbn [length seq combine flat_map app].
        replace (2 * S k) with (S (S (2 * k))) by lia. cbn [nth_error].
        rewrite (Hnth k x Hx). f_equal. f_equal. lia.
Qed.

(** X19. Every item of an exercise list becomes one numbered paragraph, in the
    order of the list and counted from 1, a dict by its question and anything
    else by its text; a value that is no list leaves the section with its
    heading only, without any error. *)
Theorem exercises_are_numbered_in_order (E : Env) (title : str) (l : list pyval) :
  length (_add_exercises E title (PList l)) = 3 + 2 * length l
  /\ (forall k ex, nth_error l k = Some ex ->
        nth_error (_add_exercises E title (PList l)) (2 + 2 * k)
        = Some (Paragraph
                  (PStr (decimal (S k) ++ lit ". "
                         ++ fmt E (match ex with
                                   | PDict d =>
                                       lookup_or d (lit "question") (PStr (fmt E ex))
                                   | _ => PStr (fmt E ex)
                                   end)))
                  BodyText))
  /\ forall v, (forall items, v <> PList items) ->
       _add_exercises E title v
       = [ Paragraph (PStr title) Heading2; Spacer 1 (0.1 * inch);
           Spacer 1 (0.3 * inch) ].
Proof.
  unfold _add_exercises.
  set (g := fun (i : nat) (ex : pyval) =>
              Paragraph
                (PStr (decimal i ++ lit ". "
                       ++ fmt E (match ex with
                                 | PDict d =>
                                     lookup_or d (lit "question") (PStr (fmt E ex))
                                 | _ => PStr (fmt E ex)
                                 end)))
                BodyText).
  destruct (numbered_pairs g (Spacer 1 (0.15 * inch)) l 1) as [Hlen Hnth].
  split; [|split].
  - cbn [app length]. rewrite length_app. unfold enumerate1.
    change (length (flat_map _ (combine (seq 1 (length l)) l)))
      with (length (flat_map (fun '(i, a) => [g i a; Spacer 1 (0.15 * inch)])
                      (combine (seq 1 (length l)) l))).
    rewrite Hlen. cbn [length]. lia.
  - intros k ex Hex. cbn [app Nat.add nth_error]. unfold enumerate1.
    change (flat_map _ (combine (seq 1 (length l)) l))
      with (flat_map (fun '(i, a) => [g i a; Spacer 1 (0.15 * inch)])
              (combine (seq 1 (length l)) l)).
    rewrite nth_error_app1.
    + rewrite (Hnth k ex Hex). reflexivity.
    + rewrite Hlen.
      assert (k < length l) by (apply nth_error_Some; rewrite Hex; discriminate).
      lia.
  - intros v Hv. destruct v; try reflexivity. exfalso. exact (Hv _ eq_refl).
Qed.

(** X20. Every item of an answer list becomes one numbered paragraph, in the
    order of the list and counted from 1: a dict by its answer in bold,
    followed by its explanation in parentheses only when there is one, and
    anything else by its text; a value that is no list leaves the section with
    its heading only. *)
Theorem answers_are_numbered_in_order (E : Env) (title : str) (l : list pyval) :
  length (_add_answers E title (PList l)) = 3 + 2 * length l
  /\ (forall k ans, nth_error l k = Some ans ->
        nth_error (_add_answers E title (PList l)) (2 + 2 * k)
        = Some (Paragraph
                  (PStr (match ans with
                         | PDict d =>
                             decimal (S k) ++ lit ". <b>"
                             ++ fmt E (lookup_or d (lit "answer") (PStr []))
                             ++ lit "</b>"
                             ++ (if truthy (lookup_or d (lit "explanation") (PStr []))
                                 then lit " <i>("
                                      ++ fmt E (lookup_or d (lit "explanation") (PStr []))
                                      ++ lit ")</i>"
                                 else [])
                         | _ => decimal (S k) ++ lit ". " ++ fmt E ans
                         end))
                  BodyText))
  /\ forall v, (forall items, v <> PList items) ->
       _add_answers E title v
       = [ Paragraph (PStr (lit "<b>" ++ title ++ lit "</b>")) Heading3;
           Spacer 1 (0.1 * inch); Spacer 1 (0.2 * inch) ].
Proof.
  unfold _add_answers.
  set (g := fun (i : nat) (ans : pyval) =>
              Paragraph
                (PStr (match ans with
                       | PDict d =>
                           decimal i ++ lit ". <b>"
                           ++ fmt E (lookup_or d (lit "answer") (PStr []))
                           ++ lit "</b>"
                           ++ (if truthy (lookup_or d (lit "explanation") (PStr []))
                               then lit " <i>("
                                    ++ fmt E (lookup_or d (lit "explanation") (PStr []))
                                    ++ lit ")</i>"
                               else [])
                       | _ => decimal i ++ lit ". " ++ fmt E ans
                       end))
                BodyText).
  destruct (numbered_pairs g (Spacer 1 (0.1 * inch)) l 1) as [Hlen Hnth].
  split; [|split].
  - cbn [app length]. rewrite length_app. unfold enumerate1.
    change (length (flat_map _ (combine (seq 1 (length l)) l)))
      with (length (flat_map (fun '(i, a) => [g i a; Spacer 1 (0.1 * inch)])
                      (combine (seq 1 (length l)) l))).
    rewrite Hlen. cbn [length]. lia.
  - intros k ans Hans. cbn [app Nat.add nth_error]. unfold enumerate1.
    change (flat_map _ (combine (seq 1 (length l)) l))
      with (flat_map (fun '(i, a) => [g i a; Spacer 1 (0.1 * inch)])
              (combine (seq 1 (length l)) l)).
    rewrite nth_error_app1.
    + rewrite (Hnth k ans Hans). reflexivity.
    + rewrite Hlen.
      assert (k < length l) by (apply nth_error_Some; rewrite Hans; discriminate).
      lia.
  - intros v Hv. destruct v; try reflexivity. exfalso. exact (Hv _ eq_refl).
Qed.
